(** * technical_seo_auditor: sitemap resolver and per-page SEO audit

    Shallow embedding of [technical_seo_auditor.py].

    Conventions of the embedding.
    - A Python [str] is a [string]; a character is a code point below 256.
    - A Python [int] is a [Z].
    - A Python [set] of strings is a [gset string]; a [dict] keyed by
      attribute names is a [gmap string string].
    - The [while] loop of [parse_sitemap] is run with fuel; termination is
      proved separately.
    - [requests.get], [ET.fromstring], [BeautifulSoup(html, "html.parser")]
      and [urlparse] belong to libraries and are parameters of the
      development. *)

From Stdlib Require Import ZArith Lia String Ascii List.
From stdpp Require Import base option list gmap sets strings.

Set Warnings "-register-all,-clear-no-such-hyp".

Local Open Scope string_scope.
Local Open Scope Z_scope.

(* ===================================================================== *)
(** ** Python string methods used by the program *)
(* ===================================================================== *)

Module PyStr.

(** [str.isspace] on one character: TAB, LF, VT, FF, CR, the separators
    0x1c..0x1f, SPACE, NEL (0x85) and NBSP (0xa0). *)
Definition is_space (c : ascii) : bool :=
  let n := nat_of_ascii c in
  ((9 <=? n) && (n <=? 13) || (28 <=? n) && (n <=? 32)
   || (n =? 133) || (n =? 160))%nat.

(** [s.lstrip()]. *)
Fixpoint lstrip (s : string) : string :=
  match s with
  | String c s' => if is_space c then lstrip s' else s
  | EmptyString => EmptyString
  end.

(** Drop the trailing characters that satisfy [p]. *)
Fixpoint rstrip_by (p : ascii -> bool) (s : string) : string :=
  match s with
  | EmptyString => EmptyString
  | String c s' =>
      match rstrip_by p s' with
      | EmptyString => if p c then EmptyString else String c EmptyString
      | r => String c r
      end
  end.

(** [s.rstrip()] and [s.strip()]. *)
Definition rstrip (s : string) : string := rstrip_by is_space s.
Definition strip (s : string) : string := rstrip (lstrip s).

(** [s.rstrip('/')]. *)
Definition rstrip_slash (s : string) : string :=
  rstrip_by (fun c => Ascii.eqb c "/"%char) s.

(** [s.startswith(p)] and [s.endswith(p)]. *)
Fixpoint startswith (s p : string) {struct p} : bool :=
  match p with
  | EmptyString => true
  | String b p' =>
      match s with
      | EmptyString => false
      | String a s' => Ascii.eqb a b && startswith s' p'
      end
  end.

Fixpoint endswith (s p : string) : bool :=
  String.eqb s p
  || match s with
     | EmptyString => false
     | String _ s' => endswith s' p
     end.

(** [s[n:]]. *)
Fixpoint drop (n : nat) (s : string) : string :=
  match n, s with
  | O, _ => s
  | S n', String _ s' => drop n' s'
  | S _, EmptyString => EmptyString
  end.

(** [c in s]. *)
Fixpoint contains (c : ascii) (s : string) : bool :=
  match s with
  | EmptyString => false
  | String d s' => Ascii.eqb c d || contains c s'
  end.

(** [s.split(c, 1)[1]] for an [s] that contains [c]: what follows the
    first [c]. *)
Fixpoint after_first (c : ascii) (s : string) : string :=
  match s with
  | EmptyString => EmptyString
  | String d s' => if Ascii.eqb c d then s' else after_first c s'
  end.

(** [str.lower] on one character: A-Z, and the capital letters of
    0xc0..0xde except the multiplication sign 0xd7. *)
Definition lower_char (c : ascii) : ascii :=
  let n := nat_of_ascii c in
  if ((65 <=? n) && (n <=? 90)
      || (192 <=? n) && (n <=? 222) && negb (n =? 215))%nat
  then ascii_of_nat (n + 32) else c.

Fixpoint lower (s : string) : string :=
  match s with
  | EmptyString => EmptyString
  | String c s' => String (lower_char c) (lower s')
  end.

(** [len(s)]. *)
Definition len (s : string) : Z := Z.of_nat (String.length s).

(** Truth value of a string: non-empty. *)
Definition truthy (s : string) : bool :=
  match s with EmptyString => false | _ => true end.

(** [sep.join(l)]. *)
Fixpoint join (sep : string) (l : list string) : string :=
  match l with
  | [] => EmptyString
  | [x] => x
  | x :: rest => x ++ sep ++ join sep rest
  end.

End PyStr.

(* ===================================================================== *)
(** ** Constants *)
(* ===================================================================== *)

Definition THIN_CONTENT_THRESHOLD : Z := 300.
Definition TITLE_MIN_LEN : Z := 30.
Definition TITLE_MAX_LEN : Z := 60.
Definition DESC_MIN_LEN : Z := 50.
Definition DESC_MAX_LEN : Z := 160.

(* ===================================================================== *)
(** ** Page records and the severity cascade *)
(* ===================================================================== *)

(** The dictionary built by [audit_html], and by the fallback branch of
    [main]: fifteen fixed keys. *)
Record AuditData := mkAuditData {
  word_count : Z;
  is_thin_content : Z;
  title : string;
  title_len : Z;
  title_status : string;
  meta_desc : string;
  meta_desc_len : Z;
  meta_desc_status : string;
  h1_count : Z;
  canonical_link : string;
  canonical_status : string;
  internal_links : Z;
  external_links : Z;
  broken_anchors : Z;
  img_missing_alt : Z
}.

(** The same dictionary after [data["http_status"] = status]: the argument
    of [compute_severity]. *)
Record Metrics := mkMetrics {
  http_status : Z;
  data : AuditData
}.

(** The dataclass [SeoMetrics]: one row of the report. *)
Record SeoMetrics := mkSeoMetrics {
  url : string;
  severity : string;
  row : Metrics
}.

(** Truth value of a Python integer. *)
Definition int_truthy (n : Z) : bool := negb (n =? 0).

Definition compute_severity (m : Metrics) : string :=
  if 400 <=? http_status m then "ERROR"
  else if h1_count (data m) =? 0 then "ERROR"
  else if String.eqb (canonical_status (data m)) "MISSING" then "ERROR"
  else if String.eqb (title_status (data m)) "MISSING" then "ERROR"
  else if int_truthy (is_thin_content (data m)) then "WARN"
  else if negb (String.eqb (meta_desc_status (data m)) "OK") then "WARN"
  else if negb (String.eqb (title_status (data m)) "OK") then "WARN"
  else if 0 <? broken_anchors (data m) then "WARN"
  else if 0 <? img_missing_alt (data m) then "WARN"
  else "OK".

(** The cascade as the specification words it: an ordered list of
    predicate/outcome pairs, evaluated top to bottom, first match wins. *)
Definition severity_rules : list ((Metrics -> bool) * string) :=
  [ (fun m => 400 <=? http_status m, "ERROR");
    (fun m => h1_count (data m) =? 0, "ERROR");
    (fun m => String.eqb (canonical_status (data m)) "MISSING", "ERROR");
    (fun m => String.eqb (title_status (data m)) "MISSING", "ERROR");
    (fun m => int_truthy (is_thin_content (data m)), "WARN");
    (fun m => negb (String.eqb (meta_desc_status (data m)) "OK"), "WARN");
    (fun m => negb (String.eqb (title_status (data m)) "OK"), "WARN");
    (fun m => 0 <? broken_anchors (data m), "WARN");
    (fun m => 0 <? img_missing_alt (data m), "WARN") ].

Fixpoint first_match (rules : list ((Metrics -> bool) * string))
    (otherwise : string) (m : Metrics) : string :=
  match rules with
  | [] => otherwise
  | (p, outcome) :: rest => if p m then outcome else first_match rest otherwise m
  end.

(** No rule with outcome ERROR matches. *)
Definition no_error_rule (m : Metrics) : Prop :=
  http_status m < 400
  /\ h1_count (data m) ≠ 0
  /\ canonical_status (data m) ≠ "MISSING"
  /\ title_status (data m) ≠ "MISSING".

(* ===================================================================== *)
(** ** Helpers of the program *)
(* ===================================================================== *)

(** [re.sub(r"\s+", " ", s)]: every maximal run of white space becomes one
    space; [in_run] tells that the previous character was white space. *)
Fixpoint sub_spaces (in_run : bool) (s : string) : string :=
  match s with
  | EmptyString => EmptyString
  | String c s' =>
      if PyStr.is_space c
      then (if in_run then sub_spaces true s'
            else String " "%char (sub_spaces true s'))
      else String c (sub_spaces false s')
  end.

Definition _normalize_space (s : string) : string :=
  sub_spaces false (PyStr.strip s).

(** A character of the class [[A-Za-z0-9']]. *)
Definition is_word_char (c : ascii) : bool :=
  let n := nat_of_ascii c in
  ((65 <=? n) && (n <=? 90) || (97 <=? n) && (n <=? 122)
   || (48 <=? n) && (n <=? 57) || (n =? 39))%nat.

(** [len(WORD_RE.findall(s))]: the number of maximal runs of word
    characters; [in_word] tells that the previous character was one. *)
Fixpoint count_runs (in_word : bool) (s : string) : Z :=
  match s with
  | EmptyString => 0
  | String c s' =>
      if is_word_char c
      then (if in_word then count_runs true s' else 1 + count_runs true s')
      else count_runs false s'
  end.

Definition _count_words (text : string) : Z := count_runs false text.

Section Collaborators.

(** [urlparse(href).netloc]; [None] when [urlparse] raises. *)
Variable urlparse_netloc : string -> option string.

(** [requests.get(url, headers={"User-Agent": ua}, timeout=timeout,
    allow_redirects=True)]: the status code and the text of the response;
    [None] when it raises [requests.RequestException]. *)
Variable requests_get : string -> string -> Z -> option (Z * string).

Definition _get_domain (href : string) : string :=
  match urlparse_netloc href with
  | Some netloc =>
      let host := PyStr.lower netloc in
      if PyStr.startswith host "www." then PyStr.drop 4 host else host
  | None => ""
  end.

Definition _fetch_text (url : string) (timeout : Z) (ua : string)
    : Z * string :=
  match requests_get url ua timeout with
  | Some (status_code, text) => (status_code, text)
  | None => (0, "")
  end.

End Collaborators.

(* ===================================================================== *)
(** ** The markup tree handed over by the HTML parser *)
(* ===================================================================== *)

(** The classes of text node below [NavigableString]: the tree builder
    makes a comment a [Comment], the text of a [script], [style] or
    [template] element a [Script], [Stylesheet] or [TemplateString], and so
    on. *)
Inductive StringClass :=
| CData
| Comment
| Declaration
| Doctype
| ProcessingInstruction
| Script
| Stylesheet
| TemplateString
| RubyTextString
| RubyParenthesisString.

(** What [BeautifulSoup(html, "html.parser")] builds: text nodes, plain
    ([NavigableString]) or of one of the classes above, and tags with a
    name, an attribute dictionary and contents. The soup itself is the
    list of its top-level nodes. *)
Inductive Node :=
| NavigableString (s : string)
| SpecialString (cls : StringClass) (s : string)
| Tag (name : string) (attrs : gmap string string) (contents : list Node).

(** [get_text] keeps a text node when its class is one of the interesting
    string types of the element it is called on; for the soup and for a
    [title] element these are [NavigableString] and [CData]. *)
Definition text_kept (cls : StringClass) : bool :=
  match cls with
  | CData => true
  | _ => false
  end.

(** A node followed by all its descendants, in document order. *)
Fixpoint self_and_descendants (n : Node) : list Node :=
  match n with
  | NavigableString _ => [n]
  | SpecialString _ _ => [n]
  | Tag _ _ cs => n :: flat_map self_and_descendants cs
  end.

Definition descendants (soup : list Node) : list Node :=
  flat_map self_and_descendants soup.

Definition is_tag (n : Node) : bool :=
  match n with
  | Tag _ _ _ => true
  | NavigableString _ => false
  | SpecialString _ _ => false
  end.

Definition tag_named (nm : string) (n : Node) : bool :=
  match n with
  | Tag name _ _ => String.eqb name nm
  | NavigableString _ => false
  | SpecialString _ _ => false
  end.

(** [tag.get(key)]. *)
Definition get (n : Node) (key : string) : option string :=
  match n with
  | Tag _ attrs _ => attrs !! key
  | NavigableString _ => None
  | SpecialString _ _ => None
  end.

(** [tag.get(key) or ""], also the string tested by [if tag.get(key)]. *)
Definition get_or_empty (n : Node) (key : string) : string :=
  default "" (get n key).

(** [soup.find_all(True)] and [soup.find_all(name)]. *)
Definition find_all_tags (soup : list Node) : list Node :=
  List.filter is_tag (descendants soup).

Definition find_all (soup : list Node) (nm : string) : list Node :=
  List.filter (tag_named nm) (descendants soup).

(** [soup.find(name)]. *)
Definition find (soup : list Node) (nm : string) : option Node :=
  head (find_all soup nm).

(** [soup.find(name, attrs={key: value})] for a single-valued attribute:
    the value is compared as a whole. *)
Definition has_attr_value (key value : string) (n : Node) : bool :=
  match get n key with
  | Some v => String.eqb v value
  | None => false
  end.

Definition find_attr (soup : list Node) (nm key value : string)
    : option Node :=
  head (List.filter (has_attr_value key value) (find_all soup nm)).

(** The white-space separated values of a multi-valued attribute ([rel],
    [class], ...), which the parser stores as a list; [cur] is the value
    being read. *)
Fixpoint attr_values_from (cur : option string) (s : string) : list string :=
  match s with
  | EmptyString =>
      match cur with Some w => [w] | None => [] end
  | String c s' =>
      if PyStr.is_space c
      then match cur with
           | Some w => w :: attr_values_from None s'
           | None => attr_values_from None s'
           end
      else attr_values_from (Some (default "" cur ++ String c "")) s'
  end.

Definition attr_values (s : string) : list string := attr_values_from None s.

(** [soup.find(name, rel=value)]: [rel] is multi-valued; the tag matches
    when one of its values is [value], or the values joined by single
    spaces are. *)
Definition has_rel (value : string) (n : Node) : bool :=
  match get n "rel" with
  | Some v =>
      existsb (String.eqb value) (attr_values v)
      || String.eqb (PyStr.join " " (attr_values v)) value
  | None => false
  end.

Definition find_rel (soup : list Node) (nm value : string) : option Node :=
  head (List.filter (has_rel value) (find_all soup nm)).

(** The text nodes below a node that [get_text] yields, in document order:
    the plain strings and the CDATA sections; comments, declarations and
    the text of [script], [style] and [template] elements are passed
    over. *)
Fixpoint strings (n : Node) : list string :=
  match n with
  | NavigableString s => [s]
  | SpecialString cls s => if text_kept cls then [s] else []
  | Tag _ _ cs => flat_map strings cs
  end.

(** [soup.get_text(sep)]. *)
Definition get_text (soup : list Node) (sep : string) : string :=
  PyStr.join sep (flat_map strings soup).

(** [tag.get_text(strip=True)]: every text node that [get_text] yields,
    stripped, the empty ones dropped, joined without separator. *)
Definition get_text_strip (n : Node) : string :=
  PyStr.join "" (List.filter PyStr.truthy (map PyStr.strip (strings n))).

(* ===================================================================== *)
(** ** The per-page audit *)
(* ===================================================================== *)

Section PageAuditor.

Variable urlparse_netloc : string -> option string.

(** [BeautifulSoup(html, "html.parser")]. *)
Variable BeautifulSoup : string -> list Node.

(** The set comprehension of step 5: the non-empty [id] values of all
    tags. *)
Definition collect_ids (soup : list Node) : gset string :=
  list_to_set
    (List.filter PyStr.truthy
       (map (fun tag => get_or_empty tag "id") (find_all_tags soup))).

(** One round of the loop over [soup.find_all("a")]; the accumulator is
    [(internal, external, broken_anchors)]. *)
Definition classify_link (ids : gset string) (domain : string)
    (acc : Z * Z * Z) (a : Node) : Z * Z * Z :=
  let '(internal, external, broken_anchors) := acc in
  let href := get_or_empty a "href" in
  if negb (PyStr.truthy href)
     || PyStr.startswith href "mailto:"
     || PyStr.startswith href "tel:"
     || PyStr.startswith href "javascript:"
  then acc
  else if PyStr.startswith href "#" then
    if (1 <? PyStr.len href) && negb (bool_decide (PyStr.drop 1 href ∈ ids))
    then (internal, external, broken_anchors + 1)
    else acc
  else
    let link_domain := _get_domain urlparse_netloc href in
    if negb (PyStr.truthy link_domain) then
      (internal + 1, external, broken_anchors)
    else if String.eqb link_domain domain
            || PyStr.endswith link_domain ("." ++ domain) then
      (internal + 1, external, broken_anchors)
    else
      (internal, external + 1, broken_anchors).

(** The number of anchors on which one round of the loop changes the
    counters by [delta]. *)
Definition links_changing (delta : Z * Z * Z) (ids : gset string)
    (domain : string) (anchors : list Node) : Z :=
  Z.of_nat
    (length
       (List.filter
          (fun a => bool_decide (classify_link ids domain (0, 0, 0) a = delta))
          anchors)).

Definition audit_html (url html domain : string) : AuditData :=
  let soup := BeautifulSoup html in
  let text_all := _normalize_space (get_text soup " ") in
  let word_count := _count_words text_all in
  (* 1. Title *)
  let title_tag := find soup "title" in
  let title :=
    match title_tag with
    | Some t => get_text_strip t
    | None => ""
    end in
  let t_len := PyStr.len title in
  let t_status :=
    if t_len =? 0 then "MISSING"
    else if t_len <? TITLE_MIN_LEN then "TOO_SHORT"
    else if TITLE_MAX_LEN <? t_len then "TOO_LONG"
    else "OK" in
  (* 2. Description *)
  let d_tag := find_attr soup "meta" "name" "description" in
  let meta_desc :=
    match d_tag with
    | Some d =>
        if PyStr.truthy (get_or_empty d "content")
        then PyStr.strip (get_or_empty d "content")
        else ""
    | None => ""
    end in
  let d_len := PyStr.len meta_desc in
  let d_status :=
    if d_len =? 0 then "MISSING"
    else if d_len <? DESC_MIN_LEN then "TOO_SHORT"
    else if DESC_MAX_LEN <? d_len then "TOO_LONG"
    else "OK" in
  (* 3. Canonical *)
  let c_tag := find_rel soup "link" "canonical" in
  let canon_href :=
    match c_tag with
    | Some c =>
        if PyStr.truthy (get_or_empty c "href")
        then PyStr.strip (get_or_empty c "href")
        else ""
    | None => ""
    end in
  let c_status :=
    if PyStr.truthy canon_href then
      if String.eqb (PyStr.rstrip_slash canon_href) (PyStr.rstrip_slash url)
      then "SELF" else "OTHER"
    else "MISSING" in
  (* 4. Headings *)
  let h1_count := Z.of_nat (length (find_all soup "h1")) in
  (* 5. Links *)
  let ids := collect_ids soup in
  let '(internal, external, broken_anchors) :=
    fold_left (classify_link ids domain) (find_all soup "a") (0, 0, 0) in
  (* 6. Images *)
  let img_missing_alt :=
    Z.of_nat
      (length
         (List.filter (fun img => negb (PyStr.truthy (get_or_empty img "alt")))
            (find_all soup "img"))) in
  {| word_count := word_count;
     is_thin_content := if word_count <? THIN_CONTENT_THRESHOLD then 1 else 0;
     title := title;
     title_len := t_len;
     title_status := t_status;
     meta_desc := meta_desc;
     meta_desc_len := d_len;
     meta_desc_status := d_status;
     h1_count := h1_count;
     canonical_link := canon_href;
     canonical_status := c_status;
     internal_links := internal;
     external_links := external;
     broken_anchors := broken_anchors;
     img_missing_alt := img_missing_alt |}.

(* ------------------------------------------------------------------- *)
(** *** The report loop of [main], for one URL *)

Variable requests_get : string -> string -> Z -> option (Z * string).

Definition UA : string :=
  "Mozilla/5.0 (Windows NT 10.0; Win64; x64) AppleWebKit/537.36 (KHTML, like Gecko) Chrome/120.0.0.0 Safari/537.36".

(** The dictionary literal of the branch [status >= 400 or not html]. *)
Definition fallback_data : AuditData :=
  {| word_count := 0; is_thin_content := 0; title := ""; title_len := 0;
     title_status := "MISSING"; meta_desc := ""; meta_desc_len := 0;
     meta_desc_status := "MISSING"; h1_count := 0; canonical_link := "";
     canonical_status := "MISSING"; internal_links := 0; external_links := 0;
     broken_anchors := 0; img_missing_alt := 0 |}.

(** Lines 267-280, once [_fetch_text] has returned [(status, html)]. *)
Definition audit_fetched (url : string) (status : Z) (html domain : string)
    : SeoMetrics :=
  let data :=
    if (400 <=? status) || negb (PyStr.truthy html)
    then fallback_data
    else audit_html url html domain in
  let m := {| http_status := status; data := data |} in
  let sev := compute_severity m in
  {| url := url; severity := sev; row := m |}.

(** The body of [for idx, url in enumerate(urls, 1)]. *)
Definition main_row (url domain : string) : SeoMetrics :=
  let '(status, html) := _fetch_text requests_get url 20 UA in
  audit_fetched url status html domain.

End PageAuditor.

(* ===================================================================== *)
(** ** The sitemap resolver *)
(* ===================================================================== *)

(** What [ET.fromstring] builds: an element has a tag, an optional text
    and children. *)
Inductive Element :=
| Elem (tag : string) (text : option string) (children : list Element).

Definition tag (e : Element) : string :=
  match e with Elem t _ _ => t end.
Definition text (e : Element) : option string :=
  match e with Elem _ x _ => x end.
Definition children (e : Element) : list Element :=
  match e with Elem _ _ cs => cs end.

(** The loop over [root.iter()] that removes the namespaces: every tag
    with a closing brace keeps what follows the first one. *)
Definition strip_namespace (t : string) : string :=
  if PyStr.contains "}"%char t then PyStr.after_first "}"%char t else t.

Fixpoint strip_namespaces (e : Element) : Element :=
  match e with
  | Elem t x cs => Elem (strip_namespace t) x (map strip_namespaces cs)
  end.

(** [root.iter()]: the element and its descendants, in document order. *)
Fixpoint iter (e : Element) : list Element :=
  match e with
  | Elem _ _ cs => e :: flat_map iter cs
  end.

(** [e.findall(name)], [e.find(name)] and [e.findall(".//" + name)]. *)
Definition findall (e : Element) (nm : string) : list Element :=
  List.filter (fun c => String.eqb (tag c) nm) (children e).

Definition find_child (e : Element) (nm : string) : option Element :=
  head (findall e nm).

Definition findall_below (e : Element) (nm : string) : list Element :=
  List.filter (fun c => String.eqb (tag c) nm) (flat_map iter (children e)).

(** [loc.text.strip()] when [loc.text] is a non-empty string. *)
Definition loc_text (loc : Element) : option string :=
  match text loc with
  | Some s => if PyStr.truthy s then Some (PyStr.strip s) else None
  | None => None
  end.

(** The stripped text of the first [loc] child of every [nm] child that
    has one with text: the body shared by cases 1 and 2. *)
Definition child_locs (root : Element) (nm : string) : list string :=
  omap (fun entry => find_child entry "loc" ≫= loc_text) (findall root nm).

(** The stripped texts of all [loc] elements below the root that have
    text: the fallback case. *)
Definition all_locs (root : Element) : list string :=
  omap loc_text (findall_below root "loc").

Definition ends_with_xml (txt : string) : bool := PyStr.endswith txt ".xml".

(** The dispatch on the root tag (lines 79-103): what the document appends
    to [queue] and to [final_urls], in order. *)
Definition dispatch (seen : gset string) (root : Element)
    : list string * list string :=
  if String.eqb (PyStr.lower (tag root)) "sitemapindex" then
    (List.filter (fun nested_url => negb (bool_decide (nested_url ∈ seen)))
       (child_locs root "sitemap"), [])
  else if String.eqb (PyStr.lower (tag root)) "urlset" then
    ([], child_locs root "url")
  else
    (List.filter ends_with_xml (all_locs root),
     List.filter (fun txt => negb (ends_with_xml txt)) (all_locs root)).

(** The state of the loop of [parse_sitemap]; [fetched] records the calls
    of [_fetch_text], oldest first. *)
Record State := mkState {
  seen : gset string;
  final_urls : list string;
  queue : list string;
  fetched : list string
}.

Section SitemapResolver.

Variable requests_get : string -> string -> Z -> option (Z * string).

(** [ET.fromstring]; [None] when it raises [ET.ParseError]. *)
Variable ET_fromstring : string -> option Element.

Variable timeout : Z.
Variable ua : string.

(** Lines 65-107 for [current_url]: fetch, parse, remove the namespaces,
    dispatch. A failed fetch and invalid XML append nothing. *)
Definition visit (seen : gset string) (current_url : string)
    : list string * list string :=
  let '(code, xml_text) := _fetch_text requests_get current_url timeout ua in
  if negb (code =? 200) || negb (PyStr.truthy xml_text) then ([], [])
  else
    match ET_fromstring xml_text with
    | Some root => dispatch seen (strip_namespaces root)
    | None => ([], [])
    end.

(** One round of [while queue]. *)
Definition loop_body (st : State) : State :=
  match queue st with
  | [] => st
  | current_url :: rest =>
      if bool_decide (current_url ∈ seen st) then
        {| seen := seen st; final_urls := final_urls st; queue := rest;
           fetched := fetched st |}
      else
        let seen' := {[current_url]} ∪ seen st in
        let '(nested, pages) := visit seen' current_url in
        {| seen := seen'; final_urls := final_urls st ++ pages;
           queue := rest ++ nested;
           fetched := fetched st ++ [current_url] |}
  end.

Fixpoint while_queue (fuel : nat) (st : State) : option State :=
  match queue st with
  | [] => Some st
  | _ :: _ =>
      match fuel with
      | O => None
      | S n => while_queue n (loop_body st)
      end
  end.

Definition initial_state (sitemap_input : string) : State :=
  {| seen := ∅; final_urls := []; queue := [sitemap_input]; fetched := [] |}.

(** The state at the end of the loop. *)
Definition resolve (fuel : nat) (sitemap_input : string) : option State :=
  while_queue fuel (initial_state sitemap_input).

(** [list(set(final_urls))]; the order is the one of the set. *)
Definition parse_sitemap (fuel : nat) (sitemap_input : string)
    : option (list string) :=
  st ← resolve fuel sitemap_input;
  Some (elements (list_to_set (final_urls st) : gset string)).

(** The pages a document lists, whatever has been seen. *)
Definition pages_of (u : string) : list string := snd (visit ∅ u).

(** The URL serves a sitemap index: it is fetched with status 200 and its
    root tag, namespace removed and lower-cased, is [sitemapindex]. *)
Definition is_sitemap_index_url (u : string) : bool :=
  let '(code, xml_text) := _fetch_text requests_get u timeout ua in
  (code =? 200) && PyStr.truthy xml_text
  && match ET_fromstring xml_text with
     | Some root =>
         String.eqb (PyStr.lower (tag (strip_namespaces root))) "sitemapindex"
     | None => false
     end.

(** The state after [k] rounds of the loop. *)
Definition rounds (k : nat) (sitemap_input : string) : State :=
  Nat.iter k loop_body (initial_state sitemap_input).

(** Everything the document at [u] can append to the queue. *)
Definition nested_of (u : string) : list string := fst (visit ∅ u).

(** A bound on the rounds still to run, for a list [nodes] of the URLs
    whose documents name further sitemaps: the length of the queue, plus,
    for every node not seen yet, one and the number of sitemaps it
    names. *)
Definition potential (nodes : list string) (st : State) : nat :=
  (length (queue st)
   + list_sum
       (map (fun u => S (length (nested_of u)))
          (List.filter (fun u => negb (bool_decide (u ∈ seen st))) nodes)))%nat.

(** What holds of the state after every round: no URL was fetched twice,
    the fetched URLs are the seen ones, and [final_urls] holds the pages
    listed by the fetched documents. *)
Definition resolver_invariant (st : State) : Prop :=
  NoDup (fetched st)
  /\ (forall u, In u (fetched st) <-> u ∈ seen st)
  /\ (forall p, In p (final_urls st)
                <-> exists s, In s (fetched st) /\ In p (pages_of s)).

End SitemapResolver.

(** A sitemap graph: finitely many URLs, each with the response served
    there; every other URL is unreachable. *)
Definition fetch_in (g : gmap string (Z * string))
    : string -> string -> Z -> option (Z * string) :=
  fun url _ _ => g !! url.

(** The URLs that the resolver can come to from [root]: the root, and
    every URL named as a nested sitemap by a document served at a URL it
    can come to. *)
Inductive reachable
    (requests_get : string -> string -> Z -> option (Z * string))
    (ET_fromstring : string -> option Element) (timeout : Z) (ua : string)
    (root : string) : string -> Prop :=
| reachable_root : reachable requests_get ET_fromstring timeout ua root root
| reachable_step (s u : string) :
    reachable requests_get ET_fromstring timeout ua root s ->
    In u (nested_of requests_get ET_fromstring timeout ua s) ->
    reachable requests_get ET_fromstring timeout ua root u.

(** Only URLs within reach of [root] are fetched or queued. *)
Definition within_reach
    (requests_get : string -> string -> Z -> option (Z * string))
    (ET_fromstring : string -> option Element) (timeout : Z) (ua : string)
    (root : string) (st : State) : Prop :=
  forall u,
    In u (fetched st) \/ In u (queue st) ->
    reachable requests_get ET_fromstring timeout ua root u.

(** The root, and whatever a fetched document names, is seen or queued. *)
Definition closed_so_far
    (requests_get : string -> string -> Z -> option (Z * string))
    (ET_fromstring : string -> option Element) (timeout : Z) (ua : string)
    (root : string) (st : State) : Prop :=
  (root ∈ seen st \/ In root (queue st))
  /\ (forall s u,
         In s (fetched st) ->
         In u (nested_of requests_get ET_fromstring timeout ua s) ->
         u ∈ seen st \/ In u (queue st)).

(** A tree whose tags all carry the namespace [ns], as the XML parser
    writes them: [{ns}tag]. *)
Fixpoint qualify (ns : string) (e : Element) : Element :=
  match e with
  | Elem t x cs => Elem ("{" ++ ns ++ "}" ++ t) x (map (qualify ns) cs)
  end.

(** No tag of the tree has a closing brace. *)
Fixpoint plain (e : Element) : bool :=
  match e with
  | Elem t _ cs => negb (PyStr.contains "}"%char t) && forallb plain cs
  end.

(** A string that neither begins nor ends with white space. *)
Definition trimmed (s : string) : Prop :=
  (forall c t, s = String c t -> PyStr.is_space c = false)
  /\ (forall t c, s = t ++ String c "" -> PyStr.is_space c = false).

(** A string made of white space only. *)
Definition blank (s : string) : Prop :=
  forall c, In c (list_ascii_of_string s) -> PyStr.is_space c = true.

(** A string without white space. *)
Definition nospace (w : string) : Prop :=
  forall c, In c (list_ascii_of_string w) -> PyStr.is_space c = false.

(** [w] is one of the white-space separated values of the attribute value
    [v]: a non-empty run of [v] without white space, with white space or
    an end of [v] on either side. *)
Definition is_value_of (w v : string) : Prop :=
  w <> "" /\ nospace w
  /\ exists a b,
      v = a ++ w ++ b
      /\ (a = "" \/ exists a0 c, a = a0 ++ String c "" /\ PyStr.is_space c = true)
      /\ (b = "" \/ exists c b0, b = String c b0 /\ PyStr.is_space c = true).

(** [c] is the first child of [e] with the tag [nm]. *)
Definition first_child_named (e : Element) (nm : string) (c : Element)
    : Prop :=
  exists pre post,
    children e = (pre ++ c :: post)%list
    /\ tag c = nm
    /\ forall x, In x pre -> tag x <> nm.

(** [x] lies below [e]: a child, or below a child. *)
Inductive below (e : Element) : Element -> Prop :=
| below_child (c : Element) : In c (children e) -> below e c
| below_deeper (c x : Element) : In c (children e) -> below c x -> below e x.

(** [p] is listed as a page by a urlset with root [r]: the stripped text of
    the first [loc] child, when it has text, of a [url] child of [r]. *)
Definition listed_by_urlset (r : Element) (p : string) : Prop :=
  exists entry loc txt,
    In entry (children r) /\ tag entry = "url"
    /\ first_child_named entry "loc" loc
    /\ text loc = Some txt /\ txt <> "" /\ p = PyStr.strip txt.

(** [p] is listed as a page by a document with an unknown root tag: the
    stripped text of a [loc] element anywhere below the root, when it has
    text and the stripped text does not end in [.xml]. *)
Definition listed_by_unknown_root (r : Element) (p : string) : Prop :=
  exists loc txt,
    below r loc /\ tag loc = "loc"
    /\ text loc = Some txt /\ txt <> "" /\ p = PyStr.strip txt
    /\ ~ (exists t, p = t ++ ".xml").

(* ===================================================================== *)
(** ** The report of [main] *)
(* ===================================================================== *)

(** [s.replace(old, "")] for a non-empty [old]: the occurrences of [old]
    are removed from left to right, without overlap; [skip] counts the
    characters of the current occurrence still to drop. *)
Fixpoint remove_all_from (old : string) (skip : nat) (s : string) : string :=
  match s with
  | EmptyString => EmptyString
  | String c r =>
      match skip with
      | S k => remove_all_from old k r
      | O =>
          if PyStr.startswith s old
          then remove_all_from old (String.length old - 1) r
          else String c (remove_all_from old O r)
      end
  end.

Definition remove_all (old s : string) : string := remove_all_from old 0 s.

(** The sort key of the report:
    [0 if x.severity=="ERROR" else 1 if x.severity=="WARN" else 2]. *)
Definition severity_rank (x : SeoMetrics) : Z :=
  if String.eqb (severity x) "ERROR" then 0
  else if String.eqb (severity x) "WARN" then 1
  else 2.

(** [rows.sort(key=...)]: the sort of Python lists is stable, so its result
    is the one of a stable insertion by key. *)
Fixpoint insert_row (x : SeoMetrics) (sorted : list SeoMetrics)
    : list SeoMetrics :=
  match sorted with
  | [] => [x]
  | y :: rest =>
      if severity_rank x <=? severity_rank y then x :: y :: rest
      else y :: insert_row x rest
  end.

Definition sort_rows (rows : list SeoMetrics) : list SeoMetrics :=
  fold_right insert_row [] rows.

(** How [main] ends: [urlparse] raises on the sitemap argument; no page
    URL is found and nothing is written; or the rows are written, in this
    order, below the header. *)
Inductive MainOutcome :=
| Raised
| NoPagesFound
| ReportWritten (rows : list SeoMetrics).

Section Main.

Variable urlparse_netloc : string -> option string.
Variable BeautifulSoup : string -> list Node.
Variable requests_get : string -> string -> Z -> option (Z * string).
Variable ET_fromstring : string -> option Element.

(** [main], from the parsed arguments to the rows handed to the CSV
    writer; [sitemap] is [args.sitemap]. *)
Definition main (fuel : nat) (sitemap : string) : option MainOutcome :=
  match urlparse_netloc sitemap with
  | None => Some Raised
  | Some netloc =>
      let domain := remove_all "www." netloc in
      match parse_sitemap requests_get ET_fromstring 20 UA fuel sitemap with
      | None => None
      | Some urls =>
          match urls with
          | [] => Some NoPagesFound
          | _ :: _ =>
              let rows :=
                map (fun url =>
                       main_row urlparse_netloc BeautifulSoup requests_get
                         url domain) urls in
              Some (ReportWritten (sort_rows rows))
          end
      end
  end.

End Main.

(* ===================================================================== *)
(** ** Concrete inputs used by the examples *)
(* ===================================================================== *)

Module Examples.

(** A network on which every request fails. *)
Definition offline : string -> string -> Z -> option (Z * string) :=
  fun _ _ _ => None.

(** A server that answers every request with the same response. *)
Definition always (status : Z) (body : string)
    : string -> string -> Z -> option (Z * string) :=
  fun _ _ _ => Some (status, body).

Definition no_netloc : string -> option string := fun _ => Some "".

Definition empty_soup : string -> list Node := fun _ => [].

(** A record with no issue at all, fetched with status 200. *)
Definition clean_data : AuditData :=
  {| word_count := 500; is_thin_content := 0;
     title := "A title of a comfortable length, yes"; title_len := 36;
     title_status := "OK";
     meta_desc := "A description that is long enough to be accepted as one.";
     meta_desc_len := 56; meta_desc_status := "OK"; h1_count := 1;
     canonical_link := "https://example.com/a"; canonical_status := "SELF";
     internal_links := 4; external_links := 2; broken_anchors := 0;
     img_missing_alt := 0 |}.

Definition with_http_status (status : Z) (d : AuditData) : Metrics :=
  {| http_status := status; data := d |}.

Definition with_h1_count (n : Z) (d : AuditData) : AuditData :=
  {| word_count := word_count d; is_thin_content := is_thin_content d;
     title := title d; title_len := title_len d;
     title_status := title_status d; meta_desc := meta_desc d;
     meta_desc_len := meta_desc_len d;
     meta_desc_status := meta_desc_status d; h1_count := n;
     canonical_link := canonical_link d;
     canonical_status := canonical_status d;
     internal_links := internal_links d;
     external_links := external_links d;
     broken_anchors := broken_anchors d;
     img_missing_alt := img_missing_alt d |}.

Definition with_img_missing_alt (n : Z) (d : AuditData) : AuditData :=
  {| word_count := word_count d; is_thin_content := is_thin_content d;
     title := title d; title_len := title_len d;
     title_status := title_status d; meta_desc := meta_desc d;
     meta_desc_len := meta_desc_len d;
     meta_desc_status := meta_desc_status d; h1_count := h1_count d;
     canonical_link := canonical_link d;
     canonical_status := canonical_status d;
     internal_links := internal_links d;
     external_links := external_links d;
     broken_anchors := broken_anchors d;
     img_missing_alt := n |}.

Definition with_canonical (link status : string) (d : AuditData)
    : AuditData :=
  {| word_count := word_count d; is_thin_content := is_thin_content d;
     title := title d; title_len := title_len d;
     title_status := title_status d; meta_desc := meta_desc d;
     meta_desc_len := meta_desc_len d;
     meta_desc_status := meta_desc_status d; h1_count := h1_count d;
     canonical_link := link;
     canonical_status := status;
     internal_links := internal_links d;
     external_links := external_links d;
     broken_anchors := broken_anchors d;
     img_missing_alt := img_missing_alt d |}.

(** A stand-in for [urlparse(href).netloc] on the hrefs of the examples:
    what lies between the first two slashes in a row and the next slash,
    question mark or hash. *)
Fixpoint after_slashes (s : string) : option string :=
  match s with
  | EmptyString => None
  | String c r =>
      match r with
      | String c' r' =>
          if Ascii.eqb c "/"%char && Ascii.eqb c' "/"%char then Some r'
          else after_slashes r
      | EmptyString => None
      end
  end.

Fixpoint until_delimiter (s : string) : string :=
  match s with
  | EmptyString => EmptyString
  | String c r =>
      if Ascii.eqb c "/"%char || Ascii.eqb c "?"%char || Ascii.eqb c "#"%char
      then EmptyString
      else String c (until_delimiter r)
  end.

Definition simple_netloc (href : string) : option string :=
  Some (match after_slashes href with
        | Some r => until_delimiter r
        | None => ""
        end).

Definition attr (k v : string) : gmap string string := {[ k := v ]}.
Definition attrs2 (k1 v1 k2 v2 : string) : gmap string string :=
  <[ k1 := v1 ]> {[ k2 := v2 ]}.

Definition meta_upper : Node :=
  Tag "meta" (attrs2 "name" "Description" "content" "not this one") [].
Definition meta_lower : Node :=
  Tag "meta"
    (attrs2 "name" "description" "content"
       "  A description that is long enough to be accepted as one. ") [].
Definition link_style : Node :=
  Tag "link" (attrs2 "rel" "stylesheet" "href" "/style.css") [].
Definition link_canonical : Node :=
  Tag "link" (attrs2 "rel" "canonical" "href" " https://example.com/a/ ") [].

Definition anchor (href : string) : Node := Tag "a" (attr "href" href) [].

(** The tree of a small page. *)
Definition page : list Node :=
  [ Tag "html" ∅
      [ Tag "head" ∅
          [ Tag "title" ∅
              [NavigableString "  SEO audit of example dot com!!  "];
            meta_upper; meta_lower; link_style; link_canonical ];
        Tag "body" ∅
          [ Tag "h1" (attr "id" "top") [NavigableString "Example"];
            anchor "#top"; anchor "#missing"; anchor "#";
            anchor "mailto:someone@example.com";
            anchor "/relative/path";
            anchor "https://WWW.Example.com/b";
            anchor "https://blog.example.com/c";
            anchor "https://other.org/d";
            Tag "img" (attr "alt" "") [];
            Tag "img" (attr "alt" "a logo") [];
            Tag "img" ∅ [] ] ] ].

Definition page_parser : string -> list Node := fun _ => page.

Definition page_audit : AuditData :=
  audit_html simple_netloc page_parser "https://example.com/a"
    "<html>...</html>" "example.com".

(* ------------------------------------------------------------------- *)
(** *** Sitemap documents *)

Definition index_url : string := "https://example.com/sitemap.xml".
Definition pages_url : string := "https://example.com/pages.xml".
Definition feed_url : string := "https://example.com/feed".
Definition about_url : string := "https://example.com/about".

Definition xmlns : string := "{http://www.sitemaps.org/schemas/sitemap/0.9}".

Definition entry (wrapper loc : string) : Element :=
  Elem (xmlns ++ wrapper) None [Elem (xmlns ++ "loc") (Some loc) []].

(** An index that names the page sitemap. *)
Definition xml_index : string :=
  "<sitemapindex xmlns='http://www.sitemaps.org/schemas/sitemap/0.9'><sitemap><loc>https://example.com/pages.xml</loc></sitemap></sitemapindex>".
Definition tree_index : Element :=
  Elem (xmlns ++ "sitemapindex") None [entry "sitemap" pages_url].

(** An index that names the first index, twice. *)
Definition xml_back : string :=
  "<sitemapindex xmlns='http://www.sitemaps.org/schemas/sitemap/0.9'><sitemap><loc>https://example.com/sitemap.xml</loc></sitemap><sitemap><loc> https://example.com/sitemap.xml </loc></sitemap></sitemapindex>".
Definition tree_back : Element :=
  Elem (xmlns ++ "sitemapindex") None
    [entry "sitemap" index_url; entry "sitemap" (" " ++ index_url ++ " ")].

(** A page sitemap that lists the index itself and one page twice. *)
Definition xml_pages : string :=
  "<urlset xmlns='http://www.sitemaps.org/schemas/sitemap/0.9'><url><loc>https://example.com/sitemap.xml</loc></url><url><loc>https://example.com/about</loc></url><url><loc> https://example.com/about </loc></url></urlset>".
Definition tree_pages : Element :=
  Elem (xmlns ++ "urlset") None
    [entry "url" index_url; entry "url" about_url;
     entry "url" (" " ++ about_url ++ " ")].

(** A document with an unknown root tag. *)
Definition xml_feed : string :=
  "<feed><item><loc>https://example.com/pages.xml</loc></item><loc>https://example.com/about</loc><loc>https://example.com/pages.xml</loc></feed>".
Definition tree_feed : Element :=
  Elem "feed" None
    [Elem "item" None [Elem "loc" (Some pages_url) []];
     Elem "loc" (Some about_url) [];
     Elem "loc" (Some pages_url) []].

(** A document with an unknown root tag that names a sitemap index served
    at a URL without the [.xml] suffix. *)
Definition hub_url : string := "https://example.com/sitemap_index".
Definition xml_hub_feed : string :=
  "<feed><loc>https://example.com/sitemap_index</loc></feed>".
Definition tree_hub_feed : Element :=
  Elem "feed" None [Elem "loc" (Some hub_url) []].

(** A stand-in for [ET.fromstring] on the documents above. *)
Definition known_documents : list (string * Element) :=
  [ (xml_index, tree_index); (xml_back, tree_back);
    (xml_pages, tree_pages); (xml_feed, tree_feed);
    (xml_hub_feed, tree_hub_feed) ].

Definition parse_known (xml_text : string) : option Element :=
  snd <$> List.find (fun kv => String.eqb (fst kv) xml_text) known_documents.

(** Two indexes that name each other. *)
Definition web_cycle : gmap string (Z * string) :=
  <[ index_url := (200, xml_index) ]> {[ pages_url := (200, xml_back) ]}.

(** An index, and a page sitemap that lists the index as a page. *)
Definition web_overlap : gmap string (Z * string) :=
  <[ index_url := (200, xml_index) ]> {[ pages_url := (200, xml_pages) ]}.

(** A document with an unknown root tag, and the page sitemap. *)
Definition web_feed : gmap string (Z * string) :=
  <[ feed_url := (200, xml_feed) ]> {[ pages_url := (200, xml_pages) ]}.

(** The same, where the feed names an index that has no [.xml] suffix. *)
Definition web_hub : gmap string (Z * string) :=
  <[ feed_url := (200, xml_hub_feed) ]>
    (<[ hub_url := (200, xml_index) ]> {[ pages_url := (200, xml_pages) ]}).

(* ------------------------------------------------------------------- *)
(** *** Further inputs *)

(** A stand-in for a [urlparse] that raises on every href. *)
Definition raising_netloc : string -> option string := fun _ => None.

(** A page whose title and canonical link are made of white space. *)
Definition blank_page : list Node :=
  [ Tag "title" ∅ [NavigableString "  "; NavigableString " "];
    Tag "link" (attrs2 "rel" "canonical" "href" "   ") [];
    Tag "h1" ∅ [NavigableString "Heading"] ].

Definition blank_parser : string -> list Node := fun _ => blank_page.

(** A site: a page sitemap, and one of the two pages it lists. *)
Definition web_site : gmap string (Z * string) :=
  <[ pages_url := (200, xml_pages) ]>
    {[ about_url := (200, "<html>...</html>") ]}.

(** Two [link] elements: the first has two [rel] values, the second has
    [rel] equal to [canonical]. *)
Definition link_alternate : Node :=
  Tag "link"
    (attrs2 "rel" "alternate canonical" "href" "https://example.com/other") [].
Definition link_exact : Node :=
  Tag "link" (attrs2 "rel" "canonical" "href" "https://example.com/a") [].

Definition two_links_page : list Node :=
  [ Tag "head" ∅ [link_alternate; link_exact] ].

Definition two_links_parser : string -> list Node := fun _ => two_links_page.

(** A page with a comment for title, a style sheet, a script and a
    comment in the body. *)
Definition scripted_page : list Node :=
  [ Tag "html" ∅
      [ Tag "head" ∅
          [ Tag "title" ∅ [SpecialString Comment " only a comment "];
            Tag "style" ∅ [SpecialString Stylesheet "body { color: red }"];
            Tag "script" ∅
              [SpecialString Script "var words = 'not counted at all';"] ];
        Tag "body" ∅
          [ SpecialString Comment " a hidden remark ";
            Tag "p" ∅ [NavigableString "Hello world"] ] ] ].

Definition scripted_parser : string -> list Node := fun _ => scripted_page.

End Examples.

(* ===================================================================== *)
(** ** Properties of the string methods *)
(* ===================================================================== *)

Lemma startswith_iff (s p : string) :
  PyStr.startswith s p = true <-> exists t, s = p ++ t.
Proof.
  revert s. induction p as [| b p IH]; intros s; cbn [PyStr.startswith].
  - split; [intros _; exists s; reflexivity | reflexivity].
  - destruct s as [| a s].
    + split; [discriminate | intros [t E]; discriminate].
    + rewrite andb_true_iff, IH. split.
      * intros [Hab [t ->]]. apply Ascii.eqb_eq in Hab. subst b.
        exists t. reflexivity.
      * intros [t E].
        change (String b p ++ t) with (String b (p ++ t)) in E.
        injection E as -> ->.
        split; [apply Ascii.eqb_refl | exists t; reflexivity].
Qed.

Lemma endswith_iff (s p : string) :
  PyStr.endswith s p = true <-> exists t, s = t ++ p.
Proof.
  induction s as [| a s IH]; cbn [PyStr.endswith].
  - rewrite orb_false_r. split.
    + intros H. apply String.eqb_eq in H. exists "". exact H.
    + intros [t E]. destruct t; [| discriminate].
      change ("" ++ p) with p in E. rewrite <- E. reflexivity.
  - rewrite orb_true_iff, IH. split.
    + intros [H | [t ->]].
      * apply String.eqb_eq in H. exists "". exact H.
      * exists (String a t). reflexivity.
    + intros [t E]. destruct t as [| b t].
      * left. change ("" ++ p) with p in E. rewrite <- E.
        apply String.eqb_refl.
      * right. change (String b t ++ p) with (String b (t ++ p)) in E.
        injection E as _ ->. exists t. reflexivity.
Qed.

(** Unfold the appends whose first argument starts with a constructor. *)
Ltac string_app :=
  repeat match goal with
         | H : context [String ?a ?s ++ ?t] |- _ =>
             change (String a s ++ t) with (String a (s ++ t)) in H
         | H : context [EmptyString ++ ?t] |- _ =>
             change (EmptyString ++ t) with t in H
         | |- context [String ?a ?s ++ ?t] =>
             change (String a s ++ t) with (String a (s ++ t))
         | |- context [EmptyString ++ ?t] =>
             change (EmptyString ++ t) with t
         end.

Lemma string_last_cases (s : string) :
  s = "" \/ exists t c, s = t ++ String c "".
Proof.
  induction s as [| c s [-> | (t & d & ->)]]; [left; reflexivity | |].
  - right. exists "", c. reflexivity.
  - right. exists (String c t), d. reflexivity.
Qed.

Lemma app_last_inj (t u : string) (c d : ascii) :
  t ++ String c "" = u ++ String d "" -> c = d.
Proof.
  revert u. induction t as [| x t IH]; intros [| y u] E; string_app.
  - injection E as ->. reflexivity.
  - injection E as _ E. destruct u; string_app; discriminate.
  - injection E as _ E. destruct t; string_app; discriminate.
  - injection E as _ E. exact (IH u E).
Qed.

Lemma string_app_assoc (a b c : string) : (a ++ b) ++ c = a ++ (b ++ c).
Proof.
  induction a as [| x a IH]; string_app; [reflexivity |].
  rewrite IH. reflexivity.
Qed.

(** [rstrip_by p s] is [s] without a longest tail of characters that
    satisfy [p]. *)
Lemma rstrip_by_spec (p : ascii -> bool) (s : string) :
  exists t,
    s = PyStr.rstrip_by p s ++ t
    /\ (forall c, In c (list_ascii_of_string t) -> p c = true)
    /\ (forall r c, PyStr.rstrip_by p s = r ++ String c "" -> p c = false).
Proof.
  induction s as [| a s (t & Hs & Ht & Hlast)]; cbn [PyStr.rstrip_by].
  - exists "". split; [reflexivity |]. split; [intros c [] |].
    intros r c E. destruct r; string_app; discriminate.
  - destruct (PyStr.rstrip_by p s) as [| d r'] eqn:Er.
    + string_app. subst t. destruct (p a) eqn:Ea.
      * exists (String a s). split; [reflexivity |]. split.
        -- intros c [<- | Hc]; [exact Ea | exact (Ht c Hc)].
        -- intros r c E. destruct r; string_app; discriminate.
      * exists s. split; [reflexivity |]. split; [exact Ht |].
        intros r c E. destruct r as [| x r]; string_app.
        -- injection E as <-. exact Ea.
        -- injection E as _ E. destruct r; string_app; discriminate.
    + exists t. split; [string_app; rewrite Hs at 1; reflexivity |].
      split; [exact Ht |].
      intros r c E. destruct r as [| x r]; string_app; [discriminate |].
      injection E as _ E. exact (Hlast r c E).
Qed.

(** [lstrip s] is [s] without its longest head of white space. *)
Lemma lstrip_spec (s : string) :
  exists t,
    s = t ++ PyStr.lstrip s
    /\ (forall c, In c (list_ascii_of_string t) -> PyStr.is_space c = true)
    /\ (forall c r, PyStr.lstrip s = String c r -> PyStr.is_space c = false).
Proof.
  induction s as [| a s (t & Hs & Ht & Hfirst)]; cbn [PyStr.lstrip].
  - exists "". split; [reflexivity |]. split; [intros c [] | discriminate].
  - destruct (PyStr.is_space a) eqn:Ea.
    + exists (String a t). split; [string_app; rewrite Hs at 1; reflexivity |].
      split; [| exact Hfirst].
      intros c [<- | Hc]; [exact Ea | exact (Ht c Hc)].
    + exists "". split; [reflexivity |]. split; [intros c [] |].
      intros c r E. injection E as <- _. exact Ea.
Qed.

Example strip_examples :
  PyStr.strip "  https://example.com/a " = "https://example.com/a"
  /\ PyStr.strip "   " = ""
  /\ PyStr.rstrip_slash "https://example.com/a//" = "https://example.com/a"
  /\ PyStr.rstrip_slash "///" = ""
  /\ PyStr.lower "WWW.Example.COM" = "www.example.com"
  /\ strip_namespace "{http://www.sitemaps.org/schemas/sitemap/0.9}urlset"
     = "urlset"
  /\ _normalize_space "  two   words  " = "two words"
  /\ _count_words "don't stop: 3 words?" = 4
  /\ attr_values " canonical  nofollow " = ["canonical"; "nofollow"].
Proof. repeat split. Qed.

(* ===================================================================== *)
(** ** Properties of the severity cascade *)
(* ===================================================================== *)

Lemma string_eqb_false (a b : string) : a ≠ b -> String.eqb a b = false.
Proof. intros H. apply String.eqb_neq. exact H. Qed.

(** A record that no rule of the cascade catches. *)
Lemma compute_severity_ok (m : Metrics) :
  http_status m < 400 ->
  h1_count (data m) ≠ 0 ->
  canonical_status (data m) ≠ "MISSING" ->
  title_status (data m) = "OK" ->
  is_thin_content (data m) = 0 ->
  meta_desc_status (data m) = "OK" ->
  broken_anchors (data m) <= 0 ->
  img_missing_alt (data m) <= 0 ->
  compute_severity m = "OK".
Proof.
  intros Hs Hh Hc Ht Hthin Hd Hb Hi. unfold compute_severity.
  replace (400 <=? http_status m) with false by (symmetry; apply Z.leb_gt; lia).
  replace (h1_count (data m) =? 0) with false
    by (symmetry; apply Z.eqb_neq; exact Hh).
  rewrite (string_eqb_false _ _ Hc), Ht, Hd, Hthin. simpl.
  replace (0 <? broken_anchors (data m)) with false
    by (symmetry; apply Z.ltb_ge; lia).
  replace (0 <? img_missing_alt (data m)) with false
    by (symmetry; apply Z.ltb_ge; lia).
  reflexivity.
Qed.

(** Decide the tests of the cascade one after the other. *)
Ltac cascade :=
  unfold compute_severity, int_truthy;
  repeat
    (match goal with
     | |- context [Z.leb ?a ?b] => destruct (Z.leb_spec a b)
     | |- context [Z.eqb ?a ?b] => destruct (Z.eqb_spec a b)
     | |- context [Z.ltb ?a ?b] => destruct (Z.ltb_spec a b)
     | |- context [String.eqb ?a ?b] => destruct (String.eqb_spec a b)
     end; cbn [negb]);
  try reflexivity; try lia; try congruence.

(** C1: [compute_severity] is the ordered short-circuit cascade of the ten
    rules (status >= 400, no h1, canonical MISSING, title MISSING give
    ERROR; thin content, description not OK, title not OK, broken anchors,
    images without alt give WARN; otherwise OK), the first matching rule
    deciding. A record with status 500 is ERROR, a record with status 200
    and no h1 is ERROR, and a record whose only issue is three images
    without alt text is WARN. *)
Theorem compute_severity_cascade (m : Metrics) :
  compute_severity m = first_match severity_rules "OK" m
  /\ (400 <= http_status m -> compute_severity m = "ERROR")
  /\ (http_status m < 400 -> h1_count (data m) = 0 ->
      compute_severity m = "ERROR")
  /\ (http_status m < 400 -> h1_count (data m) ≠ 0 ->
      canonical_status (data m) = "MISSING" ->
      compute_severity m = "ERROR")
  /\ (http_status m < 400 -> h1_count (data m) ≠ 0 ->
      canonical_status (data m) ≠ "MISSING" ->
      title_status (data m) = "MISSING" ->
      compute_severity m = "ERROR")
  /\ (no_error_rule m -> is_thin_content (data m) ≠ 0 ->
      compute_severity m = "WARN")
  /\ (no_error_rule m -> is_thin_content (data m) = 0 ->
      meta_desc_status (data m) ≠ "OK" ->
      compute_severity m = "WARN")
  /\ (no_error_rule m -> is_thin_content (data m) = 0 ->
      meta_desc_status (data m) = "OK" ->
      title_status (data m) ≠ "OK" ->
      compute_severity m = "WARN")
  /\ (no_error_rule m -> is_thin_content (data m) = 0 ->
      meta_desc_status (data m) = "OK" ->
      title_status (data m) = "OK" ->
      0 < broken_anchors (data m) ->
      compute_severity m = "WARN")
  /\ (no_error_rule m -> is_thin_content (data m) = 0 ->
      meta_desc_status (data m) = "OK" ->
      title_status (data m) = "OK" ->
      broken_anchors (data m) <= 0 ->
      0 < img_missing_alt (data m) ->
      compute_severity m = "WARN")
  /\ (no_error_rule m -> is_thin_content (data m) = 0 ->
      meta_desc_status (data m) = "OK" ->
      title_status (data m) = "OK" ->
      broken_anchors (data m) <= 0 ->
      img_missing_alt (data m) <= 0 ->
      compute_severity m = "OK")
  /\ (http_status m = 500 -> compute_severity m = "ERROR")
  /\ (http_status m = 200 -> h1_count (data m) = 0 ->
      compute_severity m = "ERROR")
  /\ (http_status m < 400 ->
      h1_count (data m) ≠ 0 ->
      canonical_status (data m) ≠ "MISSING" ->
      title_status (data m) = "OK" ->
      is_thin_content (data m) = 0 ->
      meta_desc_status (data m) = "OK" ->
      broken_anchors (data m) = 0 ->
      img_missing_alt (data m) = 3 ->
      compute_severity m = "WARN").
Proof.
  split; [reflexivity |].
  repeat split; unfold no_error_rule; intros;
    repeat match goal with H : _ /\ _ |- _ => destruct H end; cascade.
Qed.

Lemma compute_severity_cascade_witness :
  compute_severity (Examples.with_http_status 500 Examples.clean_data) = "ERROR"
  /\ compute_severity
       (Examples.with_http_status 200
          (Examples.with_h1_count 0 Examples.clean_data)) = "ERROR"
  /\ compute_severity
       (Examples.with_http_status 200
          (Examples.with_img_missing_alt 3 Examples.clean_data)) = "WARN".
Proof.
  split; [| split].
  - destruct (compute_severity_cascade
                (Examples.with_http_status 500 Examples.clean_data))
      as (_ & _ & _ & _ & _ & _ & _ & _ & _ & _ & _ & H500 & _).
    apply H500. reflexivity.
  - destruct (compute_severity_cascade
                (Examples.with_http_status 200
                   (Examples.with_h1_count 0 Examples.clean_data)))
      as (_ & _ & _ & _ & _ & _ & _ & _ & _ & _ & _ & _ & Hh1 & _).
    apply Hh1; reflexivity.
  - destruct (compute_severity_cascade
                (Examples.with_http_status 200
                   (Examples.with_img_missing_alt 3 Examples.clean_data)))
      as (_ & _ & _ & _ & _ & _ & _ & _ & _ & _ & _ & _ & _ & Himg).
    apply Himg; simpl; try reflexivity; try lia; discriminate.
Defined.

(** C10: a canonical link that points elsewhere is not penalised. A record
    with status below 400, at least one h1, title and description OK, no
    thin content, no broken anchor, no image without alt text and
    canonical status OTHER has severity OK. *)
Theorem canonical_other_not_penalized (m : Metrics) :
  http_status m < 400 ->
  1 <= h1_count (data m) ->
  title_status (data m) = "OK" ->
  meta_desc_status (data m) = "OK" ->
  is_thin_content (data m) = 0 ->
  broken_anchors (data m) = 0 ->
  img_missing_alt (data m) = 0 ->
  canonical_status (data m) = "OTHER" ->
  compute_severity m = "OK".
Proof.
  intros Hs Hh Ht Hd Hthin Hb Hi Hc.
  apply compute_severity_ok; try assumption; try lia.
  rewrite Hc. discriminate.
Qed.

Lemma canonical_other_not_penalized_witness :
  compute_severity
    (Examples.with_http_status 200
       (Examples.with_canonical "https://example.org/elsewhere" "OTHER"
          Examples.clean_data)) = "OK".
Proof.
  apply canonical_other_not_penalized; simpl; try reflexivity; lia.
Defined.

(* ===================================================================== *)
(** ** The record of a failed fetch *)
(* ===================================================================== *)

Section FailedFetch.

Variable urlparse_netloc : string -> option string.
Variable BeautifulSoup : string -> list Node.

Local Abbreviation audit_fetched' :=
  (audit_fetched urlparse_netloc BeautifulSoup).

Lemma truthy_empty (s : string) : PyStr.truthy s = false <-> s = "".
Proof. destruct s; simpl; split; intros H; congruence. Qed.

Lemma failed_fetch_data (u : string) (status : Z) (html domain : string) :
  400 <= status \/ html = "" ->
  data (row (audit_fetched' u status html domain)) = fallback_data.
Proof.
  intros H. unfold audit_fetched. simpl.
  destruct (Z.leb_spec 400 status) as [Hs | Hs]; [reflexivity |].
  destruct H as [H | ->]; [lia | reflexivity].
Qed.

(** C4 (amended): when the fetch of a page fails (status >= 400, or an
    empty body), the row carries the status of the fetch and the fixed
    record: strings empty, statuses MISSING, numbers zero; its severity is
    ERROR. The status decides it when it is 400 or more; below 400 (a
    transport failure, status 0, or an empty body) the rule on
    [h1_count = 0] does. *)
Theorem failed_fetch_record (u : string) (status : Z) (html domain : string) :
  400 <= status \/ html = "" ->
  let r := audit_fetched' u status html domain in
  url r = u
  /\ http_status (row r) = status
  /\ data (row r) = fallback_data
  /\ (title (data (row r)) = "" /\ meta_desc (data (row r)) = ""
      /\ canonical_link (data (row r)) = "")
  /\ (title_status (data (row r)) = "MISSING"
      /\ meta_desc_status (data (row r)) = "MISSING"
      /\ canonical_status (data (row r)) = "MISSING")
  /\ (word_count (data (row r)) = 0 /\ is_thin_content (data (row r)) = 0
      /\ title_len (data (row r)) = 0 /\ meta_desc_len (data (row r)) = 0
      /\ h1_count (data (row r)) = 0 /\ internal_links (data (row r)) = 0
      /\ external_links (data (row r)) = 0
      /\ broken_anchors (data (row r)) = 0
      /\ img_missing_alt (data (row r)) = 0)
  /\ severity r = "ERROR"
  /\ (400 <= status \/ status < 400 /\ h1_count (data (row r)) = 0).
Proof.
  intros H r.
  pose proof (failed_fetch_data u status html domain H) as Hd.
  fold r in Hd.
  split; [reflexivity |]. split; [reflexivity |]. split; [exact Hd |].
  rewrite Hd. repeat split.
  - change (severity r) with (compute_severity (row r)).
    unfold compute_severity. rewrite Hd. cbn [h1_count fallback_data].
    destruct (400 <=? http_status (row r)); reflexivity.
  - destruct (Z.le_gt_cases 400 status); [left; assumption | right].
    split; [lia | reflexivity].
Qed.

(** C9 (amended): for the record that [audit_html] builds, hence for
    every page fetched with a status below 400 and a non-empty body,
    [is_thin_content] is 1 when [word_count < 300] and 0 otherwise; the
    record of a failed fetch has [word_count = 0] and
    [is_thin_content = 0]. *)
Theorem is_thin_content_threshold (u : string) (status : Z)
    (html domain : string) :
  let d := audit_html urlparse_netloc BeautifulSoup u html domain in
  let r := audit_fetched' u status html domain in
  (int_truthy (is_thin_content d) = true <-> word_count d < 300)
  /\ (is_thin_content d = 1 \/ is_thin_content d = 0)
  /\ (status < 400 -> html ≠ "" ->
      data (row r) = d
      /\ (int_truthy (is_thin_content (data (row r))) = true
          <-> word_count (data (row r)) < 300))
  /\ (400 <= status \/ html = "" ->
      word_count (data (row r)) = 0 /\ is_thin_content (data (row r)) = 0).
Proof.
  intros d r.
  assert (Hiff : int_truthy (is_thin_content d) = true <-> word_count d < 300).
  { unfold d, audit_html.
    destruct (fold_left _ _ _) as [[i e] b]. cbn [is_thin_content word_count].
    unfold THIN_CONTENT_THRESHOLD.
    destruct (Z.ltb_spec (_count_words
                (_normalize_space (get_text (BeautifulSoup html) " "))) 300);
      simpl; split; intros; try reflexivity; try lia; try discriminate. }
  split; [exact Hiff |]. split; [| split].
  - unfold d, audit_html.
    destruct (fold_left _ _ _) as [[i e] b]. cbn [is_thin_content].
    destruct (_ <? _); [left | right]; reflexivity.
  - intros Hs Hh.
    assert (Hr : data (row r) = d).
    { unfold r, audit_fetched. cbn [row data].
      replace (400 <=? status) with false by (symmetry; apply Z.leb_gt; lia).
      destruct html; [congruence | reflexivity]. }
    split; [exact Hr |]. rewrite Hr. exact Hiff.
  - intros H. unfold r. rewrite (failed_fetch_data u status html domain H).
    split; reflexivity.
Qed.

End FailedFetch.

Lemma failed_fetch_record_witness :
  let r := audit_fetched Examples.no_netloc Examples.empty_soup
             "https://example.com/gone" 404 "Not Found" "example.com" in
  http_status (row r) = 404
  /\ title (data (row r)) = ""
  /\ title_status (data (row r)) = "MISSING"
  /\ severity r = "ERROR".
Proof.
  assert (H : 400 <= 404 \/ "Not Found" = "") by (left; lia).
  destruct (failed_fetch_record Examples.no_netloc Examples.empty_soup
              "https://example.com/gone" 404 "Not Found" "example.com" H)
    as (_ & Hs & _ & (Ht & _) & (Hts & _) & _ & Hsev & _).
  repeat split; assumption.
Defined.

(** C4, as stated, fails on a transport failure: the fetch returns status 0
    and an empty body, the severity of the fallback record is ERROR, but
    the status is below 400, and a record with this status and no other
    issue would be OK. The ERROR comes from [h1_count = 0]. *)
Lemma transport_failure_error_not_by_http_status :
  let r := main_row Examples.no_netloc Examples.empty_soup Examples.offline
             "https://example.com/a" "example.com" in
  _fetch_text Examples.offline "https://example.com/a" 20 UA = (0, "")
  /\ data (row r) = fallback_data
  /\ severity r = "ERROR"
  /\ http_status (row r) = 0
  /\ ~ 400 <= http_status (row r)
  /\ compute_severity
       (Examples.with_http_status (http_status (row r)) Examples.clean_data)
     = "OK"
  /\ h1_count (data (row r)) = 0.
Proof.
  cbv zeta. repeat split; try reflexivity. simpl. lia.
Qed.

Lemma is_thin_content_threshold_witness :
  let r := audit_fetched Examples.no_netloc Examples.empty_soup
             "https://example.com/a" 200 "<html></html>" "example.com" in
  (int_truthy (is_thin_content (data (row r))) = true
   <-> word_count (data (row r)) < 300)
  /\ word_count
       (data (row (audit_fetched Examples.no_netloc Examples.empty_soup
                     "https://example.com/a" 404 "Not Found" "example.com")))
     = 0.
Proof.
  destruct (is_thin_content_threshold Examples.no_netloc Examples.empty_soup
              "https://example.com/a" 200 "<html></html>" "example.com")
    as (_ & _ & Hok & _).
  destruct (is_thin_content_threshold Examples.no_netloc Examples.empty_soup
              "https://example.com/a" 404 "Not Found" "example.com")
    as (_ & _ & _ & Hfail).
  split.
  - apply Hok; [lia | discriminate].
  - apply Hfail. left; lia.
Defined.

(** C9, as stated, fails on the record of a failed fetch: its
    [word_count] is 0, below 300, and its [is_thin_content] is 0, false. *)
Lemma failed_fetch_not_thin :
  let r := audit_fetched Examples.no_netloc Examples.empty_soup
             "https://example.com/gone" 404 "Not Found" "example.com" in
  word_count (data (row r)) < 300
  /\ int_truthy (is_thin_content (data (row r))) = false
  /\ ~ (int_truthy (is_thin_content (data (row r))) = true
        <-> word_count (data (row r)) < 300).
Proof.
  cbv zeta. simpl. split; [lia |]. split; [reflexivity |].
  intros [_ H]. assert (0 < 300) as H0 by lia. specialize (H H0). discriminate.
Qed.

(* ===================================================================== *)
(** ** Properties of the per-page audit *)
(* ===================================================================== *)

Lemma head_filter_first {A : Type} (p : A -> bool) (pre : list A) (x : A)
    (post : list A) :
  (forall y, In y pre -> p y = false) ->
  p x = true ->
  head (List.filter p (pre ++ x :: post)) = Some x.
Proof.
  induction pre as [| y pre IH]; intros Hpre Hx; simpl.
  - rewrite Hx. reflexivity.
  - rewrite (Hpre y) by (left; reflexivity).
    apply IH; [| exact Hx]. intros z Hz. apply Hpre. right. exact Hz.
Qed.

Lemma head_filter_none {A : Type} (p : A -> bool) (l : list A) :
  (forall y, In y l -> p y = false) -> head (List.filter p l) = None.
Proof.
  induction l as [| y l IH]; intros H; simpl; [reflexivity |].
  rewrite (H y) by (left; reflexivity).
  apply IH. intros z Hz. apply H. right. exact Hz.
Qed.

Lemma filter_filter_andb {A : Type} (p q : A -> bool) (l : list A) :
  List.filter p (List.filter q l) = List.filter (fun x => q x && p x) l.
Proof.
  induction l as [| y l IH]; simpl; [reflexivity |].
  destruct (q y); simpl; [| exact IH].
  destruct (p y); rewrite IH; reflexivity.
Qed.

Lemma strip_empty : PyStr.strip "" = "".
Proof. reflexivity. Qed.

Lemma len_zero (s : string) : PyStr.len s = 0 <-> s = "".
Proof.
  unfold PyStr.len. destruct s; simpl; split; intros H;
    try reflexivity; try discriminate; lia.
Qed.

(** The length test shared by the title and the description. *)
Lemma bucket_cases (n lo hi : Z) :
  0 <= n -> 1 < lo -> lo <= hi ->
  let status :=
    if n =? 0 then "MISSING"
    else if n <? lo then "TOO_SHORT"
    else if hi <? n then "TOO_LONG"
    else "OK" in
  (status = "MISSING" <-> n = 0)
  /\ (status = "TOO_SHORT" <-> 1 <= n <= lo - 1)
  /\ (status = "OK" <-> lo <= n <= hi)
  /\ (status = "TOO_LONG" <-> hi < n).
Proof.
  intros Hn Hlo Hhi status. unfold status.
  destruct (Z.eqb_spec n 0); [| destruct (Z.ltb_spec n lo);
                                [| destruct (Z.ltb_spec hi n)]];
    repeat split; intros; try reflexivity; try lia; try discriminate.
Qed.

Section AuditProperties.

Variable urlparse_netloc : string -> option string.
Variable BeautifulSoup : string -> list Node.

Local Abbreviation audit_html' := (audit_html urlparse_netloc BeautifulSoup).

(** The fields of the record, one by one. *)
Lemma audit_html_title (u html domain : string) :
  let d := audit_html' u html domain in
  title d = match find (BeautifulSoup html) "title" with
            | Some t => get_text_strip t
            | None => ""
            end
  /\ title_len d = PyStr.len (title d)
  /\ title_status d =
       (if title_len d =? 0 then "MISSING"
        else if title_len d <? 30 then "TOO_SHORT"
        else if 60 <? title_len d then "TOO_LONG"
        else "OK").
Proof.
  unfold audit_html. destruct (fold_left _ _ _) as [[i e] b].
  repeat split.
Qed.

Lemma audit_html_meta_desc (u html domain : string) :
  let d := audit_html' u html domain in
  meta_desc d =
    match find_attr (BeautifulSoup html) "meta" "name" "description" with
    | Some t => PyStr.strip (get_or_empty t "content")
    | None => ""
    end
  /\ meta_desc_len d = PyStr.len (meta_desc d)
  /\ meta_desc_status d =
       (if meta_desc_len d =? 0 then "MISSING"
        else if meta_desc_len d <? 50 then "TOO_SHORT"
        else if 160 <? meta_desc_len d then "TOO_LONG"
        else "OK").
Proof.
  unfold audit_html. destruct (fold_left _ _ _) as [[i e] b].
  cbn [meta_desc meta_desc_len meta_desc_status].
  repeat split.
  destruct (find_attr _ _ _ _) as [t |]; [| reflexivity].
  destruct (get_or_empty t "content"); reflexivity.
Qed.

Lemma audit_html_canonical (u html domain : string) :
  let d := audit_html' u html domain in
  canonical_link d =
    match find_rel (BeautifulSoup html) "link" "canonical" with
    | Some t => PyStr.strip (get_or_empty t "href")
    | None => ""
    end
  /\ canonical_status d =
       (if PyStr.truthy (canonical_link d) then
          if String.eqb (PyStr.rstrip_slash (canonical_link d))
               (PyStr.rstrip_slash u)
          then "SELF" else "OTHER"
        else "MISSING").
Proof.
  unfold audit_html. destruct (fold_left _ _ _) as [[i e] b].
  cbn [canonical_link canonical_status].
  repeat split.
  destruct (find_rel _ _ _) as [t |]; [| reflexivity].
  destruct (get_or_empty t "href"); reflexivity.
Qed.

(** C5: the title status is a function of the title length:
    0 is MISSING, 1 to 29 TOO_SHORT, 30 to 60 OK, above 60 TOO_LONG; the
    lengths 29, 30, 60 and 61 give TOO_SHORT, OK, OK and TOO_LONG. *)
Theorem title_status_buckets (u html domain : string) :
  let d := audit_html' u html domain in
  title_len d = PyStr.len (title d)
  /\ (title_status d = "MISSING" <-> title_len d = 0)
  /\ (title_status d = "TOO_SHORT" <-> 1 <= title_len d <= 29)
  /\ (title_status d = "OK" <-> 30 <= title_len d <= 60)
  /\ (title_status d = "TOO_LONG" <-> 60 < title_len d)
  /\ (title_len d = 29 -> title_status d = "TOO_SHORT")
  /\ (title_len d = 30 -> title_status d = "OK")
  /\ (title_len d = 60 -> title_status d = "OK")
  /\ (title_len d = 61 -> title_status d = "TOO_LONG").
Proof.
  intros d.
  destruct (audit_html_title u html domain) as (_ & Hlen & Hst).
  fold d in Hlen, Hst.
  assert (H0 : 0 <= title_len d) by (rewrite Hlen; unfold PyStr.len; lia).
  destruct (bucket_cases (title_len d) 30 60 H0 ltac:(lia) ltac:(lia))
    as (Hm & Hs & Ho & Hl).
  cbv zeta in Hm, Hs, Ho, Hl. rewrite <- Hst in Hm, Hs, Ho, Hl.
  split; [exact Hlen |].
  split; [exact Hm |]. split; [exact Hs |]. split; [exact Ho |].
  split; [exact Hl |].
  repeat split; intros E.
  - apply Hs. lia.
  - apply Ho. lia.
  - apply Ho. lia.
  - apply Hl. lia.
Qed.

(** C6: the description is the stripped [content] of the first [meta]
    element, in document order, whose [name] is exactly [description]
    (empty when there is none, or no content); its status is bucketed by
    its length: 0 MISSING, 1 to 49 TOO_SHORT, 50 to 160 OK, above 160
    TOO_LONG; the lengths 49, 50, 160, 161 give TOO_SHORT, OK, OK,
    TOO_LONG. *)
Theorem meta_description_buckets (u html domain : string) :
  let d := audit_html' u html domain in
  (forall (pre : list Node) (t : Node) (post : list Node),
      descendants (BeautifulSoup html) = (pre ++ t :: post)%list ->
      tag_named "meta" t = true ->
      get t "name" = Some "description" ->
      (forall x, In x pre ->
                 tag_named "meta" x = true ->
                 get x "name" ≠ Some "description") ->
      meta_desc d = PyStr.strip (default "" (get t "content")))
  /\ ((forall x, In x (descendants (BeautifulSoup html)) ->
                 tag_named "meta" x = true ->
                 get x "name" ≠ Some "description") ->
      meta_desc d = "")
  /\ meta_desc_len d = PyStr.len (meta_desc d)
  /\ (meta_desc_status d = "MISSING" <-> meta_desc_len d = 0)
  /\ (meta_desc_status d = "TOO_SHORT" <-> 1 <= meta_desc_len d <= 49)
  /\ (meta_desc_status d = "OK" <-> 50 <= meta_desc_len d <= 160)
  /\ (meta_desc_status d = "TOO_LONG" <-> 160 < meta_desc_len d)
  /\ (meta_desc_len d = 49 -> meta_desc_status d = "TOO_SHORT")
  /\ (meta_desc_len d = 50 -> meta_desc_status d = "OK")
  /\ (meta_desc_len d = 160 -> meta_desc_status d = "OK")
  /\ (meta_desc_len d = 161 -> meta_desc_status d = "TOO_LONG").
Proof.
  intros d.
  destruct (audit_html_meta_desc u html domain) as (Hd & Hlen & Hst).
  fold d in Hd, Hlen, Hst.
  assert (Hno : forall x, (tag_named "meta" x = true ->
                           get x "name" ≠ Some "description") ->
                tag_named "meta" x && has_attr_value "name" "description" x
                = false).
  { intros x Hx. destruct (tag_named "meta" x) eqn:E; [| reflexivity].
    simpl. unfold has_attr_value.
    destruct (get x "name") as [v |] eqn:G; [| reflexivity].
    apply String.eqb_neq. intros ->. exact (Hx eq_refl eq_refl). }
  split; [| split].
  - intros pre t post Hsplit Htag Hname Hpre.
    rewrite Hd. unfold find_attr, find_all.
    rewrite filter_filter_andb, Hsplit.
    rewrite head_filter_first; [reflexivity | |].
    + intros y Hy. apply Hno. exact (Hpre y Hy).
    + rewrite Htag. unfold has_attr_value. rewrite Hname. reflexivity.
  - intros Hall. rewrite Hd. unfold find_attr, find_all.
    rewrite filter_filter_andb, head_filter_none; [reflexivity |].
    intros y Hy. apply Hno. exact (Hall y Hy).
  - assert (H0 : 0 <= meta_desc_len d)
      by (rewrite Hlen; unfold PyStr.len; lia).
    destruct (bucket_cases (meta_desc_len d) 50 160 H0 ltac:(lia) ltac:(lia))
      as (Hm & Hs & Ho & Hl).
    cbv zeta in Hm, Hs, Ho, Hl. rewrite <- Hst in Hm, Hs, Ho, Hl.
    split; [exact Hlen |].
    split; [exact Hm |]. split; [exact Hs |]. split; [exact Ho |].
    split; [exact Hl |].
    repeat split; intros E.
    + apply Hs. lia.
    + apply Ho. lia.
    + apply Ho. lia.
    + apply Hl. lia.
Qed.

End AuditProperties.

(** The canonical match on the multi-valued [rel]: one of the values is
    [canonical]. *)
Lemma contains_app_char (c : ascii) (a b : string) :
  PyStr.contains c (a ++ String c b) = true.
Proof.
  induction a as [| d a IH]; simpl.
  - rewrite Ascii.eqb_refl. reflexivity.
  - rewrite IH. apply orb_true_r.
Qed.

Lemma join_without_space (l : list string) (s : string) :
  PyStr.contains " "%char s = false ->
  PyStr.join " " l = s -> l = [s] \/ (l = [] /\ s = "").
Proof.
  intros Hs Hj. destruct l as [| x [| y r]].
  - right. split; [reflexivity | symmetry; exact Hj].
  - left. simpl in Hj. rewrite Hj. reflexivity.
  - exfalso. change (PyStr.join " " (x :: y :: r))
      with (x ++ String " "%char (PyStr.join " " (y :: r))) in Hj.
    rewrite <- Hj, contains_app_char in Hs. discriminate.
Qed.

Lemma has_rel_canonical (n : Node) :
  has_rel "canonical" n = true
  <-> exists v, get n "rel" = Some v /\ In "canonical" (attr_values v).
Proof.
  unfold has_rel. destruct (get n "rel") as [v |].
  - split.
    + intros H. exists v. split; [reflexivity |].
      apply orb_true_iff in H as [H | H].
      * apply existsb_exists in H as (x & Hx & E).
        apply String.eqb_eq in E. subst x. exact Hx.
      * apply String.eqb_eq in H.
        destruct (join_without_space (attr_values v) "canonical" eq_refl H)
          as [-> | [_ E]]; [left; reflexivity | discriminate].
    + intros (w & E & Hin). injection E as <-.
      apply orb_true_iff. left. apply existsb_exists.
      exists "canonical". split; [exact Hin | apply String.eqb_refl].
  - split; [discriminate | intros (w & E & _); discriminate].
Qed.

(** The values of a multi-valued attribute, without reference to the way
    they are read. *)
Lemma string_app_nil_r (s : string) : s ++ "" = s.
Proof.
  induction s as [| c s IH]; string_app; [reflexivity |].
  rewrite IH. reflexivity.
Qed.

Lemma string_app_eq_nil (a b : string) : a ++ b = "" -> a = "" /\ b = "".
Proof. destruct a; string_app; [tauto | discriminate]. Qed.

Lemma in_chars_app (a b : string) (c : ascii) :
  In c (list_ascii_of_string (a ++ b))
  <-> In c (list_ascii_of_string a) \/ In c (list_ascii_of_string b).
Proof.
  induction a as [| x a IH]; string_app; cbn [list_ascii_of_string In].
  - tauto.
  - rewrite IH. tauto.
Qed.

Lemma nospace_app (a b : string) : nospace a -> nospace b -> nospace (a ++ b).
Proof.
  intros Ha Hb c Hc. apply in_chars_app in Hc as [Hc | Hc]; auto.
Qed.

Lemma nospace_no_space (w a b : string) (c : ascii) :
  nospace w -> w = a ++ String c b -> PyStr.is_space c = false.
Proof.
  intros Hw ->. apply Hw. apply in_chars_app. right. left. reflexivity.
Qed.

(** Two ways to cut one string. *)
Lemma string_app_split (x y u v : string) :
  x ++ y = u ++ v ->
  (exists z, x = u ++ z /\ v = z ++ y) \/ (exists z, u = x ++ z /\ y = z ++ v).
Proof.
  revert u. induction x as [| c x IH]; intros u E; string_app.
  - right. exists u. split; [reflexivity | exact E].
  - destruct u as [| d u]; string_app.
    + left. exists (String c x). split; [reflexivity | symmetry; exact E].
    + injection E as -> E. destruct (IH u E) as [(z & -> & ->) | (z & -> & ->)].
      * left. exists z. split; reflexivity.
      * right. exists z. split; reflexivity.
Qed.

Lemma ends_with_of_suffix (x y a0 : string) (c : ascii) :
  x ++ y = a0 ++ String c "" -> y <> "" -> exists y0, y = y0 ++ String c "".
Proof.
  intros E Hy. destruct (string_last_cases y) as [-> | (y0 & d & ->)];
    [congruence |].
  rewrite <- string_app_assoc in E. apply app_last_inj in E. subst d.
  exists y0. reflexivity.
Qed.

Lemma is_value_of_nil (w : string) : ~ is_value_of w "".
Proof.
  intros (Hne & _ & a & b & E & _). symmetry in E.
  apply string_app_eq_nil in E as [_ E].
  apply string_app_eq_nil in E as [E _]. contradiction.
Qed.

Lemma is_value_of_whole (w w0 : string) :
  w0 <> "" -> nospace w0 -> (is_value_of w w0 <-> w = w0).
Proof.
  intros Hne Hns. split.
  - intros (_ & _ & a & b & E & Ha & Hb).
    destruct Ha as [-> | (a0 & c & -> & Hc)].
    + destruct Hb as [-> | (c & b0 & -> & Hc)].
      * string_app. rewrite string_app_nil_r in E. symmetry. exact E.
      * string_app.
        rewrite (nospace_no_space w0 w b0 c Hns E) in Hc. discriminate.
    + rewrite string_app_assoc in E. string_app.
      rewrite (nospace_no_space w0 a0 (w ++ b) c Hns E) in Hc. discriminate.
  - intros ->. split; [exact Hne |]. split; [exact Hns |].
    exists "", "". string_app. rewrite string_app_nil_r.
    split; [reflexivity |]. split; left; reflexivity.
Qed.

Lemma is_value_of_after_space (w s : string) (c : ascii) :
  PyStr.is_space c = true ->
  (is_value_of w (String c s) <-> is_value_of w s).
Proof.
  intros Hc. split.
  - intros (Hne & Hns & a & b & E & Ha & Hb).
    split; [exact Hne |]. split; [exact Hns |].
    destruct a as [| d a1]; string_app.
    + destruct w as [| x w]; [congruence |]. string_app.
      injection E as <- _.
      rewrite (Hns c) in Hc by (left; reflexivity). discriminate.
    + injection E as <- E. exists a1, b. split; [exact E |].
      split; [| exact Hb].
      destruct Ha as [Ha | (a0 & x & Ha & Hx)]; [discriminate |].
      destruct a1 as [| y a1]; [left; reflexivity | right].
      destruct (ends_with_of_suffix (String c "") (String y a1) a0 x)
        as [y0 E0]; [string_app; exact Ha | discriminate |].
      exists y0, x. split; [exact E0 | exact Hx].
  - intros (Hne & Hns & a & b & E & Ha & Hb).
    split; [exact Hne |]. split; [exact Hns |].
    exists (String c a), b. string_app. split; [rewrite E; reflexivity |].
    split; [| exact Hb]. right.
    destruct Ha as [-> | (a0 & x & -> & Hx)].
    + exists "", c. split; [reflexivity | exact Hc].
    + exists (String c a0), x. split; [reflexivity | exact Hx].
Qed.

Lemma is_value_of_after_value (w w0 s : string) (c : ascii) :
  w0 <> "" -> nospace w0 -> PyStr.is_space c = true ->
  (is_value_of w (w0 ++ String c s) <-> w = w0 \/ is_value_of w s).
Proof.
  intros Hne0 Hns0 Hc. split.
  - intros (Hne & Hns & a & b & E & Ha & Hb).
    destruct Ha as [-> | (a0 & x & -> & Hx)].
    + left. string_app.
      destruct (string_app_split _ _ _ _ E) as [(z & E1 & E2) | (z & E1 & E2)].
      * destruct z as [| d z]; [rewrite string_app_nil_r in E1; congruence |].
        exfalso. string_app.
        destruct Hb as [-> | (y & b0 & -> & Hy)]; [discriminate |].
        injection E2 as <- _.
        rewrite (nospace_no_space w0 w z y Hns0 E1) in Hy. discriminate.
      * destruct z as [| d z]; [rewrite string_app_nil_r in E1; exact E1 |].
        exfalso. string_app. injection E2 as <- _.
        rewrite (nospace_no_space w w0 z c Hns E1) in Hc. discriminate.
    + right. split; [exact Hne |]. split; [exact Hns |].
      destruct (string_app_split _ _ _ _ E) as [(z & E1 & E2) | (z & E1 & E2)].
      * exfalso. rewrite string_app_assoc in E1. string_app.
        rewrite (nospace_no_space w0 a0 z x Hns0 E1) in Hx. discriminate.
      * destruct z as [| d z]; string_app.
        -- exfalso. rewrite string_app_nil_r in E1.
           rewrite (nospace_no_space w0 a0 "" x Hns0 (eq_sym E1)) in Hx.
           discriminate.
        -- injection E2 as <- E2. exists z, b. split; [exact E2 |].
           split; [| exact Hb].
           destruct z as [| y z]; [left; reflexivity | right].
           destruct (ends_with_of_suffix (w0 ++ String c "") (String y z) a0 x)
             as [y0 E0]; [| discriminate |].
           { rewrite string_app_assoc. string_app. symmetry. exact E1. }
           exists y0, x. split; [exact E0 | exact Hx].
  - intros [-> | (Hne & Hns & a & b & E & Ha & Hb)].
    + split; [exact Hne0 |]. split; [exact Hns0 |].
      exists "", (String c s). string_app. split; [reflexivity |].
      split; [left; reflexivity | right].
      exists c, s. split; [reflexivity | exact Hc].
    + split; [exact Hne |]. split; [exact Hns |].
      exists (w0 ++ String c a), b.
      split; [rewrite string_app_assoc; string_app; rewrite E; reflexivity |].
      split; [| exact Hb]. right.
      destruct Ha as [-> | (a0 & x & -> & Hx)].
      * exists w0, c. split; [reflexivity | exact Hc].
      * exists (w0 ++ String c a0), x.
        split; [rewrite string_app_assoc; string_app; reflexivity | exact Hx].
Qed.

Lemma attr_values_from_spec (s : string) :
  forall cur : option string,
    (forall w0, cur = Some w0 -> w0 <> "" /\ nospace w0) ->
    forall w, In w (attr_values_from cur s)
              <-> is_value_of w (default "" cur ++ s).
Proof.
  induction s as [| c s IH]; intros cur Hcur w; cbn [attr_values_from].
  - destruct cur as [w0 |]; cbn [default].
    + destruct (Hcur w0 eq_refl) as [Hne Hns].
      rewrite string_app_nil_r, (is_value_of_whole w w0 Hne Hns).
      cbn [In]. split; [intros [H | []]; congruence | intros ->; left; reflexivity].
    + string_app. split; [intros [] | intros H; exact (is_value_of_nil w H)].
  - destruct (PyStr.is_space c) eqn:Ec.
    + destruct cur as [w0 |]; cbn [default].
      * destruct (Hcur w0 eq_refl) as [Hne Hns].
        rewrite (is_value_of_after_value w w0 s c Hne Hns Ec).
        cbn [In]. rewrite (IH None) by discriminate. cbn [default]. string_app.
        split; (intros [H | H]; [left; congruence | right; exact H]).
      * string_app. rewrite (is_value_of_after_space w s c Ec).
        rewrite (IH None) by discriminate. cbn [default]. string_app.
        reflexivity.
    + rewrite IH.
      * cbn [default]. unfold id. rewrite string_app_assoc. string_app.
        reflexivity.
      * intros w0 E. injection E as <-. split.
        -- destruct (default "" cur); string_app; discriminate.
        -- apply nospace_app.
           ++ destruct cur as [w1 |]; cbn [default];
                [exact (proj2 (Hcur w1 eq_refl)) | intros x []].
           ++ intros x [<- | []]. exact Ec.
Qed.

Lemma attr_values_spec (v w : string) :
  In w (attr_values v) <-> is_value_of w v.
Proof.
  unfold attr_values. rewrite (attr_values_from_spec v None) by discriminate.
  cbn [default]. string_app. reflexivity.
Qed.

(** The canonical match, without reference to the way the values are
    read. *)
Lemma has_rel_canonical_value (n : Node) :
  has_rel "canonical" n = true
  <-> exists v, get n "rel" = Some v /\ is_value_of "canonical" v.
Proof.
  rewrite has_rel_canonical. split; intros (v & Hv & H); exists v;
    (split; [exact Hv |]); apply attr_values_spec; exact H.
Qed.

Lemma startswith_hash (href : string) :
  PyStr.startswith href "#" = true <-> exists rest, href = String "#"%char rest.
Proof.
  destruct href as [| c rest]; simpl.
  - split; [discriminate | intros [r E]; discriminate].
  - destruct (Ascii.eqb_spec c "#"%char) as [-> | Hc]; simpl.
    + split; [intros _; exists rest; reflexivity | intros _].
      destruct rest; reflexivity.
    + split; [discriminate | intros [r E]]. congruence.
Qed.

Section LinkProperties.

Variable urlparse_netloc : string -> option string.
Variable BeautifulSoup : string -> list Node.

Local Abbreviation audit_html' := (audit_html urlparse_netloc BeautifulSoup).
Local Abbreviation classify_link' := (classify_link urlparse_netloc).

(** The canonical link and its status, as [audit_html] computes them from
    the first [link] element that matches [rel="canonical"]. *)
Lemma canonical_link_cases (u html domain : string) :
  let d := audit_html' u html domain in
  (forall (pre : list Node) (t : Node) (post : list Node),
      descendants (BeautifulSoup html) = (pre ++ t :: post)%list ->
      tag_named "link" t = true ->
      has_rel "canonical" t = true ->
      (forall x, In x pre ->
                 tag_named "link" x = true -> has_rel "canonical" x = false) ->
      canonical_link d = PyStr.strip (default "" (get t "href")))
  /\ ((forall x, In x (descendants (BeautifulSoup html)) ->
                 tag_named "link" x = true -> has_rel "canonical" x = false) ->
      canonical_link d = "")
  /\ (canonical_status d = "MISSING" <-> canonical_link d = "")
  /\ (canonical_status d = "SELF"
      <-> canonical_link d ≠ ""
          /\ PyStr.rstrip_slash (canonical_link d) = PyStr.rstrip_slash u)
  /\ (canonical_status d = "OTHER"
      <-> canonical_link d ≠ ""
          /\ PyStr.rstrip_slash (canonical_link d) ≠ PyStr.rstrip_slash u)
  /\ (PyStr.rstrip_slash u ≠ "" ->
      (canonical_status d = "SELF"
       <-> PyStr.rstrip_slash (canonical_link d) = PyStr.rstrip_slash u)).
Proof.
  intros d.
  destruct (audit_html_canonical urlparse_netloc BeautifulSoup u html domain)
    as (Hd & Hst).
  fold d in Hd, Hst.
  assert (Hno : forall x, (tag_named "link" x = true ->
                           has_rel "canonical" x = false) ->
                tag_named "link" x && has_rel "canonical" x = false).
  { intros x Hx. destruct (tag_named "link" x); [| reflexivity].
    simpl. apply Hx. reflexivity. }
  split; [| split].
  - intros pre t post Hsplit Htag Hrel Hpre.
    rewrite Hd. unfold find_rel, find_all.
    rewrite filter_filter_andb, Hsplit.
    rewrite head_filter_first; [reflexivity | |].
    + intros y Hy. apply Hno. exact (Hpre y Hy).
    + rewrite Htag, Hrel. reflexivity.
  - intros Hall. rewrite Hd. unfold find_rel, find_all.
    rewrite filter_filter_andb, head_filter_none; [reflexivity |].
    intros y Hy. apply Hno. exact (Hall y Hy).
  - rewrite Hst. clear Hst Hd.
    destruct (canonical_link d) as [| c rest] eqn:E.
    + simpl. split; [split; reflexivity |].
      split; [split; [discriminate | intros [H _]; congruence] |].
      split; [split; [discriminate | intros [H _]; congruence] |].
      intros Hu. split; [discriminate |].
      intros H. exfalso. apply Hu. rewrite <- H. reflexivity.
    + cbn [PyStr.truthy].
      destruct (String.eqb_spec (PyStr.rstrip_slash (String c rest))
                  (PyStr.rstrip_slash u)) as [Heq | Hne].
      * split; [split; discriminate |].
        split; [split; [intros _; split; [discriminate | exact Heq]
                       | reflexivity] |].
        split; [split; [discriminate | intros [_ H]; congruence] |].
        intros _. split; [intros _; exact Heq | reflexivity].
      * split; [split; discriminate |].
        split; [split; [discriminate | intros [_ H]; congruence] |].
        split; [split; [intros _; split; [discriminate | exact Hne]
                       | reflexivity] |].
        intros _. split; [discriminate | intros H; congruence].
Qed.

(** C7 (amended): the canonical link is the stripped [href] of the first
    [link] element, in document order, one of whose white-space separated
    [rel] values is [canonical] (empty when there is none, or no href):
    [rel="canonical"], and also [rel="alternate canonical"]. The status is
    MISSING exactly when it is empty; for a non-empty link it is SELF
    exactly when the link and the URL of the page are equal once their
    trailing slashes are removed, and OTHER otherwise. *)
Theorem canonical_status_cases (u html domain : string) :
  let d := audit_html' u html domain in
  (forall (pre : list Node) (t : Node) (post : list Node),
      descendants (BeautifulSoup html) = (pre ++ t :: post)%list ->
      tag_named "link" t = true ->
      has_rel "canonical" t = true ->
      (forall x, In x pre ->
                 tag_named "link" x = true -> has_rel "canonical" x = false) ->
      canonical_link d = PyStr.strip (default "" (get t "href")))
  /\ ((forall x, In x (descendants (BeautifulSoup html)) ->
                 tag_named "link" x = true -> has_rel "canonical" x = false) ->
      canonical_link d = "")
  /\ (canonical_status d = "MISSING" <-> canonical_link d = "")
  /\ (canonical_status d = "SELF"
      <-> canonical_link d ≠ ""
          /\ PyStr.rstrip_slash (canonical_link d) = PyStr.rstrip_slash u)
  /\ (canonical_status d = "OTHER"
      <-> canonical_link d ≠ ""
          /\ PyStr.rstrip_slash (canonical_link d) ≠ PyStr.rstrip_slash u)
  /\ (PyStr.rstrip_slash u ≠ "" ->
      (canonical_status d = "SELF"
       <-> PyStr.rstrip_slash (canonical_link d) = PyStr.rstrip_slash u))
  /\ (forall t : Node,
        has_rel "canonical" t = true
        <-> exists v, get t "rel" = Some v /\ is_value_of "canonical" v)
  /\ (forall t : Node,
        tag_named "link" t = true
        <-> exists attrs contents, t = Tag "link" attrs contents).
Proof.
  intros d.
  destruct (canonical_link_cases u html domain)
    as (H1 & H2 & H3 & H4 & H5 & H6).
  fold d in H1, H2, H3, H4, H5, H6.
  split; [exact H1 |]. split; [exact H2 |]. split; [exact H3 |].
  split; [exact H4 |]. split; [exact H5 |]. split; [exact H6 |].
  split; [exact has_rel_canonical_value |].
  intros t. destruct t as [s | cls s | name attrs contents]; cbn [tag_named].
  - split; [discriminate | intros (a & c & E); discriminate].
  - split; [discriminate | intros (a & c & E); discriminate].
  - rewrite String.eqb_eq. split.
    + intros ->. exists attrs, contents. reflexivity.
    + intros (a & c & E). injection E as -> _ _. reflexivity.
Qed.

Lemma classify_link_cases (ids : gset string) (domain : string)
    (i e b : Z) (a : Node) :
  classify_link' ids domain (i, e, b) a = (i, e, b)
  \/ classify_link' ids domain (i, e, b) a = (i + 1, e, b)
  \/ classify_link' ids domain (i, e, b) a = (i, e + 1, b)
  \/ classify_link' ids domain (i, e, b) a = (i, e, b + 1).
Proof.
  unfold classify_link.
  repeat match goal with
         | |- context [if ?c then _ else _] => destruct c
         end; tauto.
Qed.

Lemma classify_link_delta (ids : gset string) (domain : string) (a : Node) :
  classify_link' ids domain (0, 0, 0) a = (0, 0, 0)
  \/ classify_link' ids domain (0, 0, 0) a = (1, 0, 0)
  \/ classify_link' ids domain (0, 0, 0) a = (0, 1, 0)
  \/ classify_link' ids domain (0, 0, 0) a = (0, 0, 1).
Proof. exact (classify_link_cases ids domain 0 0 0 a). Qed.

Lemma classify_link_shift (ids : gset string) (domain : string)
    (i e b : Z) (a : Node) :
  classify_link' ids domain (i, e, b) a =
    let '(di, de, db) := classify_link' ids domain (0, 0, 0) a in
    (i + di, e + de, b + db).
Proof.
  unfold classify_link.
  repeat match goal with
         | |- context [if ?c then _ else _] => destruct c
         end; f_equal; try f_equal; lia.
Qed.

Lemma collect_ids_spec (soup : list Node) (x : string) :
  x ∈ collect_ids soup
  <-> x ≠ "" /\ exists t, In t (descendants soup) /\ is_tag t = true
                          /\ get t "id" = Some x.
Proof.
  unfold collect_ids. rewrite elem_of_list_to_set, list_elem_of_In.
  rewrite filter_In, in_map_iff. split.
  - intros [(t & Ht & Hin) Hx]. unfold find_all_tags in Hin.
    apply filter_In in Hin as [Hin Htag].
    assert (Hne : x ≠ "") by (intros ->; discriminate).
    split; [exact Hne |]. exists t. repeat split; try assumption.
    unfold get_or_empty in Ht. destruct (get t "id") as [v |]; simpl in Ht.
    + congruence.
    + congruence.
  - intros (Hx & t & Hin & Htag & Hid). split.
    + exists t. split.
      * unfold get_or_empty. rewrite Hid. reflexivity.
      * unfold find_all_tags. apply filter_In. split; assumption.
    + destruct x; [congruence | reflexivity].
Qed.

Lemma fold_classify_counts (ids : gset string) (domain : string)
    (anchors : list Node) (i e b : Z) :
  fold_left (classify_link' ids domain) anchors (i, e, b) =
    (i + links_changing urlparse_netloc (1, 0, 0) ids domain anchors,
     e + links_changing urlparse_netloc (0, 1, 0) ids domain anchors,
     b + links_changing urlparse_netloc (0, 0, 1) ids domain anchors).
Proof.
  revert i e b. induction anchors as [| a l IH]; intros i e b.
  - unfold links_changing. simpl. f_equal; [f_equal |]; lia.
  - cbn [fold_left]. rewrite classify_link_shift.
    unfold links_changing in *. cbn [List.filter].
    destruct (classify_link_delta ids domain a) as [E | [E | [E | E]]];
      rewrite E; rewrite IH;
      repeat first
        [ rewrite bool_decide_eq_true_2 by reflexivity
        | rewrite bool_decide_eq_false_2 by (intros ?; discriminate) ];
      cbv iota; cbn [length]; rewrite ?Nat2Z.inj_succ;
      (f_equal; [f_equal |]); lia.
Qed.

Lemma skip_test (href : string) (p q r : bool) :
  (negb (PyStr.truthy href) || p || q || r)%bool = true
  <-> href = "" \/ p = true \/ q = true \/ r = true.
Proof.
  destruct href, p, q, r; simpl; split; intros H; try reflexivity;
    try discriminate; try tauto;
    repeat (destruct H as [H | H]; try discriminate).
Qed.

(** C8: one anchor changes the counters as follows. An empty href, or one
    that begins with [mailto:], [tel:] or [javascript:], changes nothing.
    An href that begins with [#] adds one to [broken_anchors] exactly when
    what follows the [#] is non-empty and is not an id of the document.
    Any other href adds one to [internal_links] when its host, lower-cased
    and without a leading [www.], is empty, is the root domain or ends
    with a dot and the root domain, and one to [external_links] otherwise.
    The counters of the page are the result of these changes over the [a]
    elements, from zero. *)
Theorem link_classification (u html domain : string) (ids : gset string)
    (i e b : Z) (a : Node) :
  let href := default "" (get a "href") in
  let host := _get_domain urlparse_netloc href in
  let skipped :=
    href = "" \/ PyStr.startswith href "mailto:" = true
    \/ PyStr.startswith href "tel:" = true
    \/ PyStr.startswith href "javascript:" = true in
  let soup := BeautifulSoup html in
  let d := audit_html' u html domain in
  (skipped -> classify_link' ids domain (i, e, b) a = (i, e, b))
  /\ (~ skipped -> PyStr.startswith href "#" = true ->
      (PyStr.drop 1 href ≠ "" -> PyStr.drop 1 href ∉ ids ->
       classify_link' ids domain (i, e, b) a = (i, e, b + 1))
      /\ (PyStr.drop 1 href = "" \/ PyStr.drop 1 href ∈ ids ->
          classify_link' ids domain (i, e, b) a = (i, e, b)))
  /\ (~ skipped -> PyStr.startswith href "#" = false ->
      (host = "" \/ host = domain
       \/ PyStr.endswith host ("." ++ domain) = true ->
       classify_link' ids domain (i, e, b) a = (i + 1, e, b))
      /\ (host ≠ "" -> host ≠ domain ->
          PyStr.endswith host ("." ++ domain) = false ->
          classify_link' ids domain (i, e, b) a = (i, e + 1, b)))
  /\ host =
       match urlparse_netloc href with
       | Some netloc =>
           if PyStr.startswith (PyStr.lower netloc) "www."
           then PyStr.drop 4 (PyStr.lower netloc)
           else PyStr.lower netloc
       | None => ""
       end
  /\ (forall x, x ∈ collect_ids soup
                <-> x ≠ "" /\ exists t, In t (descendants soup)
                                        /\ is_tag t = true
                                        /\ get t "id" = Some x)
  /\ (internal_links d, external_links d, broken_anchors d) =
       fold_left (classify_link' (collect_ids soup) domain)
         (List.filter (tag_named "a") (descendants soup)) (0, 0, 0)
  /\ internal_links d =
       links_changing urlparse_netloc (1, 0, 0) (collect_ids soup) domain
         (List.filter (tag_named "a") (descendants soup))
  /\ external_links d =
       links_changing urlparse_netloc (0, 1, 0) (collect_ids soup) domain
         (List.filter (tag_named "a") (descendants soup))
  /\ broken_anchors d =
       links_changing urlparse_netloc (0, 0, 1) (collect_ids soup) domain
         (List.filter (tag_named "a") (descendants soup)).
Proof.
  intros href host skipped soup d.
  assert (Hskip : forall acc,
             classify_link' ids domain acc a =
               let '(i0, e0, b0) := acc in
               if (negb (PyStr.truthy href)
                   || PyStr.startswith href "mailto:"
                   || PyStr.startswith href "tel:"
                   || PyStr.startswith href "javascript:")%bool
               then acc
               else if PyStr.startswith href "#" then
                 if (1 <? PyStr.len href)
                    && negb (bool_decide (PyStr.drop 1 href ∈ ids))
                 then (i0, e0, b0 + 1) else acc
               else if negb (PyStr.truthy host) then (i0 + 1, e0, b0)
               else if (String.eqb host domain
                        || PyStr.endswith host ("." ++ domain))%bool
                    then (i0 + 1, e0, b0)
                    else (i0, e0 + 1, b0))
    by (intros [[i0 e0] b0]; reflexivity).
  assert (Hfold : (internal_links d, external_links d, broken_anchors d) =
                  fold_left (classify_link' (collect_ids soup) domain)
                    (List.filter (tag_named "a") (descendants soup))
                    (0, 0, 0)).
  { unfold d, audit_html. fold soup. unfold find_all.
    destruct (fold_left _ _ _) as [[i0 e0] b0]. reflexivity. }
  split; [| split; [| split; [| split; [| split]]]].
  - intros Hs. rewrite Hskip.
    apply skip_test in Hs. rewrite Hs. reflexivity.
  - intros Hs Hhash. rewrite Hskip.
    destruct (negb (PyStr.truthy href) || _ || _ || _)%bool eqn:E;
      [apply skip_test in E; contradiction |].
    rewrite Hhash.
    apply startswith_hash in Hhash as [rest Hrest]. rewrite Hrest.
    cbn [PyStr.drop]. unfold PyStr.len. cbn [String.length].
    split.
    + intros Hne Hnot.
      rewrite bool_decide_eq_false_2 by exact Hnot.
      destruct rest; [congruence |]. cbn [String.length].
      replace (1 <? Z.of_nat (S (S (String.length rest)))) with true
        by (symmetry; apply Z.ltb_lt; lia).
      reflexivity.
    + intros [-> | Hin]; [reflexivity |].
      rewrite bool_decide_eq_true_2 by exact Hin.
      rewrite andb_false_r. reflexivity.
  - intros Hs Hhash. rewrite Hskip.
    destruct (negb (PyStr.truthy href) || _ || _ || _)%bool eqn:E;
      [apply skip_test in E; contradiction |].
    rewrite Hhash. split.
    + intros [H | [H | H]].
      * rewrite H. reflexivity.
      * destruct (PyStr.truthy host); [| reflexivity]. simpl.
        rewrite H, String.eqb_refl. reflexivity.
      * destruct (PyStr.truthy host); [| reflexivity]. simpl.
        rewrite H, orb_true_r. reflexivity.
    + intros H1 H2 H3.
      destruct (PyStr.truthy host) eqn:Et.
      * simpl. rewrite H3, (string_eqb_false _ _ H2). reflexivity.
      * apply truthy_empty in Et. contradiction.
  - reflexivity.
  - intros x. apply collect_ids_spec.
  - split; [exact Hfold |].
    rewrite fold_classify_counts in Hfold.
    injection Hfold as Hi He Hb. rewrite Hi, He, Hb.
    repeat split; lia.
Qed.

End LinkProperties.

(* ===================================================================== *)
(** ** The audit of a small page *)
(* ===================================================================== *)

Example page_audit_value :
  Examples.page_audit =
    {| word_count := 7; is_thin_content := 1;
       title := "SEO audit of example dot com!!"; title_len := 30;
       title_status := "OK";
       meta_desc := "A description that is long enough to be accepted as one.";
       meta_desc_len := 56; meta_desc_status := "OK"; h1_count := 1;
       canonical_link := "https://example.com/a/"; canonical_status := "SELF";
       internal_links := 3; external_links := 1; broken_anchors := 1;
       img_missing_alt := 2 |}.
Proof. vm_compute. reflexivity. Qed.

Lemma title_status_buckets_witness :
  title_len Examples.page_audit = 30
  /\ title_status Examples.page_audit = "OK".
Proof.
  destruct (title_status_buckets Examples.simple_netloc Examples.page_parser
              "https://example.com/a" "<html>...</html>" "example.com")
    as (_ & _ & _ & _ & _ & _ & H30 & _).
  split; [reflexivity |]. apply H30. reflexivity.
Defined.

Lemma meta_description_buckets_witness :
  meta_desc Examples.page_audit =
    "A description that is long enough to be accepted as one."
  /\ meta_desc_status Examples.page_audit = "OK".
Proof.
  destruct (meta_description_buckets Examples.simple_netloc
              Examples.page_parser "https://example.com/a" "<html>...</html>"
              "example.com")
    as (Hfirst & _ & _ & _ & _ & Hok & _).
  unfold Examples.page_audit. split.
  - rewrite (Hfirst (firstn 5 (descendants Examples.page)) Examples.meta_lower
               (skipn 6 (descendants Examples.page))).
    + reflexivity.
    + reflexivity.
    + reflexivity.
    + reflexivity.
    + intros x Hx. cbn in Hx.
      repeat (destruct Hx as [<- | Hx]; [vm_compute; congruence |]).
      destruct Hx.
  - apply Hok. vm_compute. split; discriminate.
Defined.

Lemma canonical_status_cases_witness :
  canonical_link Examples.page_audit = "https://example.com/a/"
  /\ canonical_status Examples.page_audit = "SELF".
Proof.
  destruct (canonical_status_cases Examples.simple_netloc
              Examples.page_parser "https://example.com/a" "<html>...</html>"
              "example.com")
    as (Hfirst & _ & _ & Hself & _).
  unfold Examples.page_audit. split.
  - rewrite (Hfirst (firstn 7 (descendants Examples.page))
               Examples.link_canonical
               (skipn 8 (descendants Examples.page))).
    + reflexivity.
    + reflexivity.
    + reflexivity.
    + reflexivity.
    + intros x Hx. cbn in Hx.
      repeat (destruct Hx as [<- | Hx]; [vm_compute; congruence |]).
      destruct Hx.
  - apply Hself. split; [discriminate | reflexivity].
Defined.

Lemma link_classification_witness :
  classify_link Examples.simple_netloc {[ "top" ]} "example.com" (0, 0, 0)
    (Examples.anchor "mailto:someone@example.com") = (0, 0, 0)
  /\ classify_link Examples.simple_netloc {[ "top" ]} "example.com" (0, 0, 0)
       (Examples.anchor "#missing") = (0, 0, 1)
  /\ classify_link Examples.simple_netloc {[ "top" ]} "example.com" (0, 0, 0)
       (Examples.anchor "#") = (0, 0, 0)
  /\ classify_link Examples.simple_netloc {[ "top" ]} "example.com" (0, 0, 0)
       (Examples.anchor "https://blog.example.com/c") = (1, 0, 0)
  /\ classify_link Examples.simple_netloc {[ "top" ]} "example.com" (0, 0, 0)
       (Examples.anchor "https://other.org/d") = (0, 1, 0).
Proof.
  pose proof (fun a =>
                link_classification Examples.simple_netloc Examples.page_parser
                  "https://example.com/a" "<html>...</html>" "example.com"
                  {[ "top" ]} 0 0 0 (Examples.anchor a)) as H.
  cbv zeta in H.
  split; [| split; [| split; [| split]]].
  - destruct (H "mailto:someone@example.com") as (Hskip & _).
    apply Hskip. right. left. reflexivity.
  - destruct (H "#missing") as (_ & Hhash & _).
    apply Hhash.
    + intros [E | [E | [E | E]]]; vm_compute in E; discriminate.
    + reflexivity.
    + vm_compute. discriminate.
    + intros E. apply elem_of_singleton in E. vm_compute in E. discriminate.
  - destruct (H "#") as (_ & Hhash & _).
    apply Hhash.
    + intros [E | [E | [E | E]]]; vm_compute in E; discriminate.
    + reflexivity.
    + left. reflexivity.
  - destruct (H "https://blog.example.com/c") as (_ & _ & Hother & _).
    apply Hother.
    + intros [E | [E | [E | E]]]; vm_compute in E; discriminate.
    + reflexivity.
    + right. right. reflexivity.
  - destruct (H "https://other.org/d") as (_ & _ & Hother & _).
    apply Hother.
    + intros [E | [E | [E | E]]]; vm_compute in E; discriminate.
    + reflexivity.
    + vm_compute. discriminate.
    + vm_compute. discriminate.
    + reflexivity.
Defined.

(* ===================================================================== *)
(** ** Properties of the sitemap resolver *)
(* ===================================================================== *)

Section ResolverProperties.

Variable requests_get : string -> string -> Z -> option (Z * string).
Variable ET_fromstring : string -> option Element.
Variable timeout : Z.
Variable ua : string.

Local Abbreviation visit' := (visit requests_get ET_fromstring timeout ua).
Local Abbreviation loop_body' :=
  (loop_body requests_get ET_fromstring timeout ua).
Local Abbreviation while_queue' :=
  (while_queue requests_get ET_fromstring timeout ua).
Local Abbreviation nested_of' :=
  (nested_of requests_get ET_fromstring timeout ua).
Local Abbreviation pages_of' :=
  (pages_of requests_get ET_fromstring timeout ua).
Local Abbreviation potential' :=
  (potential requests_get ET_fromstring timeout ua).

Lemma filter_length_le {A : Type} (p : A -> bool) (l : list A) :
  (length (List.filter p l) <= length l)%nat.
Proof.
  induction l as [| x l IH]; simpl; [lia |]. destruct (p x); simpl; lia.
Qed.

Lemma filter_not_in_empty (l : list string) :
  List.filter (fun x => negb (bool_decide (x ∈ (∅ : gset string)))) l = l.
Proof.
  induction l as [| x l IH]; cbn [List.filter]; [reflexivity |].
  rewrite bool_decide_eq_false_2 by apply not_elem_of_empty.
  cbn [negb]. rewrite IH. reflexivity.
Qed.

(** What a document appends to [final_urls] does not depend on [seen];
    what it appends to the queue is largest when nothing is seen. *)
Lemma dispatch_pages (seen : gset string) (root : Element) :
  snd (dispatch seen root) = snd (dispatch ∅ root).
Proof.
  unfold dispatch.
  destruct (String.eqb _ "sitemapindex"); [reflexivity |].
  destruct (String.eqb _ "urlset"); reflexivity.
Qed.

Lemma dispatch_nested_le (seen : gset string) (root : Element) :
  (length (fst (dispatch seen root)) <= length (fst (dispatch ∅ root)))%nat.
Proof.
  unfold dispatch.
  destruct (String.eqb _ "sitemapindex").
  - cbn [fst]. rewrite filter_not_in_empty. apply filter_length_le.
  - destruct (String.eqb _ "urlset"); cbn [fst]; lia.
Qed.

Lemma visit_pages (seen : gset string) (u : string) :
  snd (visit' seen u) = pages_of' u.
Proof.
  unfold pages_of, visit.
  destruct (_fetch_text requests_get u timeout ua) as [code xml_text].
  destruct (negb (code =? 200) || negb (PyStr.truthy xml_text))%bool;
    [reflexivity |].
  destruct (ET_fromstring xml_text) as [root |]; [| reflexivity].
  apply dispatch_pages.
Qed.

Lemma visit_nested_le (seen : gset string) (u : string) :
  (length (fst (visit' seen u)) <= length (nested_of' u))%nat.
Proof.
  unfold nested_of, visit.
  destruct (_fetch_text requests_get u timeout ua) as [code xml_text].
  destruct (negb (code =? 200) || negb (PyStr.truthy xml_text))%bool;
    [simpl; lia |].
  destruct (ET_fromstring xml_text) as [root |]; [| simpl; lia].
  apply dispatch_nested_le.
Qed.

(** One round, case by case. *)
Lemma loop_body_seen (st : State) (u : string) (rest : list string) :
  queue st = u :: rest -> u ∈ seen st ->
  loop_body' st =
    {| seen := seen st; final_urls := final_urls st; queue := rest;
       fetched := fetched st |}.
Proof.
  intros Hq Hin. unfold loop_body. rewrite Hq.
  rewrite bool_decide_eq_true_2 by exact Hin. reflexivity.
Qed.

Lemma loop_body_new (st : State) (u : string) (rest : list string) :
  queue st = u :: rest -> u ∉ seen st ->
  loop_body' st =
    {| seen := {[u]} ∪ seen st;
       final_urls := (final_urls st ++ pages_of' u)%list;
       queue := (rest ++ fst (visit' ({[u]} ∪ seen st) u))%list;
       fetched := (fetched st ++ [u])%list |}.
Proof.
  intros Hq Hin. unfold loop_body. rewrite Hq.
  rewrite bool_decide_eq_false_2 by exact Hin.
  rewrite <- (visit_pages ({[u]} ∪ seen st) u).
  destruct (visit' ({[u]} ∪ seen st) u) as [nested pages]. reflexivity.
Qed.

Local Abbreviation unseen_sum seen nodes :=
  (list_sum
     (map (fun u => S (length (nested_of' u)))
        (List.filter (fun u => negb (bool_decide (u ∈ seen))) nodes))).

Lemma unseen_sum_insert_le (nodes : list string) (seen : gset string)
    (u : string) :
  (unseen_sum ({[u]} ∪ seen) nodes <= unseen_sum seen nodes)%nat.
Proof.
  induction nodes as [| x nodes IH]; cbn [List.filter]; [simpl; lia |].
  unfold list_sum in *.
  repeat case_bool_decide; cbn [negb map fold_right]; try lia.
  set_solver.
Qed.

Lemma unseen_sum_insert_in (nodes : list string) (seen : gset string)
    (u : string) :
  In u nodes -> u ∉ seen ->
  (unseen_sum ({[u]} ∪ seen) nodes + S (length (nested_of' u))
   <= unseen_sum seen nodes)%nat.
Proof.
  intros Hin Hu. induction nodes as [| x nodes IH]; [destruct Hin |].
  cbn [List.filter].
  destruct Hin as [-> | Hin].
  - rewrite (bool_decide_eq_true_2 (u ∈ {[u]} ∪ seen)) by set_solver.
    rewrite (bool_decide_eq_false_2 (u ∈ seen)) by exact Hu.
    pose proof (unseen_sum_insert_le nodes seen u).
    unfold list_sum in *. cbn [negb map fold_right]. lia.
  - specialize (IH Hin). unfold list_sum in *.
    repeat case_bool_decide; cbn [negb map fold_right]; try lia.
    set_solver.
Qed.

Section FiniteGraph.

(** The URLs whose document names further sitemaps are among [nodes]. *)
Variable nodes : list string.
Hypothesis nodes_cover : forall u, ~ In u nodes -> nested_of' u = [].

Lemma potential_decreases (st : State) :
  queue st <> [] ->
  (potential' nodes (loop_body' st) < potential' nodes st)%nat.
Proof.
  intros Hne. destruct (queue st) as [| u rest] eqn:Hq; [congruence |].
  destruct (decide (u ∈ seen st)) as [Hseen | Hnew].
  - rewrite (loop_body_seen st u rest Hq Hseen).
    unfold potential. cbn [queue seen]. rewrite Hq. cbn [length]. lia.
  - rewrite (loop_body_new st u rest Hq Hnew).
    unfold potential. cbn [queue seen]. rewrite Hq, length_app.
    cbn [length].
    pose proof (visit_nested_le ({[u]} ∪ seen st) u) as Hle.
    destruct (decide (u ∈ nodes)) as [Hin | Hout].
    + apply list_elem_of_In in Hin.
      pose proof (unseen_sum_insert_in nodes (seen st) u Hin Hnew). lia.
    + rewrite list_elem_of_In in Hout.
      rewrite (nodes_cover u Hout) in Hle. cbn [length] in Hle.
      pose proof (unseen_sum_insert_le nodes (seen st) u). lia.
Qed.

Lemma while_queue_terminates (n : nat) (st : State) :
  (potential' nodes st <= n)%nat ->
  exists st', while_queue' n st = Some st' /\ queue st' = [].
Proof.
  revert st. induction n as [| n IH]; intros st Hp.
  - destruct (queue st) as [| u rest] eqn:Hq.
    + exists st. cbn [while_queue]. rewrite Hq. split; reflexivity.
    + unfold potential in Hp. rewrite Hq in Hp. cbn [length] in Hp. lia.
  - destruct (queue st) as [| u rest] eqn:Hq.
    + exists st. cbn [while_queue]. rewrite Hq. split; reflexivity.
    + cbn [while_queue]. rewrite Hq. apply IH.
      assert (Hne : queue st <> []) by (rewrite Hq; discriminate).
      pose proof (potential_decreases st Hne). lia.
Qed.

End FiniteGraph.

(** The loop returns the state reached after some number of rounds. *)
Lemma while_queue_rounds (n : nat) (st st' : State) :
  while_queue' n st = Some st' ->
  queue st' = [] /\ exists k, st' = Nat.iter k loop_body' st.
Proof.
  revert st. induction n as [| n IH]; intros st H; cbn [while_queue] in H.
  - destruct (queue st) eqn:Hq; [| discriminate].
    injection H as <-. split; [exact Hq | exists O; reflexivity].
  - destruct (queue st) eqn:Hq.
    + injection H as <-. split; [exact Hq | exists O; reflexivity].
    + destruct (IH _ H) as (Hq' & k & Hk). split; [exact Hq' |].
      exists (S k). rewrite Nat.iter_succ_r. exact Hk.
Qed.

Lemma invariant_initial (sitemap_input : string) :
  resolver_invariant requests_get ET_fromstring timeout ua
    (initial_state sitemap_input).
Proof.
  unfold resolver_invariant, initial_state. cbn.
  split; [constructor |]. split.
  - intros u. split; [intros [] | intros H].
    exfalso. exact (not_elem_of_empty (C:=gset string) u H).
  - intros p. split; [intros [] | intros (s & [] & _)].
Qed.

Lemma invariant_loop_body (st : State) :
  resolver_invariant requests_get ET_fromstring timeout ua st ->
  resolver_invariant requests_get ET_fromstring timeout ua (loop_body' st).
Proof.
  intros (Hnd & Hseen & Hfinal).
  destruct (queue st) as [| u rest] eqn:Hq.
  - unfold loop_body. rewrite Hq. repeat split; try assumption;
      try apply Hseen; try apply Hfinal.
  - destruct (decide (u ∈ seen st)) as [Hin | Hnew].
    + rewrite (loop_body_seen st u rest Hq Hin).
      repeat split; cbn; try assumption; try apply Hseen; try apply Hfinal.
    + rewrite (loop_body_new st u rest Hq Hnew).
      unfold resolver_invariant. cbn [fetched seen final_urls].
      split; [| split].
      * apply NoDup_app. split; [exact Hnd | split].
        -- intros x Hx Hx'. apply list_elem_of_In in Hx, Hx'.
           destruct Hx' as [<- | []]. apply Hnew, Hseen. exact Hx.
        -- apply NoDup_singleton.
      * intros x. rewrite in_app_iff, elem_of_union, elem_of_singleton.
        rewrite Hseen. cbn [In]. split.
        -- intros [H | [H | []]]; [right; exact H | left; symmetry; exact H].
        -- intros [-> | H]; [right; left; reflexivity | left; exact H].
      * intros p. rewrite in_app_iff, Hfinal. split.
        -- intros [(s & Hs & Hp) | Hp].
           ++ exists s. split; [apply in_app_iff; left; exact Hs | exact Hp].
           ++ exists u. split; [apply in_app_iff; right; left; reflexivity
                               | exact Hp].
        -- intros (s & Hs & Hp). apply in_app_iff in Hs as [Hs | [<- | []]].
           ++ left. exists s. split; assumption.
           ++ right. exact Hp.
Qed.

Lemma invariant_iter (k : nat) (st : State) :
  resolver_invariant requests_get ET_fromstring timeout ua st ->
  resolver_invariant requests_get ET_fromstring timeout ua
    (Nat.iter k loop_body' st).
Proof.
  intros H. induction k as [| k IH]; [exact H |].
  cbn [Nat.iter nat_rect]. apply invariant_loop_body. exact IH.
Qed.

End ResolverProperties.

(** On a finite graph, the documents outside the graph name nothing. *)
Lemma graph_nodes_cover (ET_fromstring : string -> option Element)
    (g : gmap string (Z * string)) (timeout : Z) (ua u : string) :
  ~ In u (elements (dom g)) ->
  nested_of (fetch_in g) ET_fromstring timeout ua u = [].
Proof.
  intros Hu. rewrite <- list_elem_of_In, elem_of_elements in Hu.
  apply not_elem_of_dom in Hu.
  unfold nested_of, visit, _fetch_text, fetch_in. rewrite Hu. reflexivity.
Qed.

(** The loop ends on every network where finitely many URLs serve a
    document that names further sitemaps. *)
Lemma resolve_terminates_finite
    (requests_get : string -> string -> Z -> option (Z * string))
    (ET_fromstring : string -> option Element) (timeout : Z) (ua : string)
    (nodes : list string) (sitemap_input : string) :
  (forall u, ~ In u nodes ->
             nested_of requests_get ET_fromstring timeout ua u = []) ->
  exists fuel st,
    resolve requests_get ET_fromstring timeout ua fuel sitemap_input = Some st
    /\ queue st = [].
Proof.
  intros Hcover.
  exists (potential requests_get ET_fromstring timeout ua nodes
            (initial_state sitemap_input)).
  apply (while_queue_terminates _ _ _ _ nodes Hcover). lia.
Qed.

Lemma resolve_invariant
    (requests_get : string -> string -> Z -> option (Z * string))
    (ET_fromstring : string -> option Element) (timeout : Z) (ua : string)
    (fuel : nat) (sitemap_input : string) (st : State) :
  resolve requests_get ET_fromstring timeout ua fuel sitemap_input = Some st ->
  queue st = []
  /\ resolver_invariant requests_get ET_fromstring timeout ua st.
Proof.
  intros H. apply while_queue_rounds in H as (Hq & k & ->).
  split; [exact Hq |]. apply invariant_iter, invariant_initial.
Qed.

(** C2: on every sitemap graph (finitely many URLs that serve a response,
    whatever they name: each other, themselves, or URLs found by the
    fallback branch), the loop of the resolver ends with an empty queue,
    and no URL is fetched twice, neither in the final state nor after any
    number of rounds. *)
Theorem resolver_terminates_fetch_once
    (ET_fromstring : string -> option Element)
    (g : gmap string (Z * string)) (sitemap_input : string)
    (timeout : Z) (ua : string) :
  (exists fuel st,
      resolve (fetch_in g) ET_fromstring timeout ua fuel sitemap_input = Some st
      /\ queue st = [] /\ NoDup (fetched st))
  /\ (forall k,
        NoDup (fetched (rounds (fetch_in g) ET_fromstring timeout ua k
                          sitemap_input)))
  /\ (forall fuel st,
        resolve (fetch_in g) ET_fromstring timeout ua fuel sitemap_input
        = Some st ->
        queue st = [] /\ NoDup (fetched st)).
Proof.
  split; [| split].
  - destruct (resolve_terminates_finite (fetch_in g) ET_fromstring timeout ua
                (elements (dom g)) sitemap_input) as (fuel & st & Hst & Hq).
    { intros u Hu. apply graph_nodes_cover. exact Hu. }
    exists fuel, st. split; [exact Hst |]. split; [exact Hq |].
    apply resolve_invariant in Hst as (_ & Hnd & _). exact Hnd.
  - intros k. unfold rounds.
    apply (invariant_iter (fetch_in g) ET_fromstring timeout ua k).
    apply invariant_initial.
  - intros fuel st Hst.
    apply resolve_invariant in Hst as (Hq & Hnd & _). split; assumption.
Qed.

Example cycle_fetched_once :
  fetched <$> resolve (fetch_in Examples.web_cycle) Examples.parse_known 20
                "ua" 5 Examples.index_url
  = Some [Examples.index_url; Examples.pages_url].
Proof. vm_compute. reflexivity. Qed.

Example fallback_fetched_once :
  fetched <$> resolve (fetch_in Examples.web_feed) Examples.parse_known 20
                "ua" 5 Examples.feed_url
  = Some [Examples.feed_url; Examples.pages_url].
Proof. vm_compute. reflexivity. Qed.

Lemma resolver_terminates_fetch_once_witness :
  exists st,
    resolve (fetch_in Examples.web_cycle) Examples.parse_known 20 "ua" 5
      Examples.index_url = Some st
    /\ queue st = [] /\ NoDup (fetched st).
Proof.
  destruct (resolver_terminates_fetch_once Examples.parse_known
              Examples.web_cycle Examples.index_url 20 "ua") as (_ & _ & H).
  eexists. split; [vm_compute; reflexivity |].
  apply (H 5%nat). vm_compute. reflexivity.
Defined.

(* --------------------------------------------------------------------- *)
(** *** What a document lists, without reference to the dispatch *)

Lemma head_filter_some_inv {A : Type} (p : A -> bool) (l : list A) (c : A) :
  head (List.filter p l) = Some c ->
  exists pre post,
    l = (pre ++ c :: post)%list /\ p c = true
    /\ forall x, In x pre -> p x = false.
Proof.
  induction l as [| y l IH]; cbn [List.filter]; [discriminate |].
  destruct (p y) eqn:Ey.
  - cbn [head]. intros E. injection E as <-.
    exists [], l. split; [reflexivity |]. split; [exact Ey | intros x []].
  - intros E. destruct (IH E) as (pre & post & -> & Hc & Hpre).
    exists (y :: pre), post. split; [reflexivity |]. split; [exact Hc |].
    intros x [<- | Hx]; [exact Ey | exact (Hpre x Hx)].
Qed.

Lemma find_child_spec (e : Element) (nm : string) (c : Element) :
  find_child e nm = Some c <-> first_child_named e nm c.
Proof.
  unfold find_child, findall, first_child_named. split.
  - intros H. apply head_filter_some_inv in H as (pre & post & E & Hc & Hpre).
    exists pre, post. split; [exact E |].
    split; [apply String.eqb_eq; exact Hc |].
    intros x Hx. apply String.eqb_neq. exact (Hpre x Hx).
  - intros (pre & post & -> & Hc & Hpre).
    apply head_filter_first.
    + intros x Hx. apply String.eqb_neq. exact (Hpre x Hx).
    + apply String.eqb_eq. exact Hc.
Qed.

Lemma loc_text_spec (loc : Element) (p : string) :
  loc_text loc = Some p
  <-> exists txt, text loc = Some txt /\ txt <> "" /\ p = PyStr.strip txt.
Proof.
  unfold loc_text. destruct (text loc) as [s |].
  - destruct s as [| c s]; cbn [PyStr.truthy].
    + split; [discriminate | intros (txt & E & Hne & _)].
      injection E as <-. congruence.
    + split.
      * intros E. injection E as <-. exists (String c s).
        split; [reflexivity |]. split; [discriminate | reflexivity].
      * intros (txt & E & _ & ->). injection E as <-. reflexivity.
  - split; [discriminate | intros (txt & E & _)]. discriminate.
Qed.

Lemma child_locs_spec (r : Element) (nm p : string) :
  In p (child_locs r nm)
  <-> exists entry loc txt,
      In entry (children r) /\ tag entry = nm
      /\ first_child_named entry "loc" loc
      /\ text loc = Some txt /\ txt <> "" /\ p = PyStr.strip txt.
Proof.
  unfold child_locs. rewrite <- list_elem_of_In, list_elem_of_omap. split.
  - intros (entry & Hin & Hf). apply list_elem_of_In in Hin.
    unfold findall in Hin. apply filter_In in Hin as [Hin Htag].
    apply bind_Some in Hf as (loc & Hloc & Htxt).
    apply find_child_spec in Hloc.
    apply loc_text_spec in Htxt as (txt & Ht & Hne & ->).
    exists entry, loc, txt. split; [exact Hin |].
    split; [apply String.eqb_eq; exact Htag |].
    split; [exact Hloc |]. split; [exact Ht |]. split; [exact Hne | reflexivity].
  - intros (entry & loc & txt & Hin & Htag & Hloc & Ht & Hne & ->).
    exists entry. split.
    + apply list_elem_of_In. unfold findall. apply filter_In.
      split; [exact Hin | apply String.eqb_eq; exact Htag].
    + apply bind_Some. exists loc. split; [apply find_child_spec; exact Hloc |].
      apply loc_text_spec. exists txt.
      split; [exact Ht |]. split; [exact Hne | reflexivity].
Qed.

Lemma Element_forall_ind (P : Element -> Prop) :
  (forall t x cs, Forall P cs -> P (Elem t x cs)) -> forall e, P e.
Proof.
  intros H. fix IH 1. intros [t x cs]. apply H.
  induction cs as [| c cs IHcs]; constructor; [apply IH | exact IHcs].
Qed.

Lemma in_iter_iff :
  forall e x, In x (iter e) <-> x = e \/ below e x.
Proof.
  apply (Element_forall_ind
           (fun e => forall x, In x (iter e) <-> x = e \/ below e x)).
  intros t tx cs Hcs x. cbn [iter In]. rewrite in_flat_map. split.
  - intros [<- | (c & Hc & Hx)]; [left; reflexivity | right].
    rewrite Forall_forall in Hcs.
    apply (Hcs c) in Hx; [| apply list_elem_of_In; exact Hc].
    destruct Hx as [-> | Hx].
    + apply below_child. exact Hc.
    + apply (below_deeper _ c x); [exact Hc | exact Hx].
  - intros [-> | Hb]; [left; reflexivity | right].
    rewrite Forall_forall in Hcs.
    destruct Hb as [c Hc | c y Hc Hy]; cbn [children] in Hc.
    + exists c. split; [exact Hc |].
      apply (Hcs c); [apply list_elem_of_In; exact Hc | left; reflexivity].
    + exists c. split; [exact Hc |].
      apply (Hcs c); [apply list_elem_of_In; exact Hc | right; exact Hy].
Qed.

Lemma in_below_iff (e x : Element) :
  In x (flat_map iter (children e)) <-> below e x.
Proof.
  rewrite in_flat_map. split.
  - intros (c & Hc & Hx). apply in_iter_iff in Hx as [-> | Hx].
    + apply below_child. exact Hc.
    + apply (below_deeper _ c x); [exact Hc | exact Hx].
  - intros [c Hc | c y Hc Hy]; exists c; (split; [exact Hc |]);
      apply in_iter_iff; [left; reflexivity | right; exact Hy].
Qed.

Lemma all_locs_spec (r : Element) (p : string) :
  In p (all_locs r)
  <-> exists loc txt,
      below r loc /\ tag loc = "loc"
      /\ text loc = Some txt /\ txt <> "" /\ p = PyStr.strip txt.
Proof.
  unfold all_locs. rewrite <- list_elem_of_In, list_elem_of_omap. split.
  - intros (loc & Hin & Htxt). apply list_elem_of_In in Hin.
    unfold findall_below in Hin. apply filter_In in Hin as [Hin Htag].
    apply in_below_iff in Hin.
    apply loc_text_spec in Htxt as (txt & Ht & Hne & ->).
    exists loc, txt. split; [exact Hin |].
    split; [apply String.eqb_eq; exact Htag |].
    split; [exact Ht |]. split; [exact Hne | reflexivity].
  - intros (loc & txt & Hin & Htag & Ht & Hne & ->).
    exists loc. split.
    + apply list_elem_of_In. unfold findall_below. apply filter_In.
      split; [apply in_below_iff; exact Hin | apply String.eqb_eq; exact Htag].
    + apply loc_text_spec. exists txt.
      split; [exact Ht |]. split; [exact Hne | reflexivity].
Qed.

Lemma dispatch_pages_spec (seen : gset string) (r : Element) (p : string) :
  In p (snd (dispatch seen r))
  <-> (PyStr.lower (tag r) = "urlset" /\ listed_by_urlset r p)
      \/ (PyStr.lower (tag r) <> "sitemapindex"
          /\ PyStr.lower (tag r) <> "urlset"
          /\ listed_by_unknown_root r p).
Proof.
  unfold dispatch, listed_by_urlset, listed_by_unknown_root.
  destruct (String.eqb_spec (PyStr.lower (tag r)) "sitemapindex") as [Hi | Hi].
  - cbn [snd In]. split; [intros [] |].
    intros [[Hu _] | [Hn _]]; [rewrite Hi in Hu; discriminate | contradiction].
  - destruct (String.eqb_spec (PyStr.lower (tag r)) "urlset") as [Hu | Hu].
    + cbn [snd]. rewrite child_locs_spec. split.
      * intros H. left. split; [exact Hu | exact H].
      * intros [[_ H] | (_ & Hn & _)]; [exact H | contradiction].
    + cbn [snd]. rewrite filter_In, all_locs_spec. unfold ends_with_xml. split.
      * intros [(loc & txt & Hb & Ht & Hx & Hne & ->) Hend]. right.
        split; [exact Hi |]. split; [exact Hu |].
        exists loc, txt. repeat (split; [assumption |]).
        split; [reflexivity |].
        intros Hs. apply endswith_iff in Hs. rewrite Hs in Hend. discriminate.
      * intros [[Hu' _] | (_ & _ & loc & txt & Hb & Ht & Hx & Hne & -> & Hend)];
          [contradiction |].
        split; [exists loc, txt; repeat (split; [assumption |]); reflexivity |].
        apply negb_true_iff.
        destruct (PyStr.endswith (PyStr.strip txt) ".xml") eqn:E;
          [| reflexivity].
        exfalso. apply Hend. apply endswith_iff. exact E.
Qed.

Lemma pages_of_spec
    (requests_get : string -> string -> Z -> option (Z * string))
    (ET_fromstring : string -> option Element) (timeout : Z) (ua : string)
    (s p : string) :
  In p (pages_of requests_get ET_fromstring timeout ua s)
  <-> exists body root,
      _fetch_text requests_get s timeout ua = (200, body)
      /\ body <> ""
      /\ ET_fromstring body = Some root
      /\ ((PyStr.lower (tag (strip_namespaces root)) = "urlset"
           /\ listed_by_urlset (strip_namespaces root) p)
          \/ (PyStr.lower (tag (strip_namespaces root)) <> "sitemapindex"
              /\ PyStr.lower (tag (strip_namespaces root)) <> "urlset"
              /\ listed_by_unknown_root (strip_namespaces root) p)).
Proof.
  unfold pages_of, visit.
  destruct (_fetch_text requests_get s timeout ua) as [code body].
  destruct (Z.eqb_spec code 200) as [-> | Hcode]; cbn [negb orb].
  - destruct body as [| c rest]; cbn [PyStr.truthy negb].
    + split; [intros [] | intros (b & r & E & Hne & _)].
      injection E as <-. congruence.
    + destruct (ET_fromstring (String c rest)) as [root |] eqn:Ep.
      * rewrite dispatch_pages_spec. split.
        -- intros H. exists (String c rest), root.
           split; [reflexivity |]. split; [discriminate |].
           split; [exact Ep | exact H].
        -- intros (b & r & E & _ & Er & H). injection E as <-.
           rewrite Ep in Er. injection Er as <-. exact H.
      * split; [intros [] | intros (b & r & E & _ & Er & _)].
        injection E as <-. rewrite Ep in Er. discriminate.
  - split; [intros [] | intros (b & r & E & _)].
    injection E as E _. congruence.
Qed.

(** A sitemap index lists no page: the URLs it names are only queued. *)
Lemma index_lists_no_page
    (requests_get : string -> string -> Z -> option (Z * string))
    (ET_fromstring : string -> option Element) (timeout : Z) (ua s : string) :
  is_sitemap_index_url requests_get ET_fromstring timeout ua s = true ->
  pages_of requests_get ET_fromstring timeout ua s = [].
Proof.
  unfold is_sitemap_index_url, pages_of, visit.
  destruct (_fetch_text requests_get s timeout ua) as [code xml_text].
  intros H. apply andb_true_iff in H as [H Hroot].
  apply andb_true_iff in H as [Hcode Hbody].
  rewrite Hcode, Hbody. cbn [negb orb].
  destruct (ET_fromstring xml_text) as [root |]; [| reflexivity].
  unfold dispatch. rewrite Hroot. reflexivity.
Qed.

(** C3 (amended): the list returned by the resolver has no duplicate, and
    it holds exactly the pages listed by the documents that were fetched.
    A document lists pages when it was fetched with status 200 and a body
    that is not empty and parses as XML; then, with the namespaces taken
    off the tags, a urlset lists the stripped text of the first [loc] child,
    when it has text, of each [url] child of its root, and a document with
    an unknown root tag lists the stripped text of every [loc] element
    below its root that has text, unless the stripped text ends in [.xml].
    A sitemap index lists no page, so a URL is never returned for being
    named by an index; a URL listed as a page is returned also when it is
    the URL of a sitemap index. On a sitemap graph the resolver does
    return a list. Nothing is said of the order. *)
Theorem parse_sitemap_result
    (requests_get : string -> string -> Z -> option (Z * string))
    (ET_fromstring : string -> option Element)
    (g : gmap string (Z * string)) (sitemap_input : string)
    (timeout : Z) (ua : string) :
  (exists fuel out,
      parse_sitemap (fetch_in g) ET_fromstring timeout ua fuel sitemap_input
      = Some out)
  /\ (forall fuel out,
        parse_sitemap requests_get ET_fromstring timeout ua fuel sitemap_input
        = Some out ->
        NoDup out
        /\ exists st,
            resolve requests_get ET_fromstring timeout ua fuel sitemap_input
            = Some st
            /\ forall p,
                In p out
                <-> exists s,
                    In s (fetched st)
                    /\ In p (pages_of requests_get ET_fromstring timeout ua s))
  /\ (forall s,
        is_sitemap_index_url requests_get ET_fromstring timeout ua s = true ->
        pages_of requests_get ET_fromstring timeout ua s = [])
  /\ (forall s p,
        In p (pages_of requests_get ET_fromstring timeout ua s)
        <-> exists body root,
            _fetch_text requests_get s timeout ua = (200, body)
            /\ body <> ""
            /\ ET_fromstring body = Some root
            /\ ((PyStr.lower (tag (strip_namespaces root)) = "urlset"
                 /\ listed_by_urlset (strip_namespaces root) p)
                \/ (PyStr.lower (tag (strip_namespaces root)) <> "sitemapindex"
                    /\ PyStr.lower (tag (strip_namespaces root)) <> "urlset"
                    /\ listed_by_unknown_root (strip_namespaces root) p))).
Proof.
  split; [| split; [| split]].
  - destruct (resolve_terminates_finite (fetch_in g) ET_fromstring timeout ua
                (elements (dom g)) sitemap_input) as (fuel & st & Hst & _).
    { intros u Hu. apply graph_nodes_cover. exact Hu. }
    exists fuel. unfold parse_sitemap. rewrite Hst. eexists. reflexivity.
  - intros fuel out H. unfold parse_sitemap in H.
    destruct (resolve requests_get ET_fromstring timeout ua fuel sitemap_input)
      as [st |] eqn:Hst; [| discriminate].
    cbn in H. injection H as <-.
    split; [apply NoDup_elements |].
    exists st. split; [reflexivity |].
    apply resolve_invariant in Hst as (_ & _ & _ & Hfinal).
    intros p. rewrite <- Hfinal, <- list_elem_of_In.
    rewrite elem_of_elements, elem_of_list_to_set, list_elem_of_In.
    reflexivity.
  - intros s. apply index_lists_no_page.
  - intros s p. apply pages_of_spec.
Qed.

Lemma parse_sitemap_result_witness :
  exists out,
    parse_sitemap (fetch_in Examples.web_feed) Examples.parse_known 20 "ua" 5
      Examples.feed_url = Some out
    /\ NoDup out.
Proof.
  destruct (parse_sitemap_result (fetch_in Examples.web_feed)
              Examples.parse_known Examples.web_feed Examples.feed_url 20 "ua")
    as (_ & H & _).
  eexists. split; [vm_compute; reflexivity |].
  apply (H 5%nat). vm_compute. reflexivity.
Defined.

(** C3, as stated, fails when a page sitemap lists the URL of a sitemap
    index: here the index names the page sitemap, which lists the index
    itself next to a page; the index is a sitemap-index URL, and it is
    returned. *)
Lemma sitemap_index_url_returned :
  exists out,
    parse_sitemap (fetch_in Examples.web_overlap) Examples.parse_known 20 "ua"
      5 Examples.index_url = Some out
    /\ In Examples.index_url out
    /\ is_sitemap_index_url (fetch_in Examples.web_overlap)
         Examples.parse_known 20 "ua" Examples.index_url = true.
Proof.
  eexists. split; [vm_compute; reflexivity |].
  split; [| vm_compute; reflexivity].
  vm_compute. tauto.
Qed.

Example overlap_result :
  exists out,
    parse_sitemap (fetch_in Examples.web_overlap) Examples.parse_known 20 "ua"
      5 Examples.index_url = Some out
    /\ Permutation out [Examples.index_url; Examples.about_url].
Proof.
  eexists. split; [vm_compute; reflexivity |].
  first [reflexivity | apply perm_swap].
Qed.

(** The fallback branch returns a sitemap index whose URL does not end in
    [.xml], and never reads it. *)
Example fallback_returns_sitemap_index :
  parse_sitemap (fetch_in Examples.web_hub) Examples.parse_known 20 "ua" 5
    Examples.feed_url = Some [Examples.hub_url]
  /\ is_sitemap_index_url (fetch_in Examples.web_hub) Examples.parse_known 20
       "ua" Examples.hub_url = true
  /\ fetched <$> resolve (fetch_in Examples.web_hub) Examples.parse_known 20
                   "ua" 5 Examples.feed_url = Some [Examples.feed_url].
Proof. repeat split; vm_compute; reflexivity. Qed.

(* ===================================================================== *)
(** ** Further properties: text and word count *)
(* ===================================================================== *)

Lemma is_space_not_word (c : ascii) :
  PyStr.is_space c = true -> is_word_char c = false.
Proof.
  destruct c as [b0 b1 b2 b3 b4 b5 b6 b7].
  destruct b0, b1, b2, b3, b4, b5, b6, b7; vm_compute; congruence.
Qed.

Lemma count_runs_space (w : bool) (c : ascii) (s : string) :
  PyStr.is_space c = true -> count_runs w (String c s) = count_runs false s.
Proof.
  intros H. cbn [count_runs]. rewrite (is_space_not_word c H). reflexivity.
Qed.

Lemma count_runs_sub_spaces (s : string) :
  forall r w : bool,
    (r = true -> w = false) ->
    count_runs w (sub_spaces r s) = count_runs w s.
Proof.
  induction s as [| c s IH]; intros r w Hrw; [reflexivity |].
  cbn [sub_spaces]. destruct (PyStr.is_space c) eqn:Ec.
  - rewrite (count_runs_space w c s Ec). destruct r.
    + rewrite (Hrw eq_refl). apply IH. reflexivity.
    + rewrite (count_runs_space w " "%char _ eq_refl). apply IH. reflexivity.
  - cbn [count_runs]. destruct (is_word_char c); [destruct w |];
      rewrite IH by discriminate; reflexivity.
Qed.

Lemma count_runs_lstrip (s : string) :
  count_runs false (PyStr.lstrip s) = count_runs false s.
Proof.
  induction s as [| c s IH]; [reflexivity |].
  cbn [PyStr.lstrip]. destruct (PyStr.is_space c) eqn:Ec; [| reflexivity].
  rewrite (count_runs_space false c s Ec). exact IH.
Qed.

Lemma count_runs_rstrip (s : string) :
  forall w : bool, count_runs w (PyStr.rstrip s) = count_runs w s.
Proof.
  unfold PyStr.rstrip.
  induction s as [| c s IH]; intros w; [reflexivity |].
  cbn [PyStr.rstrip_by].
  destruct (PyStr.rstrip_by PyStr.is_space s) as [| d r] eqn:Er.
  - destruct (PyStr.is_space c) eqn:Ec.
    + rewrite (count_runs_space w c s Ec), <- IH. reflexivity.
    + cbn [count_runs].
      rewrite <- (IH true), <- (IH false). reflexivity.
  - cbn [count_runs] in *.
    rewrite <- (IH true), <- (IH false). reflexivity.
Qed.

(** X1: collapsing and trimming the white space of a text does not change
    its number of words. *)
Theorem count_words_normalize_space (s : string) :
  _count_words (_normalize_space s) = _count_words s.
Proof.
  unfold _count_words, _normalize_space, PyStr.strip.
  rewrite count_runs_sub_spaces by discriminate.
  rewrite count_runs_rstrip. apply count_runs_lstrip.
Qed.

Lemma count_runs_app_space (a b : string) :
  forall w : bool,
    count_runs w (a ++ String " "%char b) = count_runs w a + count_runs false b.
Proof.
  induction a as [| c a IH]; intros w; string_app.
  - rewrite (count_runs_space w " "%char b eq_refl). reflexivity.
  - cbn [count_runs]. destruct (is_word_char c); [destruct w |];
      rewrite IH; lia.
Qed.

Lemma count_runs_join (l : list string) :
  count_runs false (PyStr.join " " l)
  = fold_right Z.add 0 (map _count_words l).
Proof.
  induction l as [| x l IH]; [reflexivity |].
  destruct l as [| y l].
  - cbn. unfold _count_words. lia.
  - change (PyStr.join " " (x :: y :: l))
      with (x ++ String " "%char (PyStr.join " " (y :: l))).
    rewrite count_runs_app_space, IH. reflexivity.
Qed.

(** X2: the word count of a page is the sum of the word counts of the text
    nodes that [get_text] keeps (plain strings and CDATA sections;
    comments, declarations and the text of [script], [style] and
    [template] elements are passed over): words of different text nodes
    are never joined, and the normalisation of white space plays no
    part. *)
Theorem word_count_sum_of_text_nodes
    (urlparse_netloc : string -> option string)
    (BeautifulSoup : string -> list Node) (u html domain : string) :
  word_count (audit_html urlparse_netloc BeautifulSoup u html domain)
  = fold_right Z.add 0
      (map _count_words (flat_map strings (BeautifulSoup html))).
Proof.
  unfold audit_html. destruct (fold_left _ _ _) as [[i e] b].
  cbn [word_count]. rewrite count_words_normalize_space.
  unfold get_text. apply count_runs_join.
Qed.

Lemma count_runs_bounds (s : string) :
  forall w : bool,
    0 <= count_runs w s
    /\ 2 * count_runs w s <= PyStr.len s + (if w then 0 else 1).
Proof.
  unfold PyStr.len.
  induction s as [| c s IH]; intros w.
  - cbn. destruct w; lia.
  - cbn [count_runs String.length].
    destruct (IH true) as [Ht0 Ht1]. destruct (IH false) as [Hf0 Hf1].
    destruct (is_word_char c); destruct w; lia.
Qed.

(** X3: a text of [n] characters has at least 0 and at most [(n + 1) / 2]
    words. *)
Theorem count_words_bounds (text : string) :
  0 <= _count_words text /\ 2 * _count_words text <= PyStr.len text + 1.
Proof. apply (count_runs_bounds text false). Qed.

(* ===================================================================== *)
(** ** Further properties: trimming *)
(* ===================================================================== *)

Lemma rstrip_by_head (p : ascii -> bool) (c c' : ascii) (r r' : string) :
  PyStr.rstrip_by p (String c r) = String c' r' -> c' = c.
Proof.
  cbn [PyStr.rstrip_by]. destruct (PyStr.rstrip_by p r).
  - destruct (p c); [discriminate | intros E; injection E as <- _; reflexivity].
  - intros E. injection E as <- _. reflexivity.
Qed.

Lemma strip_trimmed (s : string) : trimmed (PyStr.strip s).
Proof.
  unfold PyStr.strip, PyStr.rstrip. split.
  - intros c t E. destruct (lstrip_spec s) as (pre & _ & _ & Hfirst).
    destruct (PyStr.lstrip s) as [| d r]; [discriminate |].
    apply rstrip_by_head in E. subst c. exact (Hfirst d r eq_refl).
  - intros t c E.
    destruct (rstrip_by_spec PyStr.is_space (PyStr.lstrip s))
      as (post & _ & _ & Hlast).
    exact (Hlast t c E).
Qed.

Lemma lstrip_blank (s : string) : blank s -> PyStr.lstrip s = "".
Proof.
  induction s as [| c s IH]; intros H; [reflexivity |].
  cbn [PyStr.lstrip]. rewrite (H c) by (left; reflexivity).
  apply IH. intros d Hd. apply H. right. exact Hd.
Qed.

Lemma rstrip_empty_blank (s : string) :
  PyStr.rstrip_by PyStr.is_space s = "" -> blank s.
Proof.
  intros H. destruct (rstrip_by_spec PyStr.is_space s) as (t & Hs & Ht & _).
  rewrite H in Hs. string_app. subst t. exact Ht.
Qed.

Lemma blank_app (a b : string) : blank a -> blank b -> blank (a ++ b).
Proof.
  intros Ha Hb. induction a as [| c a IH]; string_app; [exact Hb |].
  intros d [<- | Hd].
  - apply Ha. left. reflexivity.
  - apply IH; [| exact Hd]. intros x Hx. apply Ha. right. exact Hx.
Qed.

(** [strip] gives the empty string exactly on the strings made of white
    space only. *)
Lemma strip_empty_iff (s : string) : PyStr.strip s = "" <-> blank s.
Proof.
  split.
  - intros H. unfold PyStr.strip, PyStr.rstrip in H.
    apply rstrip_empty_blank in H.
    destruct (lstrip_spec s) as (pre & Hs & Hpre & _).
    rewrite Hs. apply blank_app; assumption.
  - intros H. unfold PyStr.strip. rewrite (lstrip_blank s H). reflexivity.
Qed.

Lemma sub_spaces_true_head (s : string) (c : ascii) (t : string) :
  sub_spaces true s = String c t -> PyStr.is_space c = false.
Proof.
  induction s as [| d s IH]; cbn [sub_spaces]; [discriminate |].
  destruct (PyStr.is_space d) eqn:Ed; [exact IH |].
  intros E. injection E as <- _. exact Ed.
Qed.

Lemma sub_spaces_chars (s : string) :
  forall (r : bool) (c : ascii),
    In c (list_ascii_of_string (sub_spaces r s)) ->
    PyStr.is_space c = true -> c = " "%char.
Proof.
  induction s as [| d s IH]; intros r c Hin Hc; [destruct Hin |].
  cbn [sub_spaces] in Hin. destruct (PyStr.is_space d) eqn:Ed.
  - destruct r; [exact (IH true c Hin Hc) |].
    destruct Hin as [<- | Hin]; [reflexivity | exact (IH true c Hin Hc)].
  - destruct Hin as [<- | Hin]; [congruence | exact (IH false c Hin Hc)].
Qed.

Lemma sub_spaces_no_double (s : string) :
  forall (r : bool) (a b : string),
    sub_spaces r s <> a ++ String " "%char (String " "%char b).
Proof.
  induction s as [| d s IH]; intros r a b E; cbn [sub_spaces] in E.
  - destruct a; string_app; discriminate.
  - destruct (PyStr.is_space d) eqn:Ed.
    + destruct r; [exact (IH true a b E) |].
      destruct a as [| x a]; string_app.
      * injection E as E. apply sub_spaces_true_head in E. discriminate.
      * injection E as _ E. exact (IH true a b E).
    + destruct a as [| x a]; string_app.
      * injection E as -> _. discriminate.
      * injection E as _ E. exact (IH false a b E).
Qed.

Lemma sub_spaces_last (t : string) (c : ascii) :
  PyStr.is_space c = false ->
  forall r : bool,
    exists u, sub_spaces r (t ++ String c "") = u ++ String c "".
Proof.
  intros Hc. induction t as [| d t IH]; intros r; string_app.
  - exists "". cbn [sub_spaces]. rewrite Hc. reflexivity.
  - cbn [sub_spaces]. destruct (PyStr.is_space d).
    + destruct (IH true) as [u ->]. destruct r.
      * exists u. reflexivity.
      * exists (String " "%char u). reflexivity.
    + destruct (IH false) as [u ->]. exists (String d u). reflexivity.
Qed.

(** X4: a normalised text neither begins nor ends with white space, holds
    no white space but the space character, and never two spaces in a
    row. *)
Theorem normalize_space_shape (s : string) :
  trimmed (_normalize_space s)
  /\ (forall c, In c (list_ascii_of_string (_normalize_space s)) ->
                PyStr.is_space c = true -> c = " "%char)
  /\ (forall a b, _normalize_space s <> a ++ "  " ++ b).
Proof.
  unfold _normalize_space.
  destruct (strip_trimmed s) as [Hfirst Hlast].
  split; [split |]; [| | split].
  - intros c t E. destruct (PyStr.strip s) as [| d r]; [discriminate |].
    pose proof (Hfirst d r eq_refl) as Hd.
    cbn [sub_spaces] in E. rewrite Hd in E. injection E as <- _. exact Hd.
  - intros t c E.
    destruct (string_last_cases (PyStr.strip s)) as [E0 | (t0 & c0 & E0)].
    + rewrite E0 in E. destruct t; string_app; discriminate.
    + pose proof (Hlast t0 c0 E0) as Hc0. rewrite E0 in E.
      destruct (sub_spaces_last t0 c0 Hc0 false) as [u Eu].
      rewrite Eu in E. apply app_last_inj in E. subst c. exact Hc0.
  - intros c. apply sub_spaces_chars.
  - intros a b. apply sub_spaces_no_double.
Qed.

Lemma trimmed_empty : trimmed "".
Proof.
  split; [discriminate |]. intros t c E. destruct t; string_app; discriminate.
Qed.

Lemma join_empty_sep_cons (x : string) (l : list string) :
  PyStr.join "" (x :: l) = x ++ PyStr.join "" l.
Proof.
  destruct l as [| y l]; cbn [PyStr.join].
  - induction x as [| c x IH]; string_app; [reflexivity |].
    rewrite <- IH. reflexivity.
  - string_app. reflexivity.
Qed.

Lemma join_empty_sep_nil_iff (l : list string) :
  Forall (fun x => PyStr.truthy x = true) l ->
  (PyStr.join "" l = "" <-> l = []).
Proof.
  intros H. split; [| intros ->; reflexivity].
  destruct H as [| x l Hx _]; [reflexivity |].
  rewrite join_empty_sep_cons. destruct x; [discriminate |].
  string_app. discriminate.
Qed.

Lemma join_empty_sep_trimmed (l : list string) :
  Forall (fun x => PyStr.truthy x = true /\ trimmed x) l ->
  trimmed (PyStr.join "" l).
Proof.
  induction 1 as [| x l [Hx [Hxf Hxl]] Hl IH]; [exact trimmed_empty |].
  rewrite join_empty_sep_cons. destruct IH as [_ IHl]. split.
  - intros c t E. destruct x as [| d x]; [discriminate |].
    string_app. injection E as <- _. exact (Hxf d x eq_refl).
  - intros t c E.
    destruct (string_last_cases (PyStr.join "" l)) as [E0 | (t0 & c0 & E0)].
    + rewrite E0 in E.
      assert (Ex : x ++ "" = x).
      { clear. induction x as [| d x IH]; string_app; [reflexivity |].
        rewrite IH. reflexivity. }
      rewrite Ex in E. exact (Hxl t c E).
    + rewrite E0, <- string_app_assoc in E. apply app_last_inj in E.
      subst c. exact (IHl t0 c0 E0).
Qed.

Lemma get_text_strip_trimmed (t : Node) : trimmed (get_text_strip t).
Proof.
  unfold get_text_strip. apply join_empty_sep_trimmed.
  apply Forall_forall. intros x Hx. apply list_elem_of_In in Hx.
  apply filter_In in Hx as [Hin Htruthy]. split; [exact Htruthy |].
  apply in_map_iff in Hin as (y & <- & _). apply strip_trimmed.
Qed.

Lemma get_text_strip_empty_iff (t : Node) :
  get_text_strip t = "" <-> (forall x, In x (strings t) -> blank x).
Proof.
  unfold get_text_strip. rewrite join_empty_sep_nil_iff.
  - split.
    + intros H x Hx. apply strip_empty_iff.
      destruct (PyStr.strip x) eqn:E; [reflexivity |]. exfalso.
      assert (Hin : In (PyStr.strip x)
                      (List.filter PyStr.truthy (map PyStr.strip (strings t)))).
      { apply filter_In. split; [apply in_map; exact Hx |].
        rewrite E. reflexivity. }
      rewrite H in Hin. destruct Hin.
    + intros H.
      destruct (List.filter PyStr.truthy (map PyStr.strip (strings t)))
        as [| y l] eqn:E; [reflexivity |]. exfalso.
      assert (Hin : In y (y :: l)) by (left; reflexivity).
      rewrite <- E in Hin. apply filter_In in Hin as [Hin Hy].
      apply in_map_iff in Hin as (x & <- & Hx).
      apply H, strip_empty_iff in Hx. rewrite Hx in Hy. discriminate.
  - apply Forall_forall. intros x Hx. apply list_elem_of_In in Hx.
    apply filter_In in Hx as [_ Hx]. exact Hx.
Qed.

(* ===================================================================== *)
(** ** Further properties: the record of an audited page *)
(* ===================================================================== *)

Section RecordProperties.

Variable urlparse_netloc : string -> option string.
Variable BeautifulSoup : string -> list Node.

Local Abbreviation audit_html' := (audit_html urlparse_netloc BeautifulSoup).
Local Abbreviation audit_fetched' :=
  (audit_fetched urlparse_netloc BeautifulSoup).

(** X5: the title, the description and the canonical link of a record
    neither begin nor end with white space. *)
Theorem audit_fields_trimmed (u html domain : string) :
  let d := audit_html' u html domain in
  trimmed (title d) /\ trimmed (meta_desc d) /\ trimmed (canonical_link d).
Proof.
  intros d.
  destruct (audit_html_title urlparse_netloc BeautifulSoup u html domain)
    as (Ht & _).
  destruct (audit_html_meta_desc urlparse_netloc BeautifulSoup u html domain)
    as (Hd & _).
  destruct (audit_html_canonical urlparse_netloc BeautifulSoup u html domain)
    as (Hc & _).
  fold d in Ht, Hd, Hc. rewrite Ht, Hd, Hc. split; [| split].
  - destruct (find _ _); [apply get_text_strip_trimmed | exact trimmed_empty].
  - destruct (find_attr _ _ _ _); [apply strip_trimmed | exact trimmed_empty].
  - destruct (find_rel _ _ _); [apply strip_trimmed | exact trimmed_empty].
Qed.

Lemma status_missing_iff (n lo hi : Z) :
  0 <= n -> 1 < lo -> lo <= hi ->
  ((if n =? 0 then "MISSING"
    else if n <? lo then "TOO_SHORT"
    else if hi <? n then "TOO_LONG"
    else "OK") = "MISSING" <-> n = 0).
Proof.
  intros H0 Hlo Hhi.
  destruct (bucket_cases n lo hi H0 Hlo Hhi) as (Hm & _). exact Hm.
Qed.

(** X6: the title is MISSING exactly when there is no [title] element or
    every text node of it that [get_text] keeps is white space (a comment
    in the title is passed over, so a title that holds only a comment is
    MISSING); the description, when there is no [meta] element named
    [description] or its [content] is absent or white space; the canonical
    link, when there is no canonical [link] element or its [href] is
    absent or white space. In the last case, and in the first, the row of
    the page is ERROR whatever the status of the fetch. *)
Theorem missing_iff_absent_or_blank (u html domain : string) (status : Z) :
  let soup := BeautifulSoup html in
  let d := audit_html' u html domain in
  (title_status d = "MISSING"
   <-> match find soup "title" with
       | Some t => forall x, In x (strings t) -> blank x
       | None => True
       end)
  /\ (meta_desc_status d = "MISSING"
      <-> match find_attr soup "meta" "name" "description" with
          | Some t => blank (default "" (get t "content"))
          | None => True
          end)
  /\ (canonical_status d = "MISSING"
      <-> match find_rel soup "link" "canonical" with
          | Some t => blank (default "" (get t "href"))
          | None => True
          end)
  /\ (title_status d = "MISSING" \/ canonical_status d = "MISSING" ->
      severity (audit_fetched' u status html domain) = "ERROR").
Proof.
  intros soup d.
  destruct (audit_html_title urlparse_netloc BeautifulSoup u html domain)
    as (Ht & Htl & Hts).
  destruct (audit_html_meta_desc urlparse_netloc BeautifulSoup u html domain)
    as (Hd & Hdl & Hds).
  destruct (audit_html_canonical urlparse_netloc BeautifulSoup u html domain)
    as (Hc & Hcs).
  fold d soup in Ht, Htl, Hts, Hd, Hdl, Hds, Hc, Hcs.
  split; [| split; [| split]].
  - rewrite Hts, status_missing_iff, Htl, len_zero, Ht;
      try lia; [| rewrite Htl; unfold PyStr.len; lia].
    destruct (find soup "title") as [t |]; [| tauto].
    apply get_text_strip_empty_iff.
  - rewrite Hds, status_missing_iff, Hdl, len_zero, Hd;
      try lia; [| rewrite Hdl; unfold PyStr.len; lia].
    destruct (find_attr soup "meta" "name" "description") as [t |]; [| tauto].
    apply strip_empty_iff.
  - rewrite Hcs, Hc.
    destruct (find_rel soup "link" "canonical") as [t |];
      [| cbn; tauto].
    rewrite <- strip_empty_iff. unfold get_or_empty.
    destruct (PyStr.strip (default "" (get t "href"))) eqn:E;
      cbn [PyStr.truthy].
    + tauto.
    + split; [| intros E0; discriminate E0].
      destruct (String.eqb (PyStr.rstrip_slash (String a s))
                  (PyStr.rstrip_slash u));
        intros E0; discriminate E0.
  - intros H.
    change (severity (audit_fetched' u status html domain))
      with (compute_severity (row (audit_fetched' u status html domain))).
    unfold audit_fetched. cbn [row].
    destruct ((400 <=? status) || negb (PyStr.truthy html))%bool eqn:Ef.
    + unfold compute_severity. cbn [data http_status h1_count fallback_data].
      destruct (400 <=? status); reflexivity.
    + fold d. unfold compute_severity. cbn [data http_status].
      destruct (400 <=? status); [reflexivity |].
      destruct (h1_count d =? 0); [reflexivity |].
      destruct H as [H | H]; rewrite H.
      * destruct (String.eqb (canonical_status d) "MISSING"); reflexivity.
      * reflexivity.
Qed.

End RecordProperties.

(* ===================================================================== *)
(** ** Further properties: severity of a row *)
(* ===================================================================== *)

Lemma compute_severity_values (m : Metrics) :
  compute_severity m = "ERROR" \/ compute_severity m = "WARN"
  \/ compute_severity m = "OK".
Proof.
  unfold compute_severity.
  repeat match goal with
         | |- context [if ?c then _ else _] => destruct c
         end; tauto.
Qed.

Lemma compute_severity_error_iff (m : Metrics) :
  compute_severity m = "ERROR"
  <-> 400 <= http_status m \/ h1_count (data m) = 0
      \/ canonical_status (data m) = "MISSING"
      \/ title_status (data m) = "MISSING".
Proof.
  unfold compute_severity.
  destruct (Z.leb_spec 400 (http_status m)); [tauto |].
  destruct (Z.eqb_spec (h1_count (data m)) 0); [tauto |].
  destruct (String.eqb_spec (canonical_status (data m)) "MISSING"); [tauto |].
  destruct (String.eqb_spec (title_status (data m)) "MISSING"); [tauto |].
  split.
  - repeat match goal with
           | |- context [if ?c then _ else _] => destruct c
           end; discriminate.
  - intros [H' | [H' | [H' | H']]]; try contradiction; lia.
Qed.

Lemma compute_severity_ok_iff (m : Metrics) :
  compute_severity m = "OK"
  <-> http_status m < 400 /\ h1_count (data m) <> 0
      /\ canonical_status (data m) <> "MISSING"
      /\ title_status (data m) = "OK"
      /\ is_thin_content (data m) = 0
      /\ meta_desc_status (data m) = "OK"
      /\ broken_anchors (data m) <= 0
      /\ img_missing_alt (data m) <= 0.
Proof.
  split.
  - unfold compute_severity, int_truthy.
    destruct (Z.leb_spec 400 (http_status m)); [discriminate |].
    destruct (Z.eqb_spec (h1_count (data m)) 0); [discriminate |].
    destruct (String.eqb_spec (canonical_status (data m)) "MISSING");
      [discriminate |].
    destruct (String.eqb_spec (title_status (data m)) "MISSING");
      [discriminate |].
    destruct (Z.eqb_spec (is_thin_content (data m)) 0); [| discriminate].
    destruct (String.eqb_spec (meta_desc_status (data m)) "OK");
      [| discriminate].
    destruct (String.eqb_spec (title_status (data m)) "OK"); [| discriminate].
    destruct (Z.ltb_spec 0 (broken_anchors (data m))); [discriminate |].
    destruct (Z.ltb_spec 0 (img_missing_alt (data m))); [discriminate |].
    intros _. repeat split; assumption.
  - intros (H1 & H2 & H3 & H4 & H5 & H6 & H7 & H8).
    apply compute_severity_ok; assumption.
Qed.

(** X7: the severity is one of ERROR, WARN and OK. It is ERROR exactly
    when the status is 400 or more, or there is no h1, or the canonical
    link or the title is MISSING, whatever the other fields are; it is OK
    exactly when none of the nine conditions of the cascade holds. *)
Theorem severity_characterisation (m : Metrics) :
  (compute_severity m = "ERROR" \/ compute_severity m = "WARN"
   \/ compute_severity m = "OK")
  /\ (compute_severity m = "ERROR"
      <-> 400 <= http_status m \/ h1_count (data m) = 0
          \/ canonical_status (data m) = "MISSING"
          \/ title_status (data m) = "MISSING")
  /\ (compute_severity m = "OK"
      <-> http_status m < 400 /\ h1_count (data m) <> 0
          /\ canonical_status (data m) <> "MISSING"
          /\ title_status (data m) = "OK"
          /\ is_thin_content (data m) = 0
          /\ meta_desc_status (data m) = "OK"
          /\ broken_anchors (data m) <= 0
          /\ img_missing_alt (data m) <= 0).
Proof.
  split; [apply compute_severity_values |].
  split; [apply compute_severity_error_iff | apply compute_severity_ok_iff].
Qed.

Section CounterProperties.

Variable urlparse_netloc : string -> option string.
Variable BeautifulSoup : string -> list Node.

Local Abbreviation audit_html' := (audit_html urlparse_netloc BeautifulSoup).
Local Abbreviation audit_fetched' :=
  (audit_fetched urlparse_netloc BeautifulSoup).
Local Abbreviation classify_link' := (classify_link urlparse_netloc).

Lemma audit_html_links (u html domain : string) :
  let d := audit_html' u html domain in
  let soup := BeautifulSoup html in
  (internal_links d, external_links d, broken_anchors d) =
    fold_left (classify_link' (collect_ids soup) domain) (find_all soup "a")
      (0, 0, 0).
Proof.
  intros d soup. unfold d, audit_html. fold soup.
  destruct (fold_left _ _ _) as [[i e] b]. reflexivity.
Qed.

Lemma audit_html_counts (u html domain : string) :
  let d := audit_html' u html domain in
  let soup := BeautifulSoup html in
  word_count d = _count_words (_normalize_space (get_text soup " "))
  /\ is_thin_content d = (if word_count d <? 300 then 1 else 0)
  /\ h1_count d = Z.of_nat (length (find_all soup "h1"))
  /\ img_missing_alt d =
       Z.of_nat
         (length
            (List.filter
               (fun img => negb (PyStr.truthy (get_or_empty img "alt")))
               (find_all soup "img"))).
Proof.
  intros d soup. unfold d, audit_html. fold soup.
  destruct (fold_left _ _ _) as [[i e] b]. repeat split.
Qed.

(** Every anchor moves at most one counter, by one. *)
Lemma fold_classify_bounds (ids : gset string) (domain : string)
    (anchors : list Node) :
  forall i e b i' e' b' : Z,
    fold_left (classify_link' ids domain) anchors (i, e, b) = (i', e', b') ->
    i <= i' /\ e <= e' /\ b <= b'
    /\ (i' - i) + (e' - e) + (b' - b) <= Z.of_nat (length anchors).
Proof.
  induction anchors as [| a l IH]; intros i e b i' e' b' H.
  - cbn in H. injection H as <- <- <-. cbn. lia.
  - cbn [fold_left] in H. cbn [length]. rewrite Nat2Z.inj_succ.
    destruct (classify_link_cases urlparse_netloc BeautifulSoup ids domain
                i e b a)
      as [E | [E | [E | E]]];
      rewrite E in H; apply IH in H; lia.
Qed.

Lemma audit_html_link_bounds (u html domain : string) :
  let d := audit_html' u html domain in
  let soup := BeautifulSoup html in
  0 <= internal_links d /\ 0 <= external_links d /\ 0 <= broken_anchors d
  /\ internal_links d + external_links d + broken_anchors d
     <= Z.of_nat (length (find_all soup "a"))
  /\ 0 <= img_missing_alt d <= Z.of_nat (length (find_all soup "img")).
Proof.
  intros d soup.
  pose proof (audit_html_links u html domain) as Hl.
  destruct (audit_html_counts u html domain) as (_ & _ & _ & Himg).
  fold d soup in Hl, Himg. symmetry in Hl.
  apply fold_classify_bounds in Hl. rewrite Himg.
  pose proof (filter_length_le
                (fun img => negb (PyStr.truthy (get_or_empty img "alt")))
                (find_all soup "img")).
  lia.
Qed.

(** X8: the three link counters of a record are not negative, and their
    sum is at most the number of [a] elements: an anchor is counted once
    at most; the count of images without alt text lies between 0 and the
    number of [img] elements. *)
Theorem link_counters_bounds (u html domain : string) :
  let d := audit_html' u html domain in
  let soup := BeautifulSoup html in
  0 <= internal_links d /\ 0 <= external_links d /\ 0 <= broken_anchors d
  /\ internal_links d + external_links d + broken_anchors d
     <= Z.of_nat (length (find_all soup "a"))
  /\ 0 <= img_missing_alt d <= Z.of_nat (length (find_all soup "img")).
Proof. apply audit_html_link_bounds. Qed.

(** X9: every number of a row is non-negative, whether the page was
    audited or the fetch failed; [title_len] and [meta_desc_len] are the
    lengths of [title] and [meta_desc], and [is_thin_content] is 0 or 1. *)
Theorem row_numbers_well_formed (u : string) (status : Z)
    (html domain : string) :
  let d := data (row (audit_fetched' u status html domain)) in
  0 <= word_count d /\ (is_thin_content d = 0 \/ is_thin_content d = 1)
  /\ title_len d = PyStr.len (title d)
  /\ meta_desc_len d = PyStr.len (meta_desc d)
  /\ 0 <= h1_count d /\ 0 <= internal_links d /\ 0 <= external_links d
  /\ 0 <= broken_anchors d /\ 0 <= img_missing_alt d.
Proof.
  intros d. unfold d, audit_fetched. cbn [row data].
  destruct ((400 <=? status) || negb (PyStr.truthy html))%bool.
  - cbn. split; [lia |]. split; [left; reflexivity |]. repeat split; lia.
  - destruct (audit_html_counts u html domain) as (Hw & Hthin & Hh1 & _).
    destruct (audit_html_title urlparse_netloc BeautifulSoup u html domain)
      as (_ & Htl & _).
    destruct (audit_html_meta_desc urlparse_netloc BeautifulSoup u html domain)
      as (_ & Hdl & _).
    destruct (audit_html_link_bounds u html domain)
      as (Hi & He & Hb & _ & Himg & _).
    cbv zeta in *.
    split; [rewrite Hw; apply (count_runs_bounds _ false) |].
    split; [rewrite Hthin; destruct (_ <? _); [right | left]; reflexivity |].
    split; [exact Htl |]. split; [exact Hdl |].
    split; [rewrite Hh1; lia |].
    repeat split; assumption.
Qed.

End CounterProperties.

Section EndToEnd.

Variable urlparse_netloc : string -> option string.
Variable BeautifulSoup : string -> list Node.

Local Abbreviation audit_html' := (audit_html urlparse_netloc BeautifulSoup).
Local Abbreviation audit_fetched' :=
  (audit_fetched urlparse_netloc BeautifulSoup).

Lemma audit_html_statuses (u html domain : string) :
  let d := audit_html' u html domain in
  (title_status d = "OK" <-> 30 <= title_len d <= 60)
  /\ (meta_desc_status d = "OK" <-> 50 <= meta_desc_len d <= 160)
  /\ (canonical_status d <> "MISSING" <-> canonical_link d <> "")
  /\ (is_thin_content d = 0 <-> 300 <= word_count d).
Proof.
  intros d.
  destruct (audit_html_title urlparse_netloc BeautifulSoup u html domain)
    as (_ & Htl & Hts).
  destruct (audit_html_meta_desc urlparse_netloc BeautifulSoup u html domain)
    as (_ & Hdl & Hds).
  destruct (audit_html_canonical urlparse_netloc BeautifulSoup u html domain)
    as (_ & Hcs).
  destruct (audit_html_counts urlparse_netloc BeautifulSoup u html domain)
    as (_ & Hthin & _).
  fold d in Htl, Hts, Hdl, Hds, Hcs, Hthin.
  split; [| split; [| split]].
  - assert (H0 : 0 <= title_len d) by (rewrite Htl; unfold PyStr.len; lia).
    destruct (bucket_cases (title_len d) 30 60 H0 ltac:(lia) ltac:(lia))
      as (_ & _ & Ho & _).
    cbv zeta in Ho. rewrite <- Hts in Ho. exact Ho.
  - assert (H0 : 0 <= meta_desc_len d)
      by (rewrite Hdl; unfold PyStr.len; lia).
    destruct (bucket_cases (meta_desc_len d) 50 160 H0 ltac:(lia) ltac:(lia))
      as (_ & _ & Ho & _).
    cbv zeta in Ho. rewrite <- Hds in Ho. exact Ho.
  - rewrite Hcs. destruct (canonical_link d) as [| c rest]; cbn [PyStr.truthy].
    + split; intros H; exfalso; apply H; reflexivity.
    + destruct (String.eqb (PyStr.rstrip_slash (String c rest))
                  (PyStr.rstrip_slash u));
        split; intros _; discriminate.
  - rewrite Hthin. destruct (Z.ltb_spec (word_count d) 300);
      split; intros; try lia; try discriminate; reflexivity.
Qed.

(** X10: the row of a page is OK exactly when the fetch gave a status
    below 400 and a non-empty body, and the page has at least 300 words, a
    title of 30 to 60 characters, a description of 50 to 160 characters,
    at least one h1, a non-empty canonical link, no broken anchor and no
    image without alt text. *)
Theorem audited_row_ok_iff (u : string) (status : Z) (html domain : string) :
  let r := audit_fetched urlparse_netloc BeautifulSoup u status html domain in
  let d := data (row r) in
  severity r = "OK"
  <-> status < 400 /\ html <> ""
      /\ 300 <= word_count d
      /\ 30 <= title_len d <= 60
      /\ 50 <= meta_desc_len d <= 160
      /\ 1 <= h1_count d
      /\ canonical_link d <> ""
      /\ broken_anchors d = 0
      /\ img_missing_alt d = 0.
Proof.
  intros r d.
  change (severity r) with (compute_severity (row r)).
  destruct (Z.leb_spec 400 status) as [Hs | Hs].
  - split.
    + intros H. apply compute_severity_ok_iff in H as (H & _).
      unfold r, audit_fetched in H. cbn [row http_status] in H. lia.
    + intros (H & _). lia.
  - destruct html as [| c rest] eqn:Eh.
    + split.
      * intros H. apply compute_severity_ok_iff in H as (_ & H & _).
        exfalso. apply H. unfold r, audit_fetched. cbn [row data].
        replace (400 <=? status) with false
          by (symmetry; apply Z.leb_gt; lia).
        reflexivity.
      * intros (_ & H & _). congruence.
    + rewrite <- Eh in *.
      assert (Hd : d = audit_html' u html domain).
      { unfold d, r, audit_fetched. cbn [row data].
        replace (400 <=? status) with false
          by (symmetry; apply Z.leb_gt; lia).
        rewrite Eh. reflexivity. }
      destruct (audit_html_statuses u html domain) as (Ht & Hm & Hc & Hthin).
      destruct (audit_html_link_bounds urlparse_netloc BeautifulSoup u html
                  domain) as (_ & _ & Hb & _ & Himg & _).
      destruct (audit_html_counts urlparse_netloc BeautifulSoup u html domain)
        as (_ & _ & Hh1 & _).
      cbv zeta in Ht, Hm, Hc, Hthin, Hb, Himg, Hh1.
      rewrite <- Hd in Ht, Hm, Hc, Hthin, Hb, Himg, Hh1.
      rewrite compute_severity_ok_iff.
      change (data (row r)) with d.
      change (http_status (row r)) with status.
      rewrite Ht, Hm, Hc, Hthin.
      assert (Hne : html <> "") by (rewrite Eh; discriminate).
      split.
      * intros (H1 & H2 & H3 & H4 & H5 & H6 & H7 & H8).
        repeat split; try assumption; try lia.
      * intros (H1 & H2 & H3 & H4 & H5 & H6 & H7 & H8 & H9).
        repeat split; try assumption; try lia.
Qed.

End EndToEnd.

(* ===================================================================== *)
(** ** Further properties: the host of a link *)
(* ===================================================================== *)

Lemma lower_char_idempotent (c : ascii) :
  PyStr.lower_char (PyStr.lower_char c) = PyStr.lower_char c.
Proof.
  destruct c as [b0 b1 b2 b3 b4 b5 b6 b7].
  destruct b0, b1, b2, b3, b4, b5, b6, b7; reflexivity.
Qed.

Lemma lower_idempotent (s : string) :
  PyStr.lower (PyStr.lower s) = PyStr.lower s.
Proof.
  induction s as [| c s IH]; [reflexivity |].
  cbn [PyStr.lower]. rewrite lower_char_idempotent, IH. reflexivity.
Qed.

Lemma lower_length (s : string) :
  String.length (PyStr.lower s) = String.length s.
Proof.
  induction s as [| c s IH]; [reflexivity |].
  cbn [PyStr.lower String.length]. rewrite IH. reflexivity.
Qed.

Lemma lower_app (a b : string) :
  PyStr.lower (a ++ b) = PyStr.lower a ++ PyStr.lower b.
Proof.
  induction a as [| c a IH]; string_app; [reflexivity |].
  cbn [PyStr.lower]. string_app. rewrite IH. reflexivity.
Qed.

Lemma lower_drop (n : nat) (s : string) :
  PyStr.lower (PyStr.drop n s) = PyStr.drop n (PyStr.lower s).
Proof.
  revert s. induction n as [| n IH]; intros s; [reflexivity |].
  destruct s as [| c s]; [reflexivity |].
  cbn [PyStr.drop PyStr.lower]. apply IH.
Qed.

Lemma app_inv_length (a a' b b' : string) :
  String.length a = String.length a' -> a ++ b = a' ++ b' -> b = b'.
Proof.
  revert a'. induction a as [| x a IH]; intros [| y a'] Hl E; string_app;
    try discriminate.
  - exact E.
  - injection E as _ E. injection Hl as Hl. exact (IH a' Hl E).
Qed.

(** The host that [_get_domain] returns is in lower case. *)
Lemma get_domain_lower (urlparse_netloc : string -> option string)
    (href : string) :
  PyStr.lower (_get_domain urlparse_netloc href)
  = _get_domain urlparse_netloc href.
Proof.
  unfold _get_domain. destruct (urlparse_netloc href) as [netloc |];
    [| reflexivity].
  destruct (PyStr.startswith (PyStr.lower netloc) "www.").
  - rewrite lower_drop, lower_idempotent. reflexivity.
  - apply lower_idempotent.
Qed.

(** A suffix of a string in lower case is in lower case. *)
Lemma lower_suffix (s t p : string) :
  PyStr.lower s = s -> s = t ++ p -> PyStr.lower p = p.
Proof.
  intros Hs E. rewrite E, lower_app in Hs.
  exact (app_inv_length _ _ _ _ (lower_length t) Hs).
Qed.

Section HostProperties.

Variable urlparse_netloc : string -> option string.

Local Abbreviation classify_link' := (classify_link urlparse_netloc).

Lemma classify_link_other (ids : gset string) (domain : string) (i e b : Z)
    (a : Node) :
  let href := default "" (get a "href") in
  let host := _get_domain urlparse_netloc href in
  href <> "" ->
  PyStr.startswith href "mailto:" = false ->
  PyStr.startswith href "tel:" = false ->
  PyStr.startswith href "javascript:" = false ->
  PyStr.startswith href "#" = false ->
  classify_link' ids domain (i, e, b) a =
    if negb (PyStr.truthy host) then (i + 1, e, b)
    else if (String.eqb host domain
             || PyStr.endswith host ("." ++ domain))%bool
         then (i + 1, e, b)
         else (i, e + 1, b).
Proof.
  intros href host Hne Hm Ht Hj Hh. unfold classify_link.
  fold (get_or_empty a "href"). change (get_or_empty a "href") with href.
  rewrite Hm, Ht, Hj, Hh. fold host.
  destruct href; [congruence | reflexivity].
Qed.

(** X11: an href on which [urlparse] raises has the empty host, and is
    counted as an internal link. *)
Theorem unparsable_href_is_internal (ids : gset string) (domain : string)
    (i e b : Z) (a : Node) :
  let href := default "" (get a "href") in
  urlparse_netloc href = None ->
  href <> "" ->
  PyStr.startswith href "mailto:" = false ->
  PyStr.startswith href "tel:" = false ->
  PyStr.startswith href "javascript:" = false ->
  PyStr.startswith href "#" = false ->
  _get_domain urlparse_netloc href = ""
  /\ classify_link' ids domain (i, e, b) a = (i + 1, e, b).
Proof.
  intros href Hnone Hne Hm Ht Hj Hh.
  assert (Hhost : _get_domain urlparse_netloc href = "")
    by (unfold _get_domain; rewrite Hnone; reflexivity).
  split; [exact Hhost |].
  rewrite (classify_link_other ids domain i e b a Hne Hm Ht Hj Hh).
  fold href. rewrite Hhost. reflexivity.
Qed.

(** X12: the host of a link is lower-cased, the root domain is compared
    as it is given. When the root domain has an upper-case letter, no link
    with a host is internal: each one is counted as external, also a link
    to the root domain itself. *)
Theorem mixed_case_domain_external (ids : gset string) (domain : string)
    (i e b : Z) (a : Node) :
  let href := default "" (get a "href") in
  let host := _get_domain urlparse_netloc href in
  PyStr.lower domain <> domain ->
  host <> "" ->
  href <> "" ->
  PyStr.startswith href "mailto:" = false ->
  PyStr.startswith href "tel:" = false ->
  PyStr.startswith href "javascript:" = false ->
  PyStr.startswith href "#" = false ->
  PyStr.lower host = host
  /\ classify_link' ids domain (i, e, b) a = (i, e + 1, b).
Proof.
  intros href host Hdom Hhost Hne Hm Ht Hj Hh.
  pose proof (get_domain_lower urlparse_netloc href) as Hlow. fold host in Hlow.
  split; [exact Hlow |].
  rewrite (classify_link_other ids domain i e b a Hne Hm Ht Hj Hh).
  fold href host.
  destruct (PyStr.truthy host) eqn:Et;
    [| apply truthy_empty in Et; contradiction].
  cbn [negb].
  destruct (String.eqb_spec host domain) as [Heq | _].
  { exfalso. apply Hdom. rewrite <- Heq. exact Hlow. }
  destruct (PyStr.endswith host ("." ++ domain)) eqn:Ee; [| reflexivity].
  exfalso. apply endswith_iff in Ee as [t Et'].
  pose proof (lower_suffix host t ("." ++ domain) Hlow Et') as Hs.
  string_app. cbn [PyStr.lower] in Hs. injection Hs as Hs.
  exact (Hdom Hs).
Qed.

End HostProperties.

(* ===================================================================== *)
(** ** Further properties: the order of the report *)
(* ===================================================================== *)

Lemma severity_rank_values (x : SeoMetrics) :
  (severity x = "ERROR" /\ severity_rank x = 0)
  \/ (severity x = "WARN" /\ severity_rank x = 1)
  \/ (severity x <> "ERROR" /\ severity x <> "WARN" /\ severity_rank x = 2).
Proof.
  unfold severity_rank.
  destruct (String.eqb_spec (severity x) "ERROR") as [E | E]; [tauto |].
  destruct (String.eqb_spec (severity x) "WARN") as [W | W]; tauto.
Qed.

Lemma insert_row_front (x : SeoMetrics) (l : list SeoMetrics) :
  Forall (fun y => severity_rank x <= severity_rank y) l ->
  insert_row x l = x :: l.
Proof.
  intros H. destruct H as [| y l Hy _]; [reflexivity |].
  cbn [insert_row].
  replace (severity_rank x <=? severity_rank y) with true
    by (symmetry; apply Z.leb_le; exact Hy).
  reflexivity.
Qed.

Lemma insert_row_skip (x : SeoMetrics) (a l : list SeoMetrics) :
  Forall (fun y => severity_rank y < severity_rank x) a ->
  insert_row x (a ++ l) = (a ++ insert_row x l)%list.
Proof.
  induction 1 as [| y a Hy _ IH]; [reflexivity |].
  cbn [insert_row app].
  replace (severity_rank x <=? severity_rank y) with false
    by (symmetry; apply Z.leb_gt; exact Hy).
  rewrite IH. reflexivity.
Qed.

Lemma insert_row_permutation (x : SeoMetrics) (l : list SeoMetrics) :
  Permutation (insert_row x l) (x :: l).
Proof.
  induction l as [| y l IH]; [reflexivity |].
  cbn [insert_row]. destruct (severity_rank x <=? severity_rank y);
    [reflexivity |].
  rewrite IH. apply perm_swap.
Qed.

Lemma sort_rows_permutation (rows : list SeoMetrics) :
  Permutation (sort_rows rows) rows.
Proof.
  induction rows as [| x rows IH]; [reflexivity |].
  cbn [sort_rows fold_right]. fold (sort_rows rows).
  rewrite insert_row_permutation, IH. reflexivity.
Qed.

Lemma sort_rows_partition (rows : list SeoMetrics) :
  sort_rows rows =
    (List.filter (fun r => String.eqb (severity r) "ERROR") rows
     ++ List.filter (fun r => String.eqb (severity r) "WARN") rows
     ++ List.filter
          (fun r => negb (String.eqb (severity r) "ERROR")
                    && negb (String.eqb (severity r) "WARN")) rows)%list.
Proof.
  induction rows as [| x rows IH]; [reflexivity |].
  cbn [sort_rows fold_right]. fold (sort_rows rows). rewrite IH.
  set (E := List.filter (fun r => String.eqb (severity r) "ERROR") rows).
  set (W := List.filter (fun r => String.eqb (severity r) "WARN") rows).
  set (O := List.filter
              (fun r => negb (String.eqb (severity r) "ERROR")
                        && negb (String.eqb (severity r) "WARN")) rows).
  assert (HE : Forall (fun y => severity_rank y = 0) E).
  { apply Forall_forall. intros y Hy. apply list_elem_of_In in Hy.
    apply filter_In in Hy as [_ Hy].
    unfold severity_rank. rewrite Hy. reflexivity. }
  assert (HW : Forall (fun y => severity_rank y = 1) W).
  { apply Forall_forall. intros y Hy. apply list_elem_of_In in Hy.
    apply filter_In in Hy as [_ Hy]. apply String.eqb_eq in Hy.
    unfold severity_rank. rewrite Hy. reflexivity. }
  assert (HO : Forall (fun y => severity_rank y = 2) O).
  { apply Forall_forall. intros y Hy. apply list_elem_of_In in Hy.
    apply filter_In in Hy as [_ Hy]. apply andb_true_iff in Hy as [H1 H2].
    unfold severity_rank.
    destruct (String.eqb (severity y) "ERROR"); [discriminate |].
    destruct (String.eqb (severity y) "WARN"); [discriminate | reflexivity]. }
  cbn [List.filter].
  destruct (severity_rank_values x) as [[Hs Hr] | [[Hs Hr] | (Hs1 & Hs2 & Hr)]].
  - rewrite Hs. cbn. fold E W O. apply insert_row_front.
    rewrite Hr. rewrite !Forall_app. repeat split;
      eapply Forall_impl; eauto; cbn; intros; lia.
  - rewrite Hs. cbn. fold E W O.
    rewrite insert_row_skip
      by (rewrite Hr; eapply Forall_impl; eauto; cbn; intros; lia).
    rewrite insert_row_front; [reflexivity |].
    rewrite Hr. rewrite Forall_app. split;
      eapply Forall_impl; eauto; cbn; intros; lia.
  - rewrite (string_eqb_false _ _ Hs1), (string_eqb_false _ _ Hs2).
    cbn. fold E W O.
    rewrite insert_row_skip
      by (rewrite Hr; eapply Forall_impl; eauto; cbn; intros; lia).
    rewrite insert_row_skip
      by (rewrite Hr; eapply Forall_impl; eauto; cbn; intros; lia).
    rewrite insert_row_front; [reflexivity |].
    rewrite Hr. eapply Forall_impl; eauto; cbn; intros; lia.
Qed.

(** X13: the sorted report is the ERROR rows, then the WARN rows, then the
    other rows, each group in the order the rows had before the sort; no
    row is lost or added. *)
Theorem sort_rows_groups (rows : list SeoMetrics) :
  sort_rows rows =
    (List.filter (fun r => String.eqb (severity r) "ERROR") rows
     ++ List.filter (fun r => String.eqb (severity r) "WARN") rows
     ++ List.filter
          (fun r => negb (String.eqb (severity r) "ERROR")
                    && negb (String.eqb (severity r) "WARN")) rows)%list
  /\ Permutation (sort_rows rows) rows
  /\ length (sort_rows rows) = length rows.
Proof.
  split; [apply sort_rows_partition |].
  split; [apply sort_rows_permutation |].
  apply Permutation_length, sort_rows_permutation.
Qed.

(* ===================================================================== *)
(** ** Further properties: what the resolver fetches and returns *)
(* ===================================================================== *)

Section Reachability.

Variable requests_get : string -> string -> Z -> option (Z * string).
Variable ET_fromstring : string -> option Element.
Variable timeout : Z.
Variable ua : string.

Local Abbreviation visit' := (visit requests_get ET_fromstring timeout ua).
Local Abbreviation loop_body' :=
  (loop_body requests_get ET_fromstring timeout ua).
Local Abbreviation nested_of' :=
  (nested_of requests_get ET_fromstring timeout ua).
Local Abbreviation pages_of' :=
  (pages_of requests_get ET_fromstring timeout ua).
Local Abbreviation resolve' :=
  (resolve requests_get ET_fromstring timeout ua).
Local Abbreviation parse_sitemap' :=
  (parse_sitemap requests_get ET_fromstring timeout ua).
Local Abbreviation reachable' :=
  (reachable requests_get ET_fromstring timeout ua).

(** What a document appends to the queue: all that it names, but, for an
    index, what is seen already. *)
Lemma dispatch_nested_incl (seen : gset string) (root : Element) (x : string) :
  In x (fst (dispatch seen root)) -> In x (fst (dispatch ∅ root)).
Proof.
  unfold dispatch.
  destruct (String.eqb _ "sitemapindex").
  - cbn [fst]. rewrite filter_not_in_empty. intros H.
    apply filter_In in H as [H _]. exact H.
  - destruct (String.eqb _ "urlset"); cbn [fst]; tauto.
Qed.

Lemma dispatch_nested_cover (seen : gset string) (root : Element) (x : string) :
  In x (fst (dispatch ∅ root)) -> In x (fst (dispatch seen root)) \/ x ∈ seen.
Proof.
  unfold dispatch.
  destruct (String.eqb _ "sitemapindex").
  - cbn [fst]. rewrite filter_not_in_empty. intros H.
    destruct (decide (x ∈ seen)) as [Hs | Hs]; [right; exact Hs | left].
    apply filter_In. split; [exact H |].
    rewrite bool_decide_eq_false_2 by exact Hs. reflexivity.
  - destruct (String.eqb _ "urlset"); cbn [fst]; tauto.
Qed.

Lemma visit_nested_incl (seen : gset string) (u x : string) :
  In x (fst (visit' seen u)) -> In x (nested_of' u).
Proof.
  unfold nested_of, visit.
  destruct (_fetch_text requests_get u timeout ua) as [code xml_text].
  destruct (negb (code =? 200) || negb (PyStr.truthy xml_text))%bool;
    [tauto |].
  destruct (ET_fromstring xml_text) as [root |]; [| tauto].
  apply dispatch_nested_incl.
Qed.

Lemma visit_nested_cover (seen : gset string) (u x : string) :
  In x (nested_of' u) -> In x (fst (visit' seen u)) \/ x ∈ seen.
Proof.
  unfold nested_of, visit.
  destruct (_fetch_text requests_get u timeout ua) as [code xml_text].
  destruct (negb (code =? 200) || negb (PyStr.truthy xml_text))%bool;
    [tauto |].
  destruct (ET_fromstring xml_text) as [root |]; [| tauto].
  apply dispatch_nested_cover.
Qed.

Section FromRoot.

Variable root : string.

Local Abbreviation within_reach' :=
  (within_reach requests_get ET_fromstring timeout ua root).
Local Abbreviation closed_so_far' :=
  (closed_so_far requests_get ET_fromstring timeout ua root).

Lemma within_reach_step (st : State) :
  within_reach' st -> within_reach' (loop_body' st).
Proof.
  intros H. destruct (queue st) as [| u rest] eqn:Hq.
  - unfold loop_body. rewrite Hq. exact H.
  - assert (Hu : reachable' root u).
    { apply H. right. rewrite Hq. left. reflexivity. }
    destruct (decide (u ∈ seen st)) as [Hin | Hnew].
    + rewrite (loop_body_seen _ _ _ _ st u rest Hq Hin).
      intros x [Hx | Hx]; cbn in Hx; apply H; [left; exact Hx |].
      right. rewrite Hq. right. exact Hx.
    + rewrite (loop_body_new _ _ _ _ st u rest Hq Hnew).
      intros x [Hx | Hx]; cbn [fetched queue] in Hx;
        apply in_app_iff in Hx as [Hx | Hx].
      * apply H. left. exact Hx.
      * destruct Hx as [<- | []]. exact Hu.
      * apply H. right. rewrite Hq. right. exact Hx.
      * apply (reachable_step _ _ _ _ root u x Hu).
        apply (visit_nested_incl _ _ _ Hx).
Qed.

Lemma closed_so_far_step (st : State) :
  resolver_invariant requests_get ET_fromstring timeout ua st ->
  closed_so_far' st -> closed_so_far' (loop_body' st).
Proof.
  intros (_ & Hseen & _) [Hroot Hclosed].
  destruct (queue st) as [| u rest] eqn:Hq.
  - unfold loop_body. rewrite Hq. unfold closed_so_far.
    rewrite Hq. split; assumption.
  - assert (Hmove : forall x, x ∈ seen st \/ In x (u :: rest) ->
                              forall extra : list string,
                                x ∈ {[u]} ∪ seen st
                                \/ In x (rest ++ extra)%list).
    { intros x [Hx | [<- | Hx]] extra.
      - left. apply elem_of_union. right. exact Hx.
      - left. apply elem_of_union. left. apply elem_of_singleton. reflexivity.
      - right. apply in_app_iff. left. exact Hx. }
    destruct (decide (u ∈ seen st)) as [Hin | Hnew].
    + rewrite (loop_body_seen _ _ _ _ st u rest Hq Hin). cbn [seen queue fetched].
      assert (Hkeep : forall x, x ∈ seen st \/ In x (u :: rest) ->
                                x ∈ seen st \/ In x rest).
      { intros x [Hx | [<- | Hx]]; [left; exact Hx | left; exact Hin
                                   | right; exact Hx]. }
      split; [apply Hkeep; exact Hroot |].
      intros s x Hs Hx. apply Hkeep. exact (Hclosed s x Hs Hx).
    + rewrite (loop_body_new _ _ _ _ st u rest Hq Hnew).
      cbn [seen queue fetched]. split; [apply Hmove; exact Hroot |].
      intros s x Hs Hx. apply in_app_iff in Hs as [Hs | [<- | []]].
      * apply Hmove. exact (Hclosed s x Hs Hx).
      * destruct (visit_nested_cover ({[u]} ∪ seen st) u x Hx) as [H | H].
        -- right. apply in_app_iff. right. exact H.
        -- left. exact H.
Qed.

Lemma reach_invariants_iter (k : nat) :
  let st := Nat.iter k loop_body' (initial_state root) in
  resolver_invariant requests_get ET_fromstring timeout ua st
  /\ within_reach' st /\ closed_so_far' st.
Proof.
  induction k as [| k (Hinv & Hreach & Hclosed)].
  - split; [apply invariant_initial |]. split.
    + intros u [[] | [<- | []]]. apply reachable_root.
    + split; [right; left; reflexivity | intros s u []].
  - cbn [Nat.iter nat_rect]. split; [apply invariant_loop_body; exact Hinv |].
    split; [apply within_reach_step; exact Hreach |].
    apply closed_so_far_step; assumption.
Qed.

(** At the end of the loop the fetched URLs are those within reach. *)
Lemma resolve_fetched_reachable (fuel : nat) (st : State) :
  resolve' fuel root = Some st ->
  resolver_invariant requests_get ET_fromstring timeout ua st
  /\ forall u, In u (fetched st) <-> reachable' root u.
Proof.
  intros H. apply while_queue_rounds in H as (Hq & k & ->).
  destruct (reach_invariants_iter k) as (Hinv & Hreach & Hroot & Hclosed).
  cbv zeta in *. split; [exact Hinv |].
  destruct Hinv as (_ & Hseen & _).
  intros u. split.
  - intros Hu. apply Hreach. left. exact Hu.
  - induction 1 as [| s x _ IH Hx].
    + apply Hseen. rewrite Hq in Hroot. destruct Hroot as [H | []]. exact H.
    + apply Hseen. destruct (Hclosed s x IH Hx) as [H | H]; [exact H |].
      rewrite Hq in H. destruct H.
Qed.

End FromRoot.



(** X16: a root whose document names no further sitemap (a urlset, or a
    failed fetch, or invalid XML) is resolved in one round, with one
    fetch, and the result holds the pages it lists. *)
Theorem leaf_root_one_fetch (sitemap_input : string) :
  nested_of requests_get ET_fromstring timeout ua sitemap_input = [] ->
  exists st out,
    resolve requests_get ET_fromstring timeout ua 1 sitemap_input = Some st
    /\ fetched st = [sitemap_input]
    /\ parse_sitemap requests_get ET_fromstring timeout ua 1 sitemap_input
       = Some out
    /\ NoDup out
    /\ forall p,
        In p out
        <-> In p (pages_of requests_get ET_fromstring timeout ua
                    sitemap_input).
Proof.
  intros Hleaf.
  assert (Hn : fst (visit' ({[sitemap_input]} ∪ ∅) sitemap_input) = []).
  { pose proof (visit_nested_le requests_get ET_fromstring timeout ua
                  ({[sitemap_input]} ∪ ∅) sitemap_input) as Hle.
    rewrite Hleaf in Hle. destruct (fst (visit' _ _)); [reflexivity |].
    cbn in Hle. lia. }
  assert (Hst : resolve' 1 sitemap_input =
                Some {| seen := {[sitemap_input]} ∪ ∅;
                        final_urls := pages_of' sitemap_input;
                        queue := [];
                        fetched := [sitemap_input] |}).
  { unfold resolve. cbn [while_queue initial_state queue].
    rewrite (loop_body_new _ _ _ _ (initial_state sitemap_input)
               sitemap_input [] eq_refl)
      by apply not_elem_of_empty.
    cbn [initial_state seen final_urls fetched app]. rewrite Hn.
    reflexivity. }
  eexists. eexists. split; [exact Hst |]. split; [reflexivity |].
  unfold parse_sitemap. rewrite Hst. cbn.
  split; [reflexivity |]. split; [apply NoDup_elements |].
  intros p. rewrite <- !list_elem_of_In, elem_of_elements, elem_of_list_to_set.
  reflexivity.
Qed.

End Reachability.


(* ===================================================================== *)
(** ** Further properties: namespaces *)
(* ===================================================================== *)

Lemma after_first_brace (ns t : string) :
  PyStr.contains "}"%char ns = false ->
  PyStr.after_first "}"%char (ns ++ String "}"%char t) = t.
Proof.
  induction ns as [| c ns IH]; intros H; string_app.
  - reflexivity.
  - cbn [PyStr.contains] in H. apply orb_false_iff in H as [Hc Hns].
    cbn [PyStr.after_first]. rewrite Hc. exact (IH Hns).
Qed.

Lemma strip_namespace_qualified (ns t : string) :
  PyStr.contains "}"%char ns = false ->
  strip_namespace ("{" ++ ns ++ "}" ++ t) = t.
Proof.
  intros H. unfold strip_namespace. string_app.
  cbn [PyStr.contains PyStr.after_first].
  replace (Ascii.eqb "}"%char "{"%char) with false by reflexivity.
  cbn [orb]. rewrite contains_app_char. apply after_first_brace. exact H.
Qed.

Lemma strip_namespaces_qualify (ns : string) :
  PyStr.contains "}"%char ns = false ->
  forall e, strip_namespaces (qualify ns e) = e.
Proof.
  intros Hns. apply Element_forall_ind. intros t x cs Hcs.
  cbn [qualify strip_namespaces].
  rewrite (strip_namespace_qualified ns t Hns). f_equal.
  induction Hcs as [| c cs Hc _ IH]; [reflexivity |].
  cbn [map]. rewrite Hc, IH. reflexivity.
Qed.

Lemma strip_namespaces_plain :
  forall e, plain e = true -> strip_namespaces e = e.
Proof.
  apply (Element_forall_ind (fun e => plain e = true -> strip_namespaces e = e)).
  intros t x cs Hcs H. cbn [plain] in H.
  apply andb_true_iff in H as [Ht Hall].
  cbn [strip_namespaces]. unfold strip_namespace.
  apply negb_true_iff in Ht. rewrite Ht. f_equal.
  induction Hcs as [| c cs Hc _ IH]; [reflexivity |].
  cbn [forallb] in Hall. apply andb_true_iff in Hall as [Hp Hall].
  cbn [map]. rewrite (Hc Hp), (IH Hall). reflexivity.
Qed.

(** X18: removing the namespaces undoes the qualification of every tag by
    a namespace: a document whose tags are all written [{ns}tag] is
    dispatched as the same document written without namespace. *)
Theorem namespace_is_ignored (ns : string) (e : Element) (seen : gset string) :
  PyStr.contains "}"%char ns = false ->
  strip_namespaces (qualify ns e) = e
  /\ (plain e = true ->
      strip_namespaces e = e
      /\ dispatch seen (strip_namespaces (qualify ns e))
         = dispatch seen (strip_namespaces e)).
Proof.
  intros Hns. pose proof (strip_namespaces_qualify ns Hns e) as Hq.
  split; [exact Hq |]. intros Hp.
  pose proof (strip_namespaces_plain e Hp) as He.
  split; [exact He |]. rewrite Hq, He. reflexivity.
Qed.

(* ===================================================================== *)
(** ** Further properties: the run of [main] *)
(* ===================================================================== *)

Section MainProperties.

Variable urlparse_netloc : string -> option string.
Variable BeautifulSoup : string -> list Node.
Variable requests_get : string -> string -> Z -> option (Z * string).
Variable ET_fromstring : string -> option Element.

Local Abbreviation main' :=
  (main urlparse_netloc BeautifulSoup requests_get ET_fromstring).
Local Abbreviation main_row' :=
  (main_row urlparse_netloc BeautifulSoup requests_get).
Local Abbreviation parse_sitemap' :=
  (parse_sitemap requests_get ET_fromstring 20 UA).

Lemma main_row_url (u domain : string) : url (main_row' u domain) = u.
Proof.
  unfold main_row. destruct (_fetch_text requests_get u 20 UA). reflexivity.
Qed.

Lemma main_row_severity (u domain : string) :
  severity (main_row' u domain) = compute_severity (row (main_row' u domain)).
Proof.
  unfold main_row. destruct (_fetch_text requests_get u 20 UA). reflexivity.
Qed.

Lemma map_url_main_row (domain : string) (urls : list string) :
  map url (map (fun u => main_row' u domain) urls) = urls.
Proof.
  induction urls as [| u urls IH]; [reflexivity |].
  cbn [map]. rewrite main_row_url, IH. reflexivity.
Qed.

Lemma parse_sitemap_nodup (timeout : Z) (ua : string) (fuel : nat)
    (sitemap : string) (urls : list string) :
  parse_sitemap requests_get ET_fromstring timeout ua fuel sitemap = Some urls ->
  NoDup urls.
Proof.
  unfold parse_sitemap.
  destruct (resolve requests_get ET_fromstring timeout ua fuel sitemap);
    [| discriminate].
  cbn. intros H. injection H as <-. apply NoDup_elements.
Qed.

(** X19: when [main] writes a report, the sitemap gave at least one page
    URL; the report has one row for each resolved URL and no URL twice;
    every row is the audit of its URL, with the severity computed from its
    fields; and the ERROR rows come first, then the WARN rows, then the OK
    rows. *)
Theorem main_report (fuel : nat) (sitemap : string) (rows : list SeoMetrics) :
  main' fuel sitemap = Some (ReportWritten rows) ->
  exists netloc urls,
    urlparse_netloc sitemap = Some netloc
    /\ parse_sitemap' fuel sitemap = Some urls
    /\ urls <> []
    /\ Permutation (map url rows) urls
    /\ NoDup (map url rows)
    /\ length rows = length urls
    /\ (forall r, In r rows ->
                  r = main_row' (url r) (remove_all "www." netloc)
                  /\ severity r = compute_severity (row r))
    /\ exists errors warns oks,
        rows = (errors ++ warns ++ oks)%list
        /\ Forall (fun r => severity r = "ERROR") errors
        /\ Forall (fun r => severity r = "WARN") warns
        /\ Forall (fun r => severity r = "OK") oks.
Proof.
  unfold main. destruct (urlparse_netloc sitemap) as [netloc |];
    [| discriminate].
  destruct (parse_sitemap' fuel sitemap) as [urls |] eqn:Hp; [| discriminate].
  intros H.
  assert (Hne : urls <> []) by (intros ->; discriminate H).
  assert (Hrows : rows = sort_rows
                           (map (fun u => main_row' u (remove_all "www." netloc))
                              urls)).
  { destruct urls as [| u0 urls0]; [discriminate H |].
    injection H as <-. reflexivity. }
  clear H.
  set (raw := map (fun u => main_row' u (remove_all "www." netloc)) urls)
    in Hrows.
  pose proof (sort_rows_permutation raw) as Hperm. rewrite <- Hrows in Hperm.
  assert (Hraw : forall r, In r raw ->
                   r = main_row' (url r) (remove_all "www." netloc)
                   /\ severity r = compute_severity (row r)).
  { intros r Hr. apply in_map_iff in Hr as (u & <- & _).
    rewrite main_row_url. split; [reflexivity | apply main_row_severity]. }
  assert (Hmapurl : Permutation (map url rows) urls).
  { rewrite Hperm. unfold raw. rewrite map_url_main_row. reflexivity. }
  exists netloc, urls. split; [reflexivity |]. split; [reflexivity |].
  split; [exact Hne |].
  split; [exact Hmapurl |].
  split.
  { rewrite Hmapurl. exact (parse_sitemap_nodup 20 UA fuel sitemap urls Hp). }
  split.
  { rewrite (Permutation_length Hperm). unfold raw. apply length_map. }
  split.
  { intros r Hr. apply Hraw. apply list_elem_of_In.
    rewrite <- Hperm. apply list_elem_of_In. exact Hr. }
  exists (List.filter (fun r => String.eqb (severity r) "ERROR") raw),
         (List.filter (fun r => String.eqb (severity r) "WARN") raw),
         (List.filter (fun r => negb (String.eqb (severity r) "ERROR")
                                && negb (String.eqb (severity r) "WARN")) raw).
  split; [rewrite Hrows; apply sort_rows_partition |].
  split; [| split]; apply Forall_forall; intros r Hr;
    apply list_elem_of_In in Hr; apply filter_In in Hr as [Hin Hr].
  - apply String.eqb_eq. exact Hr.
  - apply String.eqb_eq. exact Hr.
  - apply andb_true_iff in Hr as [He Hw].
    apply negb_true_iff in He, Hw.
    apply String.eqb_neq in He, Hw.
    destruct (Hraw r Hin) as [_ Hs].
    destruct (compute_severity_values (row r)) as [H | [H | H]];
      rewrite <- Hs in H; [contradiction | contradiction | exact H].
Qed.

(** X20: when [urlparse] raises on the sitemap argument, [main] raises,
    whatever the network does; it is the only exception that this model of
    [main] covers. When the root sitemap cannot be read (a status other
    than 200, an empty body, a failed request or invalid XML), [main] finds
    no page and writes no report, with any fuel of one or more. *)
Theorem main_without_report (sitemap : string) :
  (forall fuel, main' fuel sitemap = Some Raised
                <-> urlparse_netloc sitemap = None)
  /\ (forall netloc fuel,
        urlparse_netloc sitemap = Some netloc ->
        (fst (_fetch_text requests_get sitemap 20 UA) <> 200
         \/ snd (_fetch_text requests_get sitemap 20 UA) = ""
         \/ ET_fromstring (snd (_fetch_text requests_get sitemap 20 UA))
            = None) ->
        main' (S fuel) sitemap = Some NoPagesFound).
Proof.
  split.
  - intros fuel. unfold main.
    destruct (urlparse_netloc sitemap) as [netloc |].
    + split; [| discriminate].
      destruct (parse_sitemap' fuel sitemap) as [[| u urls] |]; discriminate.
    + split; reflexivity.
  - intros netloc fuel Hn Hfail. unfold main. rewrite Hn.
    assert (Hv : forall seen,
               visit requests_get ET_fromstring 20 UA seen sitemap = ([], [])).
    { intros seen. unfold visit.
      destruct (_fetch_text requests_get sitemap 20 UA) as [code body].
      cbn [fst snd] in Hfail.
      destruct (Z.eqb_spec code 200) as [Hc | Hc]; [| reflexivity].
      destruct body as [| c rest]; [reflexivity |]. cbn [negb PyStr.truthy orb].
      destruct Hfail as [H | [H | H]]; [contradiction | discriminate |].
      rewrite H. reflexivity. }
    assert (Hp : parse_sitemap' (S fuel) sitemap = Some []).
    { unfold parse_sitemap, resolve. cbn [while_queue initial_state queue].
      rewrite (loop_body_new _ _ _ _ (initial_state sitemap) sitemap []
                 eq_refl) by apply not_elem_of_empty.
      unfold pages_of. rewrite !Hv.
      cbn [fst snd initial_state final_urls seen fetched app].
      destruct fuel; reflexivity. }
    rewrite Hp. reflexivity.
Qed.

End MainProperties.

(* ===================================================================== *)
(** ** Further properties on concrete inputs *)
(* ===================================================================== *)

Lemma missing_iff_absent_or_blank_witness :
  canonical_status
    (audit_html Examples.simple_netloc Examples.blank_parser
       "https://example.com/a" "<html>...</html>" "example.com") = "MISSING"
  /\ severity
       (audit_fetched Examples.simple_netloc Examples.blank_parser
          "https://example.com/a" 200 "<html>...</html>" "example.com")
     = "ERROR".
Proof.
  destruct (missing_iff_absent_or_blank Examples.simple_netloc
              Examples.blank_parser "https://example.com/a" "<html>...</html>"
              "example.com" 200) as (_ & _ & Hc & Hsev).
  assert (H : canonical_status
                (audit_html Examples.simple_netloc Examples.blank_parser
                   "https://example.com/a" "<html>...</html>" "example.com")
              = "MISSING").
  { apply Hc. vm_compute. intros c [<- | [<- | [<- | []]]]; reflexivity. }
  split; [exact H |]. apply Hsev. right. exact H.
Defined.

Lemma audited_row_ok_iff_witness :
  severity
    (audit_fetched Examples.simple_netloc Examples.page_parser
       "https://example.com/a" 200 "<html>...</html>" "example.com") <> "OK".
Proof.
  intros H.
  apply (audited_row_ok_iff Examples.simple_netloc Examples.page_parser
           "https://example.com/a" 200 "<html>...</html>" "example.com") in H.
  destruct H as (_ & _ & Hw & _). vm_compute in Hw. apply Hw. reflexivity.
Defined.

Lemma unparsable_href_is_internal_witness :
  classify_link Examples.raising_netloc ∅ "example.com" (0, 0, 0)
    (Examples.anchor "http://[bad") = (1, 0, 0).
Proof.
  apply (unparsable_href_is_internal Examples.raising_netloc ∅ "example.com"
           0 0 0 (Examples.anchor "http://[bad"));
    first [reflexivity | discriminate].
Defined.

Lemma mixed_case_domain_external_witness :
  classify_link Examples.simple_netloc ∅ "Example.com" (0, 0, 0)
    (Examples.anchor "https://example.com/b") = (0, 1, 0).
Proof.
  apply (mixed_case_domain_external Examples.simple_netloc ∅ "Example.com"
           0 0 0 (Examples.anchor "https://example.com/b"));
    first [reflexivity | vm_compute; discriminate].
Defined.



Lemma leaf_root_one_fetch_witness :
  exists st out,
    resolve (fetch_in Examples.web_site) Examples.parse_known 20 "ua" 1
      Examples.pages_url = Some st
    /\ fetched st = [Examples.pages_url]
    /\ parse_sitemap (fetch_in Examples.web_site) Examples.parse_known 20 "ua"
         1 Examples.pages_url = Some out
    /\ NoDup out
    /\ forall p,
        In p out
        <-> In p (pages_of (fetch_in Examples.web_site) Examples.parse_known
                    20 "ua" Examples.pages_url).
Proof.
  apply (leaf_root_one_fetch (fetch_in Examples.web_site) Examples.parse_known
           20 "ua" Examples.pages_url).
  vm_compute. reflexivity.
Defined.


Lemma namespace_is_ignored_witness :
  strip_namespaces
    (qualify "http://www.sitemaps.org/schemas/sitemap/0.9" Examples.tree_feed)
  = Examples.tree_feed
  /\ dispatch ∅
       (strip_namespaces
          (qualify "http://www.sitemaps.org/schemas/sitemap/0.9"
             Examples.tree_feed))
     = dispatch ∅ (strip_namespaces Examples.tree_feed).
Proof.
  destruct (namespace_is_ignored "http://www.sitemaps.org/schemas/sitemap/0.9"
              Examples.tree_feed ∅ eq_refl) as [Hq Hp].
  split; [exact Hq |]. apply Hp. reflexivity.
Defined.

Lemma main_report_witness :
  exists rows,
    main Examples.simple_netloc Examples.page_parser
      (fetch_in Examples.web_site) Examples.parse_known 5 Examples.pages_url
    = Some (ReportWritten rows)
    /\ NoDup (map url rows)
    /\ map severity rows = ["ERROR"; "WARN"].
Proof.
  eexists. split; [vm_compute; reflexivity |].
  split; [| vm_compute; reflexivity].
  edestruct (main_report Examples.simple_netloc Examples.page_parser
               (fetch_in Examples.web_site) Examples.parse_known 5
               Examples.pages_url) as (netloc & urls & _ & _ & _ & _ & Hnd & _).
  - vm_compute. reflexivity.
  - exact Hnd.
Defined.

Lemma main_without_report_witness :
  main Examples.simple_netloc Examples.page_parser Examples.offline
    Examples.parse_known 1 Examples.index_url = Some NoPagesFound
  /\ main Examples.raising_netloc Examples.page_parser Examples.offline
       Examples.parse_known 1 Examples.index_url = Some Raised.
Proof.
  split.
  - destruct (main_without_report Examples.simple_netloc Examples.page_parser
                Examples.offline Examples.parse_known Examples.index_url)
      as [_ H].
    apply (H "example.com" 0%nat); [reflexivity |].
    left. vm_compute. discriminate.
  - destruct (main_without_report Examples.raising_netloc Examples.page_parser
                Examples.offline Examples.parse_known Examples.index_url)
      as [H _].
    apply H. reflexivity.
Defined.

Example remove_all_examples :
  remove_all "www." "www.example.com" = "example.com"
  /\ remove_all "www." "Example.com" = "Example.com"
  /\ remove_all "www." "shop.www.example.com" = "shop.example.com"
  /\ remove_all "www." "wwww.example.com" = "wexample.com".
Proof. repeat split. Qed.

(* ===================================================================== *)
(** ** The canonical link when [rel] has several values *)
(* ===================================================================== *)

(** C7, as stated, fails on a page with a [link rel="alternate canonical"]
    before a [link rel="canonical"]: the first [link] element whose [rel]
    equals [canonical] is the second one, whose href is the URL of the
    page, which would give SELF; the canonical link of the record is the
    href of the first one, and the status is OTHER. *)
Lemma canonical_taken_from_link_with_two_rel_values :
  let d := audit_html Examples.simple_netloc Examples.two_links_parser
             "https://example.com/a" "<html>...</html>" "example.com" in
  descendants Examples.two_links_page
  = [ Tag "head" ∅ [Examples.link_alternate; Examples.link_exact];
      Examples.link_alternate; Examples.link_exact ]
  /\ get Examples.link_alternate "rel" = Some "alternate canonical"
  /\ get Examples.link_exact "rel" = Some "canonical"
  /\ PyStr.strip (default "" (get Examples.link_exact "href"))
     = "https://example.com/a"
  /\ PyStr.rstrip_slash "https://example.com/a"
     = PyStr.rstrip_slash "https://example.com/a"
  /\ canonical_link d = "https://example.com/other"
  /\ canonical_link d
     <> PyStr.strip (default "" (get Examples.link_exact "href"))
  /\ canonical_status d = "OTHER"
  /\ canonical_status d <> "SELF".
Proof.
  cbv zeta. repeat split; try (vm_compute; reflexivity);
    vm_compute; discriminate.
Qed.

(* ===================================================================== *)
(** ** The text that [get_text] passes over *)
(* ===================================================================== *)

Example scripted_page_audit :
  let d := audit_html Examples.simple_netloc Examples.scripted_parser
             "https://example.com/a" "<html>...</html>" "example.com" in
  flat_map strings Examples.scripted_page = ["Hello world"]
  /\ word_count d = 2
  /\ title d = ""
  /\ title_status d = "MISSING".
Proof. cbv zeta. repeat split; vm_compute; reflexivity. Qed.

(** What the example documents list, read off the trees: the urlset lists
    the [loc] of its entries, the document with an unknown root the [loc]
    texts that do not end in [.xml]. *)
Example example_listings :
  listed_by_urlset (strip_namespaces Examples.tree_pages) Examples.about_url
  /\ listed_by_urlset (strip_namespaces Examples.tree_pages) Examples.index_url
  /\ listed_by_unknown_root Examples.tree_feed Examples.about_url
  /\ ~ listed_by_unknown_root Examples.tree_feed Examples.pages_url.
Proof.
  split; [| split; [| split]].
  - exists (Elem "url" None [Elem "loc" (Some Examples.about_url) []]),
      (Elem "loc" (Some Examples.about_url) []), Examples.about_url.
    split; [vm_compute; tauto |]. split; [reflexivity |].
    split; [exists [], []; repeat split; intros x [] |].
    split; [reflexivity |]. split; [discriminate | vm_compute; reflexivity].
  - exists (Elem "url" None [Elem "loc" (Some Examples.index_url) []]),
      (Elem "loc" (Some Examples.index_url) []), Examples.index_url.
    split; [vm_compute; tauto |]. split; [reflexivity |].
    split; [exists [], []; repeat split; intros x [] |].
    split; [reflexivity |]. split; [discriminate | vm_compute; reflexivity].
  - exists (Elem "loc" (Some Examples.about_url) []), Examples.about_url.
    split; [apply below_child; vm_compute; tauto |].
    split; [reflexivity |]. split; [reflexivity |].
    split; [discriminate |]. split; [vm_compute; reflexivity |].
    intros Hx. apply (endswith_iff Examples.about_url ".xml") in Hx.
    vm_compute in Hx. discriminate.
  - intros (loc & txt & _ & _ & _ & _ & Hp & Hend). apply Hend.
    exists "https://example.com/pages". reflexivity.
Qed.
